(** * mssql-server-ha: the AG helper and its shared library

    A shallow embedding of the Go sources
      - [mssqlcommon/lib.go]      (OCF exit codes, diagnostics, health check),
      - [mssqlcommon/ag/lib.go]   (T-SQL gateway of an Availability Group),
      - the [ag-helper] main package ([doMain], [promote], ...),
    followed by the properties of the specification that they satisfy.

    Conventions.
      - Go [string] is a sequence of bytes: Rocq [string].
      - Go [int], [uint], [int64] are 64 bit wide (the helper is built for
        linux/amd64); they are integers of [Z] with the wrap-around written
        where the source can overflow.
      - A Go [error] is [option error], [None] being [nil].
      - Output on [stdout] is a log only and is left out; what goes to
        [stderr] and the exit status are kept.
      - The remote SQL Server instance is an oracle: its answer to a request
        is a function of all the requests it has received so far. *)

From stdpp Require Import gmap strings list pretty.
From Stdlib Require Import ZArith Lia Ascii.

Open Scope Z_scope.

(* ===================================================================== *)
(** * Machine integers and text                                            *)
(* ===================================================================== *)

Definition MaxInt32 : Z := 2 ^ 31 - 1.
Definition MaxInt64 : Z := 2 ^ 63 - 1.
Definition MinInt64 : Z := - 2 ^ 63.
Definition MaxUint : Z := 2 ^ 64 - 1.

(** Arithmetic on [uint] is modulo [2^64]. *)
Definition wrapUint (z : Z) : Z := z mod 2 ^ 64.

(** A Go string is no longer than the largest [int]. *)
Definition goString (s : string) : Prop := Z.of_nat (String.length s) <= MaxInt64.

(** The double quote and the line feed, as bytes and as one-byte strings. *)
Definition dquote : ascii := ascii_of_nat 34.
Definition linefeed : ascii := ascii_of_nat 10.
Definition DQ : string := String dquote EmptyString.
Definition LF : string := String linefeed EmptyString.

(** The verb [%d] of [fmt]. *)
Definition fmtD (z : Z) : string := pretty z.

(** [strconv.Quote] on text that needs no escaping (digits, here). *)
Definition Quote (s : string) : string := DQ +:+ s +:+ DQ.

Definition isDigit (c : ascii) : bool :=
  let n := nat_of_ascii c in (48 <=? n)%nat && (n <=? 57)%nat.

Definition digitValue (c : ascii) : Z := Z.of_nat (nat_of_ascii c) - 48.

(** The value of a string of decimal digits, most significant first. *)
Fixpoint decimalFrom (acc : Z) (s : string) : Z :=
  match s with
  | EmptyString => acc
  | String c rest => decimalFrom (10 * acc + digitValue c) rest
  end.

Definition decimalValue (s : string) : Z := decimalFrom 0 s.

Fixpoint allDigits (s : string) : bool :=
  match s with
  | EmptyString => true
  | String c rest => isDigit c && allDigits rest
  end.

(** Every byte of [s] satisfies [keep]. *)
Fixpoint allBytes (keep : ascii -> bool) (s : string) : bool :=
  match s with
  | EmptyString => true
  | String c rest => keep c && allBytes keep rest
  end.

Definition isEmpty (s : string) : bool :=
  match s with EmptyString => true | _ => false end.

(** [strconv.ParseInt(s, 10, 64)]: an optional sign, then one decimal digit
    or more; the value has to fit [int64].  The result is the value or the
    text of the [*strconv.NumError]. *)
Definition signedDecimal (s : string) : option Z :=
  match s with
  | EmptyString => None
  | String c rest =>
      if Ascii.eqb c "-" then
        if isEmpty rest || negb (allDigits rest) then None
        else Some (- decimalValue rest)
      else if Ascii.eqb c "+" then
        if isEmpty rest || negb (allDigits rest) then None
        else Some (decimalValue rest)
      else if allDigits s then Some (decimalValue s) else None
  end.

Definition parseSigned (fn s : string) : string + Z :=
  match signedDecimal s with
  | None => inl ("strconv." +:+ fn +:+ ": parsing " +:+ Quote s +:+ ": invalid syntax")
  | Some v =>
      if (MinInt64 <=? v) && (v <=? MaxInt64) then inr v
      else inl ("strconv." +:+ fn +:+ ": parsing " +:+ Quote s +:+ ": value out of range")
  end.

Definition ParseInt (s : string) : string + Z := parseSigned "ParseInt" s.

(** [strconv.Atoi]: [ParseInt(s, 10, 0)] with [int] of 64 bits. *)
Definition Atoi (s : string) : string + Z := parseSigned "Atoi" s.

(** [strings.Split(s, sep)] for a separator of one byte: the pieces between
    the separators, one piece more than there are separators. *)
Fixpoint Split (s : string) (sep : ascii) : list string :=
  match s with
  | EmptyString => [EmptyString]
  | String c rest =>
      if Ascii.eqb c sep then EmptyString :: Split rest sep
      else match Split rest sep with
           | piece :: pieces => String c piece :: pieces
           | [] => [String c EmptyString]
           end
  end.

(** [strings.Replace(s, old, new, -1)] for a non-empty [old]: scanning from
    the left, every occurrence of [old] that does not overlap an earlier one
    is replaced by [new].  [skip] counts the bytes of the occurrence being
    replaced that are still to be dropped. *)
Fixpoint replaceFrom (old new : string) (skip : nat) (s : string) : string :=
  match s with
  | EmptyString => EmptyString
  | String c rest =>
      match skip with
      | S k => replaceFrom old new k rest
      | O =>
          if String.prefix old s
          then new +:+ replaceFrom old new (String.length old - 1) rest
          else String c (replaceFrom old new O rest)
      end
  end.

Definition Replace (s old new : string) : string := replaceFrom old new 0 s.

(** [strings.Join] *)
Fixpoint Join (pieces : list string) (sep : string) : string :=
  match pieces with
  | [] => EmptyString
  | [p] => p
  | p :: rest => p +:+ sep +:+ Join rest sep
  end.

(** If [s] starts with [p], what follows [p]. *)
Fixpoint stripPrefix (p s : string) : option string :=
  match p, s with
  | EmptyString, _ => Some s
  | String a p', String b s' => if Ascii.eqb a b then stripPrefix p' s' else None
  | String _ _, EmptyString => None
  end.

(** The longest prefix of [s] whose bytes satisfy [keep], and the rest. *)
Fixpoint span (keep : ascii -> bool) (s : string) : string * string :=
  match s with
  | EmptyString => (EmptyString, EmptyString)
  | String c rest =>
      if keep c then let '(run, tail) := span keep rest in (String c run, tail)
      else (EmptyString, s)
  end.

(** [bufio.Scanner] with [bufio.ScanLines] over the whole content of a
    file: the lines without their terminator (a line feed, with the
    carriage return before it when there is one); a last line without
    terminator counts when it is not empty.  The scanner holds a line in a
    buffer of at most [MaxScanTokenSize] bytes, which has to take the line
    feed as well, or one more read at the end of the file: at a line of
    that many bytes or more [Scan] returns false, and no line after it is
    read. *)
Definition dropCR (line : string) : string :=
  match String.rev line with
  | String c rest => if Ascii.eqb c (ascii_of_nat 13) then String.rev rest else line
  | EmptyString => line
  end.

Definition MaxScanTokenSize : Z := 64 * 1024.

Definition fitsScanner (line : string) : bool :=
  Z.of_nat (String.length line) <? MaxScanTokenSize.

Fixpoint scanWhileFits (lines : list string) : list string :=
  match lines with
  | [] => []
  | line :: rest => if fitsScanner line then line :: scanWhileFits rest else []
  end.

Definition ScanLines (content : string) : list string :=
  let pieces := Split content linefeed in
  let terminated := removelast pieces in
  let final := default EmptyString (last pieces) in
  map dropCR
    (scanWhileFits (if isEmpty final then terminated else terminated ++ [final])).

(* ===================================================================== *)
(** * Errors and the SQL Server instance                                   *)
(* ===================================================================== *)

(** The values of Go's [error] that the helper builds or tells apart. *)
Inductive error : Type :=
| ErrNoRows                                         (* sql.ErrNoRows *)
| errorString (text : string)                       (* errors.New, fmt.Errorf, driver errors *)
| ServerUnhealthyError (RawValue : Z) (Inner : error).

(** type ServerHealth uint *)
Definition ServerDownOrUnresponsive : Z := 1.
Definition ServerCriticalError : Z := 3.
Definition ServerModerateError : Z := 4.
Definition ServerAnyQualifiedError : Z := 5.

(** func (err *ServerUnhealthyError) Error() string, and [Error] of the
    other errors. *)
Fixpoint Error (err : error) : string :=
  match err with
  | ErrNoRows => "sql: no rows in result set"
  | errorString text => text
  | ServerUnhealthyError RawValue Inner =>
      if RawValue =? ServerAnyQualifiedError then "AnyQualified " +:+ Error Inner
      else if RawValue =? ServerModerateError then "Moderate " +:+ Error Inner
      else if RawValue =? ServerCriticalError then "Critical " +:+ Error Inner
      else if RawValue =? ServerDownOrUnresponsive then "Unresponsive or down " +:+ Error Inner
      else "Unknown (" +:+ fmtD RawValue +:+ ") " +:+ Error Inner
  end.

Definition isErrNoRows (err : error) : bool :=
  match err with ErrNoRows => true | _ => false end.

(** A parameter of a parameterized statement. *)
Inductive SqlArg : Type :=
| ArgString (s : string)
| ArgInt (z : Z).

(** The SELECT statements of the gateway, by what they read. *)
Inductive Select : Type :=
| SelectRole
| SelectAvailabilityMode
| SelectDBFailoverMode
| SelectNumSyncCommitReplicas
| SelectSequenceNumber
| SelectDatabaseStates.

(** What the helper asks of the world outside the process, in order. *)
Inductive Request : Type :=
| Open (hostname : string) (port : Z) (username password applicationName : string)
       (timeoutSeconds : Z)                          (* sql.Open of the connection string *)
| Ping                                               (* db.Ping *)
| Close                                              (* db.Close *)
| Exec (statement : string) (args : list SqlArg)     (* db.Exec *)
| QueryRow (query : Select) (agName : string)        (* db.QueryRow / stmt.Query *)
| QueryServerDiagnostics                             (* db.Query("EXEC sp_server_diagnostics") *)
| Sleep (seconds : Z).                               (* time.Sleep *)

(** One row of [sp_server_diagnostics] as [rows.Scan] leaves it: an error,
    or the columns the helper reads. *)
Record DiagnosticsRow : Type := {
  componentName : string;
  state : Z
}.

(** One row of the database-state query. *)
Record DatabaseStateRow : Type := {
  stateDesc : string;
  numDatabases : Z
}.

(** The SQL Server instance: every answer is a function of the requests
    made so far, the one being answered first. *)
Record Server : Type := {
  opened : list Request -> option error;
  pinged : list Request -> option error;
  executed : list Request -> option error;
  roleRow : list Request -> error + (Z * string);
  availabilityModeRow : list Request -> error + (Z * string);
  dbFailoverRow : list Request -> error + bool;
  numSyncCommitReplicasRow : list Request -> error + Z;
  sequenceNumberRow : list Request -> error + Z;
  databaseStateRows : list Request -> error + (list (error + DatabaseStateRow) * option error);
  diagnosticsRows : list Request -> error + (list (error + DiagnosticsRow) * option error)
}.

(** What a [*sql.DB] stands for: the instance behind the handle and the
    requests made so far, the latest first. *)
Record Instance : Type := {
  server : Server;
  requests : list Request
}.

Definition ask (r : Request) (db : Instance) : Instance :=
  {| server := server db; requests := r :: requests db |}.

(** The DDL statements and stored procedures run so far, oldest last. *)
Definition statements (db : Instance) : list string :=
  omap (fun r => match r with Exec statement _ => Some statement | _ => None end)
       (requests db).

Definition exec (statement : string) (args : list SqlArg) (db : Instance)
  : Instance * option error :=
  let db := ask (Exec statement args) db in
  (db, executed (server db) (requests db)).

(* ===================================================================== *)
(** * Package mssqlcommon                                                  *)
(* ===================================================================== *)

Module mssqlcommon.

Record Diagnostics : Type := {
  System : bool;
  Resource : bool;
  QueryProcessing : bool
}.

(** The package-level variables of type [OcfExitCode]. *)
Record OcfExitCodes : Type := {
  OCF_ERR_CONFIGURED : Z;
  OCF_ERR_GENERIC : Z;
  OCF_ERR_ARGS : Z;
  OCF_ERR_PERM : Z;
  OCF_ERR_UNIMPLEMENTED : Z;
  OCF_FAILED_MASTER : Z;
  OCF_NOT_RUNNING : Z;
  OCF_RUNNING_MASTER : Z;
  OCF_SUCCESS : Z
}.

(** Their values when the process starts. *)
Definition zeroCodes : OcfExitCodes := Build_OcfExitCodes 0 0 0 0 0 0 0 0 0.

Definition set_OCF_ERR_CONFIGURED (v : Z) (c : OcfExitCodes) : OcfExitCodes :=
  Build_OcfExitCodes v (OCF_ERR_GENERIC c) (OCF_ERR_ARGS c) (OCF_ERR_PERM c)
    (OCF_ERR_UNIMPLEMENTED c) (OCF_FAILED_MASTER c) (OCF_NOT_RUNNING c)
    (OCF_RUNNING_MASTER c) (OCF_SUCCESS c).
Definition set_OCF_ERR_GENERIC (v : Z) (c : OcfExitCodes) : OcfExitCodes :=
  Build_OcfExitCodes (OCF_ERR_CONFIGURED c) v (OCF_ERR_ARGS c) (OCF_ERR_PERM c)
    (OCF_ERR_UNIMPLEMENTED c) (OCF_FAILED_MASTER c) (OCF_NOT_RUNNING c)
    (OCF_RUNNING_MASTER c) (OCF_SUCCESS c).
Definition set_OCF_ERR_ARGS (v : Z) (c : OcfExitCodes) : OcfExitCodes :=
  Build_OcfExitCodes (OCF_ERR_CONFIGURED c) (OCF_ERR_GENERIC c) v (OCF_ERR_PERM c)
    (OCF_ERR_UNIMPLEMENTED c) (OCF_FAILED_MASTER c) (OCF_NOT_RUNNING c)
    (OCF_RUNNING_MASTER c) (OCF_SUCCESS c).
Definition set_OCF_ERR_PERM (v : Z) (c : OcfExitCodes) : OcfExitCodes :=
  Build_OcfExitCodes (OCF_ERR_CONFIGURED c) (OCF_ERR_GENERIC c) (OCF_ERR_ARGS c) v
    (OCF_ERR_UNIMPLEMENTED c) (OCF_FAILED_MASTER c) (OCF_NOT_RUNNING c)
    (OCF_RUNNING_MASTER c) (OCF_SUCCESS c).
Definition set_OCF_ERR_UNIMPLEMENTED (v : Z) (c : OcfExitCodes) : OcfExitCodes :=
  Build_OcfExitCodes (OCF_ERR_CONFIGURED c) (OCF_ERR_GENERIC c) (OCF_ERR_ARGS c)
    (OCF_ERR_PERM c) v (OCF_FAILED_MASTER c) (OCF_NOT_RUNNING c)
    (OCF_RUNNING_MASTER c) (OCF_SUCCESS c).
Definition set_OCF_FAILED_MASTER (v : Z) (c : OcfExitCodes) : OcfExitCodes :=
  Build_OcfExitCodes (OCF_ERR_CONFIGURED c) (OCF_ERR_GENERIC c) (OCF_ERR_ARGS c)
    (OCF_ERR_PERM c) (OCF_ERR_UNIMPLEMENTED c) v (OCF_NOT_RUNNING c)
    (OCF_RUNNING_MASTER c) (OCF_SUCCESS c).
Definition set_OCF_NOT_RUNNING (v : Z) (c : OcfExitCodes) : OcfExitCodes :=
  Build_OcfExitCodes (OCF_ERR_CONFIGURED c) (OCF_ERR_GENERIC c) (OCF_ERR_ARGS c)
    (OCF_ERR_PERM c) (OCF_ERR_UNIMPLEMENTED c) (OCF_FAILED_MASTER c) v
    (OCF_RUNNING_MASTER c) (OCF_SUCCESS c).
Definition set_OCF_RUNNING_MASTER (v : Z) (c : OcfExitCodes) : OcfExitCodes :=
  Build_OcfExitCodes (OCF_ERR_CONFIGURED c) (OCF_ERR_GENERIC c) (OCF_ERR_ARGS c)
    (OCF_ERR_PERM c) (OCF_ERR_UNIMPLEMENTED c) (OCF_FAILED_MASTER c)
    (OCF_NOT_RUNNING c) v (OCF_SUCCESS c).
Definition set_OCF_SUCCESS (v : Z) (c : OcfExitCodes) : OcfExitCodes :=
  Build_OcfExitCodes (OCF_ERR_CONFIGURED c) (OCF_ERR_GENERIC c) (OCF_ERR_ARGS c)
    (OCF_ERR_PERM c) (OCF_ERR_UNIMPLEMENTED c) (OCF_FAILED_MASTER c)
    (OCF_NOT_RUNNING c) (OCF_RUNNING_MASTER c) v.

(** [os.Getenv]: the empty string for a variable that is not set. *)
Definition Getenv (environ : gmap string string) (name : string) : string :=
  default EmptyString (environ !! name).

(** func importOcfExitCode(name string) (OcfExitCode, error) *)
Definition importOcfExitCode (environ : gmap string string) (name : string)
  : Z * option error :=
  let stringValue := Getenv environ name in
  match Atoi stringValue with
  | inl _ =>
      (0, Some (errorString
                  (name +:+ " is set to an invalid value [" +:+ stringValue +:+ "]")))
  | inr intValue => (intValue, None)
  end.

(** One step of [ImportOcfExitCodes]:
    [SLOT, err = importOcfExitCode(name); if err != nil { return err }]. *)
Definition importInto (set : Z -> OcfExitCodes -> OcfExitCodes) (name : string)
    (environ : gmap string string)
    (next : OcfExitCodes -> OcfExitCodes * option error)
    (c : OcfExitCodes) : OcfExitCodes * option error :=
  let '(value, err) := importOcfExitCode environ name in
  let c := set value c in
  match err with
  | Some e => (c, Some e)
  | None => next c
  end.

(** func ImportOcfExitCodes() error *)
Definition ImportOcfExitCodes (environ : gmap string string) (c : OcfExitCodes)
  : OcfExitCodes * option error :=
  importInto set_OCF_ERR_CONFIGURED "OCF_ERR_CONFIGURED" environ (
  importInto set_OCF_ERR_GENERIC "OCF_ERR_GENERIC" environ (
  importInto set_OCF_ERR_ARGS "OCF_ERR_ARGS" environ (
  importInto set_OCF_ERR_PERM "OCF_ERR_PERM" environ (
  importInto set_OCF_ERR_UNIMPLEMENTED "OCF_ERR_UNIMPLEMENTED" environ (
  importInto set_OCF_FAILED_MASTER "OCF_FAILED_MASTER" environ (
  importInto set_OCF_NOT_RUNNING "OCF_NOT_RUNNING" environ (
  importInto set_OCF_RUNNING_MASTER "OCF_RUNNING_MASTER" environ (
  importInto set_OCF_SUCCESS "OCF_SUCCESS" environ (
  fun c => (c, None)))))))))) c.

(** func Diagnose(diagnostics Diagnostics) error *)
Definition Diagnose (diagnostics : Diagnostics) : option error :=
  if negb (System diagnostics) then
    Some (ServerUnhealthyError ServerCriticalError
            (errorString "sp_server_diagnostics result indicates system error"))
  else if negb (Resource diagnostics) then
    Some (ServerUnhealthyError ServerModerateError
            (errorString "sp_server_diagnostics result indicates resource error"))
  else if negb (QueryProcessing diagnostics) then
    Some (ServerUnhealthyError ServerAnyQualifiedError
            (errorString "sp_server_diagnostics result indicates query processing error"))
  else None.

(** How a process ends. *)
Inductive Outcome : Type :=
| Exited (status : Z)          (* os.Exit(status) *)
| Panicked                     (* nil pointer dereference *)
| Running.                     (* still waiting when the schedule or the fuel ran out *)

(** Arithmetic on [int] is modulo [2^64], in two's complement. *)
Definition wrapInt (z : Z) : Z := (z + 2 ^ 63) mod 2 ^ 64 - 2 ^ 63.

(** func Exit(logger *log.Logger, exitCode int, err error) error:
    the lines of the error go to the logger, then the process exits. *)
Definition Exit (logged : list string) (exitCode : Z) (err : option error)
  : list string * Outcome :=
  (match err with
   | Some e => logged ++ Split (Error e) linefeed
   | None => logged
   end,
   Exited exitCode).

(** func OcfExit(logger *log.Logger, ocfExitCode OcfExitCode, err error) error *)
Definition OcfExit (logged : list string) (ocfExitCode : Z) (err : option error)
  : list string * Outcome :=
  Exit logged (wrapInt (ocfExitCode + 10)) err.

(** func OpenDB(hostname, port, username, password, applicationName,
    connectionTimeout): [None] is a live connection, [Some err] no
    connection and the error.  The duration is in nanoseconds; the
    connection string carries it in seconds. *)
Definition OpenDB (db : Instance) (hostname : string) (port : Z)
    (username password applicationName : string) (connectionTimeout : Z)
  : Instance * option error :=
  let db := ask (Open hostname port username password applicationName
                   (Z.quot connectionTimeout 1000000000)) db in
  match opened (server db) (requests db) with
  | Some err => (db, Some (ServerUnhealthyError ServerDownOrUnresponsive err))
  | None =>
      let db := ask Ping db in
      match pinged (server db) (requests db) with
      | Some err =>
          (ask Close db, Some (ServerUnhealthyError ServerDownOrUnresponsive err))
      | None => (db, None)
      end
  end.

(** The loop of [QueryDiagnostics] over the rows that [rows.Next] yields;
    a row that does not scan ends it. *)
Fixpoint scanDiagnostics (rows : list (error + DiagnosticsRow)) (result : Diagnostics)
  : Diagnostics :=
  match rows with
  | [] => result
  | inl _ :: _ => result
  | inr row :: rest =>
      scanDiagnostics rest
        (if String.eqb (componentName row) "system" then
           {| System := state row =? 1; Resource := Resource result;
              QueryProcessing := QueryProcessing result |}
         else if String.eqb (componentName row) "resource" then
           {| System := System result; Resource := state row =? 1;
              QueryProcessing := QueryProcessing result |}
         else if String.eqb (componentName row) "query_processing" then
           {| System := System result; Resource := Resource result;
              QueryProcessing := state row =? 1 |}
         else result)
  end.

(** func QueryDiagnostics(db *sql.DB) (result Diagnostics, err error) *)
Definition QueryDiagnostics (db : Instance) : Instance * (Diagnostics * option error) :=
  let result := {| System := false; Resource := false; QueryProcessing := false |} in
  let db := ask QueryServerDiagnostics db in
  match diagnosticsRows (server db) (requests db) with
  | inl err => (db, (result, Some err))
  | inr (rows, rowsErr) => (db, (scanDiagnostics rows result, rowsErr))
  end.

(** func ReadCredentialsFile(filename string) (username, password string, err error) *)
Definition ReadCredentialsFile (files : gmap string string) (filename : string)
  : (string * string) + error :=
  match files !! filename with
  | None => inr (errorString ("open " +:+ filename +:+ ": no such file or directory"))
  | Some content =>
      match ScanLines content with
      | [] => inr (errorString "Could not read first line to extract username.")
      | [_] => inr (errorString "Could not read second line to extract password.")
      | username :: password :: _ => inl (username, password)
      end
  end.

(** ** OpenDBWithHealthCheck

    Two parties: the connector goroutine and the main flow, which meet on
    the unbuffered channels [dbChannel] and [errChannel]; [timeoutChannel]
    holds a value once the timer has fired.  A schedule says whose turn it
    is; a turn that is not possible in the current state changes nothing
    (the party is blocked). *)

(** A variable of type [*sql.DB]. *)
Inductive Handle : Type :=
| NilDB
| OpenedDB.

(** Where the connector goroutine stands; [i] is its attempt counter. *)
Inductive Connector : Type :=
| Attempting (i : Z)                  (* at the head of the loop; its [db] is nil *)
| SendingDB                           (* blocked in [dbChannel <- db] *)
| SendingErr (i : Z) (err : error)    (* blocked in [errChannel <- err] *)
| Sleeping (i : Z)                    (* in [time.Sleep] *)
| Finished.                           (* returned *)

(** Where the main flow stands: in the [select], with its variable [err],
    or returned with its results [db] and [err]. *)
Inductive MainFlow : Type :=
| Selecting (err : option error)
| Returned (db : Handle) (err : option error).

Record HealthCheck : Type := {
  connector : Connector;
  timeoutChannel : bool;
  mainFlow : MainFlow;
  instance : Instance;
  (** Bookkeeping that the source does not have: the errors the main flow
      has received on [errChannel], the latest first. *)
  observed : list error
}.

Inductive Turn : Type :=
| ConnectorRuns       (* the connector goroutine runs up to its next blocking point *)
| TimerFires          (* the deadline passes *)
| ReceiveDB           (* select takes [db = <-dbChannel] *)
| ReceiveErr          (* select takes [err = <-errChannel] *)
| ReceiveTimeout.     (* select takes [<-timeoutChannel] *)

Section OpenDBWithHealthCheck.

Variables (hostname : string) (port : Z).
Variables (username password applicationName : string).
Variable connectionTimeout : Z.

(** The error built when the deadline passes before any failure was
    received. *)
Definition timedOut : error :=
  ServerUnhealthyError ServerDownOrUnresponsive
    (errorString ("timed out while attempting to connect to the instance at "
                  +:+ hostname +:+ ":" +:+ fmtD port
                  +:+ " and run sp_server_diagnostics")).

Definition turn (t : Turn) (s : HealthCheck) : HealthCheck :=
  match t, connector s, mainFlow s with
  | ConnectorRuns, Attempting i, _ =>
      let '(db, err) := OpenDB (instance s) hostname port username password
                          applicationName connectionTimeout in
      {| connector := match err with
                      | None => SendingDB
                      | Some e => SendingErr i e
                      end;
         timeoutChannel := timeoutChannel s; mainFlow := mainFlow s;
         instance := db; observed := observed s |}
  | ConnectorRuns, Sleeping i, _ =>
      {| connector := Attempting (wrapUint (i + 1));
         timeoutChannel := timeoutChannel s; mainFlow := mainFlow s;
         instance := ask (Sleep 1) (instance s); observed := observed s |}
  | TimerFires, _, _ =>
      {| connector := connector s; timeoutChannel := true;
         mainFlow := mainFlow s; instance := instance s;
         observed := observed s |}
  | ReceiveDB, SendingDB, Selecting _ =>
      let '(db, (diagnostics, err)) := QueryDiagnostics (instance s) in
      match err with
      | Some e =>
          {| connector := Finished; timeoutChannel := timeoutChannel s;
             mainFlow := Returned NilDB (Some e);
             instance := ask Close db; observed := observed s |}
      | None =>
          {| connector := Finished; timeoutChannel := timeoutChannel s;
             mainFlow := Returned OpenedDB (Diagnose diagnostics);
             instance := db; observed := observed s |}
      end
  | ReceiveErr, SendingErr i e, Selecting _ =>
      {| connector := Sleeping i; timeoutChannel := timeoutChannel s;
         mainFlow := Selecting (Some e); instance := instance s;
         observed := e :: observed s |}
  | ReceiveTimeout, _, Selecting err =>
      if timeoutChannel s then
        {| connector := connector s; timeoutChannel := false;
           mainFlow := Returned NilDB (Some (match err with
                                             | None => timedOut
                                             | Some e => e
                                             end));
           instance := instance s; observed := observed s |}
      else s
  | _, _, _ => s
  end.

(** The turns of a schedule, up to the return of the main flow. *)
Fixpoint run (schedule : list Turn) (s : HealthCheck) : HealthCheck :=
  match mainFlow s, schedule with
  | Returned _ _, _ => s
  | Selecting _, [] => s
  | Selecting _, t :: rest => run rest (turn t s)
  end.

(** The state in which [OpenDBWithHealthCheck] enters its loop. *)
Definition entered (db : Instance) : HealthCheck :=
  {| connector := Attempting 1; timeoutChannel := false;
     mainFlow := Selecting None; instance := db; observed := [] |}.

(** func OpenDBWithHealthCheck(...) (db *sql.DB, err error), under a
    schedule: the results, or nothing when the schedule ends first. *)
Definition OpenDBWithHealthCheck (schedule : list Turn) (db : Instance)
  : Instance * option (Handle * option error) :=
  let s := run schedule (entered db) in
  (instance s,
   match mainFlow s with
   | Returned h err => Some (h, err)
   | Selecting _ => None
   end).

End OpenDBWithHealthCheck.

End mssqlcommon.

(* ===================================================================== *)
(** * Package mssqlcommon/ag                                               *)
(* ===================================================================== *)

Module mssqlag.

(** type AvailabilityMode byte *)
Definition AmASYNCHRONOUS_COMMIT : Z := 0.
Definition AmSYNCHRONOUS_COMMIT : Z := 1.
Definition AmCONFIGURATION_ONLY : Z := 4.

(** type Role byte *)
Definition RoleRESOLVING : Z := 0.
Definition RolePRIMARY : Z := 1.
Definition RoleSECONDARY : Z := 2.

(** func quoteName(s string) string *)
Definition quoteName (s : string) : string :=
  "[" +:+ Replace s "]" "]]" +:+ "]".

(** [rows.Scan] into an integer variable fails when the value does not
    fit the type of the variable. *)
Definition scanInteger (lo hi : Z) (v : Z) : error + Z :=
  if (lo <=? v) && (v <=? hi) then inr v
  else inl (errorString "sql: Scan error: value out of range").

(** func Failover(db *sql.DB, agName string) error *)
Definition Failover (db : Instance) (agName : string) : Instance * option error :=
  exec ("ALTER AVAILABILITY GROUP " +:+ quoteName agName +:+ " FAILOVER") [] db.

(** func GetAvailabilityMode(db, agName) (AvailabilityMode, string, error) *)
Definition GetAvailabilityMode (db : Instance) (agName : string)
  : Instance * (error + (Z * string)) :=
  let db := ask (QueryRow SelectAvailabilityMode agName) db in
  (db,
   match availabilityModeRow (server db) (requests db) with
   | inl err => inl err
   | inr (availabilityMode, availabilityModeDesc) =>
       match scanInteger 0 255 availabilityMode with
       | inl err => inl err
       | inr availabilityMode => inr (availabilityMode, availabilityModeDesc)
       end
   end).

(** The loop of [GetDatabaseStates] over the rows. *)
Fixpoint describeDatabaseStates (rows : list (error + DatabaseStateRow)) (result : string)
  : string * option error :=
  match rows with
  | [] => (result, None)
  | inl err :: _ => (result, Some err)
  | inr row :: rest =>
      describeDatabaseStates rest
        (result +:+ fmtD (numDatabases row) +:+ " databases are "
                +:+ stateDesc row +:+ ", ")
  end.

(** [strings.TrimSuffix] *)
Definition TrimSuffix (s suffix : string) : string :=
  match stripPrefix (String.rev suffix) (String.rev s) with
  | Some kept => String.rev kept
  | None => s
  end.

(** func GetDatabaseStates(db, agName) (result string, err error) *)
Definition GetDatabaseStates (db : Instance) (agName : string)
  : Instance * (string * option error) :=
  let db := ask (QueryRow SelectDatabaseStates agName) db in
  (db,
   match databaseStateRows (server db) (requests db) with
   | inl err => (EmptyString, Some err)
   | inr (rows, rowsErr) =>
       match describeDatabaseStates rows EmptyString with
       | (result, Some err) => (result, Some err)
       | (result, None) => (TrimSuffix result ", ", rowsErr)
       end
   end).

(** func GetDBFailoverMode(db, agName) (dbFailoverMode bool, err error) *)
Definition GetDBFailoverMode (db : Instance) (agName : string)
  : Instance * (error + bool) :=
  let db := ask (QueryRow SelectDBFailoverMode agName) db in
  (db, dbFailoverRow (server db) (requests db)).

(** func GetNumSyncCommitReplicas(db, agName) (numReplicas uint, err error) *)
Definition GetNumSyncCommitReplicas (db : Instance) (agName : string)
  : Instance * (error + Z) :=
  let db := ask (QueryRow SelectNumSyncCommitReplicas agName) db in
  (db,
   match numSyncCommitReplicasRow (server db) (requests db) with
   | inl err => inl err
   | inr numReplicas => scanInteger 0 MaxUint numReplicas
   end).

(** func GetRole(db, agName) (role Role, roleDesc string, err error) *)
Definition GetRole (db : Instance) (agName : string)
  : Instance * (error + (Z * string)) :=
  let db := ask (QueryRow SelectRole agName) db in
  (db,
   match roleRow (server db) (requests db) with
   | inl err => inl err
   | inr (role, roleDesc) =>
       match scanInteger 0 255 role with
       | inl err => inl err
       | inr role => inr (role, roleDesc)
       end
   end).

(** func GetSequenceNumber(db, agName) (sequenceNumber int64, err error) *)
Definition GetSequenceNumber (db : Instance) (agName : string)
  : Instance * (error + Z) :=
  let db := ask (QueryRow SelectSequenceNumber agName) db in
  (db,
   match sequenceNumberRow (server db) (requests db) with
   | inl err => inl err
   | inr sequenceNumber => scanInteger MinInt64 MaxInt64 sequenceNumber
   end).

Definition TAB : string := String (ascii_of_nat 9) EmptyString.

(** func SetRequiredSynchronizedSecondariesToCommit(db, agName, newValue int32) *)
Definition SetRequiredSynchronizedSecondariesToCommit
    (db : Instance) (agName : string) (newValue : Z) : Instance * option error :=
  exec (LF +:+ TAB +:+ TAB +:+ "DECLARE @num_ags INT;"
        +:+ LF +:+ TAB +:+ TAB
        +:+ "SELECT @num_ags = COUNT(*) FROM sys.availability_groups WHERE name = ? AND required_synchronized_secondaries_to_commit = ?;"
        +:+ LF +:+ TAB +:+ TAB +:+ "IF @num_ags = 0"
        +:+ LF +:+ TAB +:+ TAB +:+ TAB
        +:+ "ALTER AVAILABILITY GROUP " +:+ quoteName agName
        +:+ " SET (REQUIRED_SYNCHRONIZED_SECONDARIES_TO_COMMIT = " +:+ fmtD newValue +:+ ")"
        +:+ LF +:+ TAB +:+ TAB +:+ ";"
        +:+ LF +:+ TAB)
       [ArgString agName; ArgInt newValue] db.

(** func SetRoleToSecondary(db *sql.DB, agName string) (err error) *)
Definition SetRoleToSecondary (db : Instance) (agName : string)
  : Instance * option error :=
  exec ("ALTER AVAILABILITY GROUP " +:+ quoteName agName +:+ " SET (ROLE = SECONDARY)")
       [] db.

(** func Drop(db *sql.DB, agName string) error *)
Definition Drop (db : Instance) (agName : string) : Instance * option error :=
  exec ("DROP AVAILABILITY GROUP " +:+ quoteName agName) [] db.

(** func FailoverWithDataLoss(db *sql.DB, agName string) error *)
Definition FailoverWithDataLoss (db : Instance) (agName : string)
  : Instance * option error :=
  exec ("ALTER AVAILABILITY GROUP " +:+ quoteName agName
        +:+ " FORCE_FAILOVER_ALLOW_DATA_LOSS") [] db.

(** func GrantCreateAnyDatabase(db *sql.DB, agName string) (err error) *)
Definition GrantCreateAnyDatabase (db : Instance) (agName : string)
  : Instance * option error :=
  exec ("ALTER AVAILABILITY GROUP " +:+ quoteName agName
        +:+ " GRANT CREATE ANY DATABASE") [] db.

End mssqlag.

(* ===================================================================== *)
(** * Package main of ag-helper                                            *)
(* ===================================================================== *)

Module aghelper.

Import mssqlcommon.

Definition notQuote (c : ascii) : bool := negb (Ascii.eqb c dquote).

(** [lineRegex.FindStringSubmatch(line)] for the expression
    [^name=Q[^Q]+Q host=Q([^Q]+)Q value=Q(\d+)Q$], where Q stands for the
    double quote: the two groups, host and value.  A run of [[^Q]] or of
    [\d] is followed by a double quote, which is in neither class, so
    each run is the longest one. *)
Definition lineRegex (line : string) : option (string * string) :=
  match stripPrefix ("name=" +:+ DQ) line with
  | None => None
  | Some rest =>
      let '(name, rest) := span notQuote rest in
      if isEmpty name then None
      else
        match stripPrefix (DQ +:+ " host=" +:+ DQ) rest with
        | None => None
        | Some rest =>
            let '(host, rest) := span notQuote rest in
            if isEmpty host then None
            else
              match stripPrefix (DQ +:+ " value=" +:+ DQ) rest with
              | None => None
              | Some rest =>
                  let '(value, rest) := span isDigit rest in
                  if isEmpty value then None
                  else if String.eqb rest DQ then Some (host, value)
                  else None
              end
        end
  end.

(** The three variables of the loop of [promote] over the lines. *)
Record SequenceNumbers : Type := {
  maxSequenceNumber : Z;
  newMasterSequenceNumber : Z;
  numSequenceNumbers : Z
}.

(** Their values before the loop: the zero values of their types. *)
Definition initialSequenceNumbers : SequenceNumbers :=
  {| maxSequenceNumber := 0; newMasterSequenceNumber := 0; numSequenceNumbers := 0 |}.

(** The loop of [promote] over the lines of [--sequence-numbers]; the
    error is the one of [strconv.ParseInt]. *)
Fixpoint scanSequenceNumbers (newMaster : string) (lines : list string)
    (seen : SequenceNumbers) : string + SequenceNumbers :=
  match lines with
  | [] => inr seen
  | line :: rest =>
      match lineRegex line with
      | None => scanSequenceNumbers newMaster rest seen
      | Some (host, digits) =>
          match ParseInt digits with
          | inl err => inl err
          | inr value =>
              scanSequenceNumbers newMaster rest
                {| newMasterSequenceNumber :=
                     if String.eqb host newMaster then value
                     else newMasterSequenceNumber seen;
                   maxSequenceNumber :=
                     if maxSequenceNumber seen <? value then value
                     else maxSequenceNumber seen;
                   numSequenceNumbers := wrapUint (numSequenceNumbers seen + 1) |}
          end
      end
  end.

(** func isPrimary(db, agName, stdout) (result bool, err error) *)
Definition isPrimary (db : Instance) (agName : string) : Instance * (error + bool) :=
  let '(db, r) := mssqlag.GetRole db agName in
  match r with
  | inl err => (db, inl err)
  | inr (role, _) => (db, inr (role =? mssqlag.RolePRIMARY))
  end.

(** func calculateRequiredSynchronizedSecondariesToCommit(numReplicas uint) uint *)
Definition calculateRequiredSynchronizedSecondariesToCommit (numReplicas : Z) : Z :=
  if numReplicas =? 2 then 0 else numReplicas / 2.

(** The conversion [int32(v)] of a [uint]. *)
Definition toInt32 (v : Z) : Z := (v + 2 ^ 31) mod 2 ^ 32 - 2 ^ 31.

(** func setRequiredSynchronizedSecondariesToCommit(db, agName, value uint, stdout) *)
Definition setRequiredSynchronizedSecondariesToCommit
    (db : Instance) (agName : string) (requiredSynchronizedSecondariesToCommit : Z)
  : Instance * option error :=
  mssqlag.SetRequiredSynchronizedSecondariesToCommit db agName
    (toInt32 requiredSynchronizedSecondariesToCommit).

(** func calculateAndSetRequiredSynchronizedSecondariesToCommit(db, agName, stdout) *)
Definition calculateAndSetRequiredSynchronizedSecondariesToCommit
    (db : Instance) (agName : string) : Instance * option error :=
  let '(db, r) := mssqlag.GetNumSyncCommitReplicas db agName in
  match r with
  | inl err => (db, Some err)
  | inr numSyncCommitReplicas =>
      setRequiredSynchronizedSecondariesToCommit db agName
        (calculateRequiredSynchronizedSecondariesToCommit numSyncCommitReplicas)
  end.

(** func waitUntilRoleSatisfies(db, agName, stdout, predicate) error.
    The loop of the source has no bound; [fuel] bounds the number of
    polls, and the result is [None] when it runs out. *)
Fixpoint waitUntilRoleSatisfies (fuel : nat) (db : Instance) (agName : string)
    (predicate : Z -> bool) : Instance * option (option error) :=
  match fuel with
  | O => (db, None)
  | S fuel =>
      let '(db, r) := mssqlag.GetRole db agName in
      match r with
      | inl err => (db, Some (Some err))
      | inr (role, _) =>
          if predicate role then (db, Some None)
          else waitUntilRoleSatisfies fuel db agName predicate
      end
  end.

(** func waitForDatabasesToBeOnline(db, agName, numRetries, stdout) error;
    [retries] is what is left of [numRetriesForOnlineDatabases - i]. *)
Fixpoint waitForDatabasesToBeOnline (retries : nat) (db : Instance) (agName : string)
    (lastErr : option error) : Instance * option error :=
  match retries with
  | O => (db, lastErr)
  | S retries =>
      let '(db, (nonOnlineDatabasesMessage, err)) := mssqlag.GetDatabaseStates db agName in
      match err with
      | Some e =>
          waitForDatabasesToBeOnline retries (ask (Sleep 1) db) agName (Some e)
      | None =>
          if isEmpty nonOnlineDatabasesMessage then (db, None)
          else waitForDatabasesToBeOnline retries (ask (Sleep 1) db) agName
                 (Some (errorString nonOnlineDatabasesMessage))
      end
  end.

(** A handler returns an OCF exit code and an error. *)
Definition Result : Type := Z * option error.

Definition failure (code : Z) (message : string) : Result :=
  (code, Some (errorString message)).

(** The block that [monitor], [preStart] and [postStop] share: update
    REQUIRED_SYNCHRONIZED_SECONDARIES_TO_COMMIT, computed or as given;
    the result is the text of the error when there is one. *)
Definition updateRequiredSynchronizedSecondariesToCommit
    (db : Instance) (agName : string)
    (requiredSynchronizedSecondariesToCommit : option Z) : Instance * option string :=
  match requiredSynchronizedSecondariesToCommit with
  | None =>
      let '(db, err) := calculateAndSetRequiredSynchronizedSecondariesToCommit db agName in
      (db, match err with
           | Some e => Some ("Could not calculate and set value of REQUIRED_SYNCHRONIZED_SECONDARIES_TO_COMMIT: " +:+ Error e)
           | None => None
           end)
  | Some value =>
      let '(db, err) := setRequiredSynchronizedSecondariesToCommit db agName value in
      (db, match err with
           | Some e => Some ("Could not set value of REQUIRED_SYNCHRONIZED_SECONDARIES_TO_COMMIT: " +:+ Error e)
           | None => None
           end)
  end.

Section Handlers.

(** The exit codes as imported when the handlers run. *)
Variable codes : OcfExitCodes.

(** func monitor(db, agName, numRetriesForOnlineDatabases,
    requiredSynchronizedSecondariesToCommit, stdout) *)
Definition monitor (db : Instance) (agName : string)
    (numRetriesForOnlineDatabases : Z)
    (requiredSynchronizedSecondariesToCommit : option Z) : Instance * Result :=
  let '(db, r) := mssqlag.GetRole db agName in
  match r with
  | inl err =>
      if isErrNoRows err then (db, (OCF_NOT_RUNNING codes, None))
      else (db, failure (OCF_ERR_GENERIC codes)
                  ("Could not query replica role: " +:+ Error err))
  | inr (role, _) =>
      if role =? mssqlag.RolePRIMARY then
        let '(db, mode) := mssqlag.GetDBFailoverMode db agName in
        match mode with
        | inl err =>
            (db, failure (OCF_ERR_GENERIC codes)
                   ("Could not query DB_FAILOVER setting: " +:+ Error err))
        | inr dbFailoverMode =>
            let '(db, err) :=
              if dbFailoverMode : bool then
                waitForDatabasesToBeOnline (Z.to_nat numRetriesForOnlineDatabases)
                  db agName None
              else (db, None) in
            match err with
            | Some e =>
                (db, failure (OCF_ERR_GENERIC codes)
                       ("Failed while waiting for databases to be online: " +:+ Error e))
            | None =>
                let '(db, err) :=
                  updateRequiredSynchronizedSecondariesToCommit db agName
                    requiredSynchronizedSecondariesToCommit in
                match err with
                | Some message => (db, failure (OCF_ERR_GENERIC codes) message)
                | None => (db, (OCF_RUNNING_MASTER codes, None))
                end
            end
        end
      else if role =? mssqlag.RoleRESOLVING then (db, (OCF_NOT_RUNNING codes, None))
      else (db, (OCF_SUCCESS codes, None))
  end.

(** func start(db, agName, numRetriesForOnlineDatabases,
    requiredSynchronizedSecondariesToCommit, stdout) *)
Definition start (fuel : nat) (db : Instance) (agName : string)
    (numRetriesForOnlineDatabases : Z)
    (requiredSynchronizedSecondariesToCommit : option Z)
  : Instance * option Result :=
  let '(db, _) := mssqlag.SetRoleToSecondary db agName in
  let '(db, waited) :=
    waitUntilRoleSatisfies fuel db agName
      (fun role => negb (role =? mssqlag.RoleRESOLVING)) in
  match waited with
  | None => (db, None)
  | Some (Some err) =>
      if isErrNoRows err then
        (db, Some (failure (OCF_ERR_ARGS codes)
                     "sys.availability_groups does not contain a row for the AG. Local replica may not be joined to the AG."))
      else
        (db, Some (failure (OCF_ERR_GENERIC codes)
                     ("Failed while waiting for local replica to be in SECONDARY role: "
                      +:+ Error err)))
  | Some None =>
      let '(db, result) :=
        monitor db agName numRetriesForOnlineDatabases
          requiredSynchronizedSecondariesToCommit in
      (db, Some result)
  end.

(** func preStart(db, agName, requiredSynchronizedSecondariesToCommit, stdout) *)
Definition preStart (db : Instance) (agName : string)
    (requiredSynchronizedSecondariesToCommit : option Z) : Instance * Result :=
  let '(db, primary) := isPrimary db agName in
  match primary with
  | inl err =>
      (db, failure (OCF_ERR_GENERIC codes)
             ("Could not check if local replica is in PRIMARY role: " +:+ Error err))
  | inr true =>
      let '(db, err) :=
        updateRequiredSynchronizedSecondariesToCommit db agName
          requiredSynchronizedSecondariesToCommit in
      match err with
      | Some message => (db, failure (OCF_ERR_GENERIC codes) message)
      | None => (db, (OCF_SUCCESS codes, None))
      end
  | inr false => (db, (OCF_SUCCESS codes, None))
  end.

(** func postStop(db, agName, requiredSynchronizedSecondariesToCommit, stdout):
    the same statements as [preStart]. *)
Definition postStop (db : Instance) (agName : string)
    (requiredSynchronizedSecondariesToCommit : option Z) : Instance * Result :=
  let '(db, primary) := isPrimary db agName in
  match primary with
  | inl err =>
      (db, failure (OCF_ERR_GENERIC codes)
             ("Could not check if local replica is in PRIMARY role: " +:+ Error err))
  | inr true =>
      let '(db, err) :=
        updateRequiredSynchronizedSecondariesToCommit db agName
          requiredSynchronizedSecondariesToCommit in
      match err with
      | Some message => (db, failure (OCF_ERR_GENERIC codes) message)
      | None => (db, (OCF_SUCCESS codes, None))
      end
  | inr false => (db, (OCF_SUCCESS codes, None))
  end.

(** func prePromote(db, agName, stdout, sequenceNumberOut); the second
    component is the line printed to [sequenceNumberOut]. *)
Definition prePromote (db : Instance) (agName : string)
  : Instance * (list string * Result) :=
  let '(db, mode) := mssqlag.GetAvailabilityMode db agName in
  match mode with
  | inl err =>
      (db, ([], failure (OCF_ERR_GENERIC codes)
                  ("Could not query availability mode of local replica: "
                   +:+ Error err)))
  | inr (availabilityMode, _) =>
      if (availabilityMode =? mssqlag.AmSYNCHRONOUS_COMMIT)
         || (availabilityMode =? mssqlag.AmCONFIGURATION_ONLY)
      then
        let '(db, r) := mssqlag.GetSequenceNumber db agName in
        match r with
        | inl err =>
            (db, ([], failure (OCF_ERR_GENERIC codes)
                        ("Could not query sequence number of local replica: "
                         +:+ Error err)))
        | inr sequenceNumber =>
            (db, ([fmtD sequenceNumber], (OCF_SUCCESS codes, None)))
        end
      else (db, ([fmtD 0], (OCF_SUCCESS codes, None)))
  end.

(** func demote(db *sql.DB, agName string) (mssqlcommon.OcfExitCode, error) *)
Definition demote (db : Instance) (agName : string) : Instance * Result :=
  let '(db, err) := mssqlag.SetRoleToSecondary db agName in
  match err with
  | Some e =>
      (db, failure (OCF_ERR_GENERIC codes)
             ("Could not set local replica to SECONDARY role: " +:+ Error e))
  | None => (db, (OCF_SUCCESS codes, None))
  end.

(** func promote(db, agName, sequenceNumbers, newMaster, skipPreCheck,
    requiredSynchronizedSecondariesToCommit, stdout); [fuel] bounds the
    polls of [waitUntilRoleSatisfies]. *)
Definition promote (fuel : nat) (db : Instance) (agName : string)
    (sequenceNumbers : string) (newMaster : string) (skipPreCheck : bool)
    (requiredSynchronizedSecondariesToCommit : option Z)
  : Instance * option Result :=
  let '(db, primary) := isPrimary db agName in
  match primary with
  | inl err =>
      (db, Some (failure (OCF_ERR_GENERIC codes)
                   ("Could not check if local replica is in PRIMARY role: "
                    +:+ Error err)))
  | inr true => (db, Some (OCF_SUCCESS codes, None))
  | inr false =>
      let '(db, precheck) :=
        if skipPreCheck then (db, None)
        else
          let '(db, mode) := mssqlag.GetAvailabilityMode db agName in
          match mode with
          | inl err =>
              (db, Some ("Could not query availability mode of local replica: "
                         +:+ Error err))
          | inr (availabilityMode, availabilityModeDesc) =>
              if availabilityMode =? mssqlag.AmSYNCHRONOUS_COMMIT then (db, None)
              else
                (db, Some ("Local replica has availabilty mode "
                           +:+ availabilityModeDesc
                           +:+ " (" +:+ fmtD availabilityMode
                           +:+ "), so it cannot be promoted to PRIMARY"))
          end in
      match precheck with
      | Some message => (db, Some (failure (OCF_ERR_GENERIC codes) message))
      | None =>
          match scanSequenceNumbers newMaster (Split sequenceNumbers linefeed)
                  initialSequenceNumbers with
          | inl err =>
              (db, Some (failure (OCF_ERR_GENERIC codes)
                           ("Could not parse sequence number line: " +:+ err)))
          | inr seen =>
              if newMasterSequenceNumber seen <? maxSequenceNumber seen then
                (db, Some (failure (OCF_ERR_GENERIC codes)
                             ("Local replica has sequence number "
                              +:+ fmtD (newMasterSequenceNumber seen)
                              +:+ " but max sequence number is "
                              +:+ fmtD (maxSequenceNumber seen)
                              +:+ ", so it cannot be promoted")))
              else if newMasterSequenceNumber seen =? 0 then
                (db, Some (failure (OCF_ERR_GENERIC codes)
                             ("Local replica has sequence number "
                              +:+ fmtD (newMasterSequenceNumber seen)
                              +:+ ", so it cannot be promoted")))
              else
                let '(db, r) := mssqlag.GetNumSyncCommitReplicas db agName in
                match r with
                | inl err =>
                    (db, Some (failure (OCF_ERR_GENERIC codes)
                                 ("Could not query number of SYNCHRONOUS_COMMIT replicas: "
                                  +:+ Error err)))
                | inr numSyncCommitReplicas =>
                    let requiredSynchronizedSecondariesToCommitValue :=
                      match requiredSynchronizedSecondariesToCommit with
                      | None =>
                          calculateRequiredSynchronizedSecondariesToCommit
                            numSyncCommitReplicas
                      | Some value => value
                      end in
                    let requiredNumSequenceNumbers :=
                      wrapUint (numSyncCommitReplicas
                                - requiredSynchronizedSecondariesToCommitValue) in
                    if numSequenceNumbers seen <? requiredNumSequenceNumbers then
                      (db, Some (failure (OCF_ERR_GENERIC codes)
                                   ("Expected to receive "
                                    +:+ fmtD (numSequenceNumbers seen)
                                    +:+ " sequence numbers but only received "
                                    +:+ fmtD requiredNumSequenceNumbers
                                    +:+ ". Not enough replicas are online to safely promote the local replica.")))
                    else
                      let '(db, err) := mssqlag.Failover db agName in
                      match err with
                      | Some e =>
                          (db, Some (failure (OCF_FAILED_MASTER codes)
                                       ("Could not promote local replica to PRIMARY role: "
                                        +:+ Error e)))
                      | None =>
                          let '(db, waited) :=
                            waitUntilRoleSatisfies fuel db agName
                              (fun role => role =? mssqlag.RolePRIMARY) in
                          match waited with
                          | None => (db, None)
                          | Some (Some e) =>
                              (db, Some (failure (OCF_FAILED_MASTER codes)
                                           ("Failed while waiting for local replica to be in PRIMARY role: "
                                            +:+ Error e)))
                          | Some None =>
                              let '(db, err) :=
                                setRequiredSynchronizedSecondariesToCommit db agName
                                  requiredSynchronizedSecondariesToCommitValue in
                              match err with
                              | Some e =>
                                  (db, Some (failure (OCF_ERR_GENERIC codes)
                                               ("Could not set value of REQUIRED_SYNCHRONIZED_SECONDARIES_TO_COMMIT: "
                                                +:+ Error e)))
                              | None => (db, Some (OCF_SUCCESS codes, None))
                              end
                          end
                      end
                end
          end
      end
  end.

End Handlers.

(** The command line after [flag.Parse]. *)
Record Flags : Type := {
  hostname : string;
  sqlPort : Z;
  agName : string;
  credentialsFile : string;
  applicationName : string;
  rawConnectionTimeout : Z;
  rawHealthThreshold : Z;
  action : string;
  numRetriesForOnlineDatabases : Z;
  skipPreCheck : bool;
  sequenceNumbers : string;
  newMaster : string;
  requiredSynchronizedSecondariesToCommitArg : Z
}.

(** The process and what it can reach: the environment, the files, the
    exit codes of [mssqlcommon], what was written to the two loggers on
    [stderr], and the SQL Server instance. *)
Record Process : Type := {
  environ : gmap string string;
  files : gmap string string;
  codes : OcfExitCodes;
  stderr : list string;
  sequenceNumberOut : list string;
  sqlServer : Instance
}.

Definition withCodes (c : OcfExitCodes) (p : Process) : Process :=
  {| environ := environ p; files := files p; codes := c; stderr := stderr p;
     sequenceNumberOut := sequenceNumberOut p; sqlServer := sqlServer p |}.

Definition withServer (db : Instance) (p : Process) : Process :=
  {| environ := environ p; files := files p; codes := codes p; stderr := stderr p;
     sequenceNumberOut := sequenceNumberOut p; sqlServer := db |}.

Definition withSequenceNumberOut (lines : list string) (p : Process) : Process :=
  {| environ := environ p; files := files p; codes := codes p; stderr := stderr p;
     sequenceNumberOut := sequenceNumberOut p ++ lines; sqlServer := sqlServer p |}.

(** [mssqlcommon.OcfExit(stderr, code, err)] in a process. *)
Definition ocfExit (p : Process) (code : Z) (err : option error)
  : Process * (error + Outcome) :=
  let '(logged, outcome) := OcfExit (stderr p) code err in
  ({| environ := environ p; files := files p; codes := codes p; stderr := logged;
      sequenceNumberOut := sequenceNumberOut p; sqlServer := sqlServer p |},
   inr outcome).

(** The multiplication of [time.Duration], an [int64]. *)
Definition seconds (n : Z) : Z := wrapInt (n * 1000000000).

(** The statement that marks the session as driven by the cluster. *)
Definition sessionContext : string :=
  "EXEC sp_set_session_context @key = N'external_cluster', @value = N'yes', @read_only = 1".

(** The block of [doMain] on [--required-synchronized-secondaries-to-commit]:
    the pointer [requiredSynchronizedSecondariesToCommit], which is nil
    for -1, or nothing when [doMain] refuses the value. *)
Definition toRequiredSynchronizedSecondariesToCommit
    (requiredSynchronizedSecondariesToCommitArg : Z) : option (option Z) :=
  if negb (requiredSynchronizedSecondariesToCommitArg =? -1) then
    if (requiredSynchronizedSecondariesToCommitArg <? 0)
       || (MaxInt32 <? requiredSynchronizedSecondariesToCommitArg)
    then None
    else Some (Some (wrapUint requiredSynchronizedSecondariesToCommitArg))
  else Some None.

(** The second half of [doMain]: from [db.Exec] of the session context to
    the exit, with a connection. *)
Definition dispatch (f : Flags) (fuel : nat)
    (requiredSynchronizedSecondariesToCommit : option Z) (p : Process)
  : Process * (error + Outcome) :=
  let '(db, err) := exec sessionContext [] (sqlServer p) in
  let p := withServer db p in
  match err with
  | Some e =>
      ocfExit p (OCF_ERR_GENERIC (codes p))
        (Some (errorString ("Failed to set session context: " +:+ Error e)))
  | None =>
      let finish (p : Process) (db : Instance) (result : option Result) :=
        match result with
        | Some (ocfExitCode, err) => ocfExit (withServer db p) ocfExitCode err
        | None => (withServer db p, inr Running)
        end in
      if String.eqb (action f) "start" then
        let '(db, result) :=
          start (codes p) fuel db (agName f) (numRetriesForOnlineDatabases f)
            requiredSynchronizedSecondariesToCommit in
        finish p db result
      else if String.eqb (action f) "monitor" then
        let '(db, result) :=
          monitor (codes p) db (agName f) (numRetriesForOnlineDatabases f)
            requiredSynchronizedSecondariesToCommit in
        finish p db (Some result)
      else if String.eqb (action f) "pre-start" then
        let '(db, result) :=
          preStart (codes p) db (agName f) requiredSynchronizedSecondariesToCommit in
        finish p db (Some result)
      else if String.eqb (action f) "post-stop" then
        let '(db, result) :=
          postStop (codes p) db (agName f) requiredSynchronizedSecondariesToCommit in
        finish p db (Some result)
      else if String.eqb (action f) "pre-promote" then
        let '(db, (printed, result)) := prePromote (codes p) db (agName f) in
        finish (withSequenceNumberOut printed p) db (Some result)
      else if String.eqb (action f) "promote" then
        let '(db, result) :=
          promote (codes p) fuel db (agName f) (sequenceNumbers f) (newMaster f)
            (skipPreCheck f) requiredSynchronizedSecondariesToCommit in
        finish p db result
      else if String.eqb (action f) "demote" then
        let '(db, result) := demote (codes p) db (agName f) in
        finish p db (Some result)
      else
        (* the deferred db.Close() runs when doMain returns *)
        (withServer (ask Close db) p,
         inl (errorString ("unknown value for --action " +:+ action f)))
  end.

(** func doMain(stdout, stderr, sequenceNumberOut) error: the error it
    returns, or how the process ended inside it.  [schedule] is the
    interleaving of the health check, [fuel] the bound on the polls of the
    role. *)
Definition doMain (f : Flags) (schedule : list Turn) (fuel : nat) (p : Process)
  : Process * (error + Outcome) :=
  if isEmpty (hostname f) then
    (p, inl (errorString "a valid hostname must be specified using --hostname"))
  else if sqlPort f =? 0 then
    (p, inl (errorString "a valid port number must be specified using --port"))
  else if isEmpty (agName f) then
    (p, inl (errorString "a valid AG name must be specified using --ag-name"))
  else if isEmpty (credentialsFile f) then
    (p, inl (errorString "a valid path to a credentials file must be specified using --credentials-file"))
  else if isEmpty (applicationName f) then
    (p, inl (errorString "a valid application name must be specified using --application-name"))
  else if isEmpty (action f) then
    (p, inl (errorString "a valid action must be specified using --action"))
  else if String.eqb (action f) "promote" && isEmpty (newMaster f) then
    (p, inl (errorString "a valid hostname must be specified using --new-master"))
  else
    let '(imported, err) := ImportOcfExitCodes (environ p) (codes p) in
    let p := withCodes imported p in
    match err with
    | Some e => (p, inl e)
    | None =>
        if String.eqb (action f) "stop" then ocfExit p (OCF_SUCCESS (codes p)) None
        else
          let connectionTimeout := seconds (rawConnectionTimeout f) in
          let healthThreshold := rawHealthThreshold f in
          match toRequiredSynchronizedSecondariesToCommit
                  (requiredSynchronizedSecondariesToCommitArg f) with
          | None =>
            ocfExit p (OCF_ERR_CONFIGURED (codes p))
              (Some (errorString "--required-synchronized-secondaries-to-commit must be set to a valid integer between 0 and one less than the number of SYNCHRONOUS_COMMIT replicas (both inclusive)"))
          | Some requiredSynchronizedSecondariesToCommit =>
            match ReadCredentialsFile (files p) (credentialsFile f) with
            | inr e =>
                ocfExit p (OCF_ERR_ARGS (codes p))
                  (Some (errorString ("Could not read credentials file: " +:+ Error e)))
            | inl (sqlUsername, sqlPassword) =>
                let '(db, opened) :=
                  OpenDBWithHealthCheck (hostname f) (sqlPort f) sqlUsername sqlPassword
                    (applicationName f) connectionTimeout schedule (sqlServer p) in
                let p := withServer db p in
                match opened with
                | None => (p, inr Running)
                | Some (handle, Some (ServerUnhealthyError RawValue Inner)) =>
                    if RawValue <=? healthThreshold then
                      ocfExit p (OCF_ERR_GENERIC (codes p))
                        (Some (errorString
                                 ("Instance health status " +:+ fmtD RawValue
                                  +:+ " is at or below the threshold value of "
                                  +:+ fmtD healthThreshold)))
                    else
                      match handle with
                      | NilDB => (p, inr Panicked)
                      | OpenedDB =>
                          dispatch f fuel requiredSynchronizedSecondariesToCommit p
                      end
                | Some (_, Some e) => (p, inl e)
                | Some (NilDB, None) => (p, inr Panicked)
                | Some (OpenedDB, None) =>
                    dispatch f fuel requiredSynchronizedSecondariesToCommit p
                end
            end
          end
    end.

(** func main() *)
Definition main (f : Flags) (schedule : list Turn) (fuel : nat) (p : Process)
  : Process * Outcome :=
  let '(p, r) := doMain f schedule fuel p in
  match r with
  | inr outcome => (p, outcome)
  | inl err =>
      let '(logged, outcome) :=
        Exit (stderr p) 1 (Some (errorString ("Unexpected error: " +:+ Error err))) in
      ({| environ := environ p; files := files p; codes := codes p; stderr := logged;
          sequenceNumberOut := sequenceNumberOut p; sqlServer := sqlServer p |},
       outcome)
  end.

End aghelper.

(* ===================================================================== *)
(** * Package main of fci-helper, and the server name in mssqlcommon        *)
(* ===================================================================== *)

Module fcihelper.

Import mssqlcommon.

(** What the FCI helper asks of the instance once it is connected: the two
    SELECT statements and the stored procedures of the server name. *)
Inductive FciRequest : Type :=
| SelectServerName                                   (* SELECT @@SERVERNAME *)
| SelectLocalServer                                  (* SELECT name FROM sys.servers WHERE server_id = 0 *)
| ExecProcedure (statement : string) (args : list SqlArg).

(** The instance as the FCI helper sees it; as for [Server], every answer
    is a function of the requests made so far. *)
Record FciServer : Type := {
  serverNameRow : list FciRequest -> error + string;
  localServerRow : list FciRequest -> error + string;
  procedureRun : list FciRequest -> option error
}.

Record FciInstance : Type := {
  fciServer : FciServer;
  fciRequests : list FciRequest
}.

Definition fciAsk (r : FciRequest) (db : FciInstance) : FciInstance :=
  {| fciServer := fciServer db; fciRequests := r :: fciRequests db |}.

Definition fciExec (statement : string) (args : list SqlArg) (db : FciInstance)
  : FciInstance * option error :=
  let db := fciAsk (ExecProcedure statement args) db in
  (db, procedureRun (fciServer db) (fciRequests db)).

(** The stored procedures run so far, the latest first, each with its
    parameters. *)
Definition procedures (db : FciInstance) : list (string * list SqlArg) :=
  omap (fun r => match r with
                 | ExecProcedure statement args => Some (statement, args)
                 | _ => None
                 end)
       (fciRequests db).

(** func GetLocalServerName(db *sql.DB) (serverName string, err error) *)
Definition GetLocalServerName (db : FciInstance) : FciInstance * (error + string) :=
  let db := fciAsk SelectServerName db in
  (db, serverNameRow (fciServer db) (fciRequests db)).

Section WithEqualFold.

(** [strings.EqualFold]: equality under Unicode case folding. *)
Variable EqualFold : string -> string -> bool.

(** func SetLocalServerName(db *sql.DB, serverName string) error *)
Definition SetLocalServerName (db : FciInstance) (serverName : string)
  : FciInstance * option error :=
  let db := fciAsk SelectLocalServer db in
  match localServerRow (fciServer db) (fciRequests db) with
  | inr currentServerName =>
      if EqualFold currentServerName serverName then (db, None)
      else
        let '(db, err) :=
          fciExec "EXEC sp_dropserver ?" [ArgString currentServerName] db in
        match err with
        | Some e => (db, Some e)
        | None => fciExec "EXEC sp_addserver ?, local" [ArgString serverName] db
        end
  | inl err =>
      if isErrNoRows err then
        fciExec "EXEC sp_addserver ?, local" [ArgString serverName] db
      else (db, Some err)
  end.

Variable codes : OcfExitCodes.

(** func monitor(db *sql.DB, virtualServerName string, stdout *log.Logger) *)
Definition monitor (db : FciInstance) (virtualServerName : string)
  : FciInstance * (Z * option error) :=
  let '(db, r) := GetLocalServerName db in
  match r with
  | inl err =>
      (db, (OCF_ERR_GENERIC codes,
            Some (errorString ("Could not query local server name: " +:+ Error err))))
  | inr currentServerName =>
      if negb (EqualFold currentServerName virtualServerName) then
        (db, (OCF_ERR_ARGS codes,
              Some (errorString ("Expected local server name to be "
                                 +:+ virtualServerName +:+ " but it was "
                                 +:+ currentServerName))))
      else (db, (OCF_SUCCESS codes, None))
  end.

(** func start(db *sql.DB, virtualServerName string, stdout *log.Logger) *)
Definition start (db : FciInstance) (virtualServerName : string)
  : FciInstance * (Z * option error) :=
  let '(db, err) := SetLocalServerName db virtualServerName in
  match err with
  | Some e =>
      (db, (OCF_ERR_GENERIC codes,
            Some (errorString ("Could not set local server name: " +:+ Error e))))
  | None => monitor db virtualServerName
  end.

End WithEqualFold.

End fcihelper.

(* ===================================================================== *)
(** * What the specification speaks of                                     *)
(* ===================================================================== *)

Module Spec.

Import mssqlcommon.

(** The text [s] with every closing bracket replaced by two, in the words
    of the specification. *)
Fixpoint doubleClosingBrackets (s : string) : string :=
  match s with
  | EmptyString => EmptyString
  | String c rest =>
      if Ascii.eqb c "]" then String "]" (String "]" (doubleClosingBrackets rest))
      else String c (doubleClosingBrackets rest)
  end.

(** The three components of [sp_server_diagnostics] that [Diagnose] reads,
    in the order of the specification. *)
Inductive Component : Type :=
| system
| resource
| query_processing.

Definition components : list Component := [system; resource; query_processing].

Definition reported (d : Diagnostics) (c : Component) : bool :=
  match c with
  | system => System d
  | resource => Resource d
  | query_processing => QueryProcessing d
  end.

Definition severity (c : Component) : Z :=
  match c with
  | system => ServerCriticalError
  | resource => ServerModerateError
  | query_processing => ServerAnyQualifiedError
  end.

(** How the message of [Diagnose] names a component. *)
Definition named (c : Component) : string :=
  match c with
  | system => "system"
  | resource => "resource"
  | query_processing => "query processing"
  end.

(** The first component, in that order, that is not reported healthy. *)
Definition firstFailure (d : Diagnostics) : option Component :=
  List.find (fun c => negb (reported d c)) components.

Definition unhealthy (c : Component) : error :=
  ServerUnhealthyError (severity c)
    (errorString ("sp_server_diagnostics result indicates " +:+ named c +:+ " error")).

(** The nine variables in the order in which [ImportOcfExitCodes] reads
    them, each with the slot it fills. *)
Definition slots : list (string * (OcfExitCodes -> Z)) :=
  [ ("OCF_ERR_CONFIGURED", OCF_ERR_CONFIGURED);
    ("OCF_ERR_GENERIC", OCF_ERR_GENERIC);
    ("OCF_ERR_ARGS", OCF_ERR_ARGS);
    ("OCF_ERR_PERM", OCF_ERR_PERM);
    ("OCF_ERR_UNIMPLEMENTED", OCF_ERR_UNIMPLEMENTED);
    ("OCF_FAILED_MASTER", OCF_FAILED_MASTER);
    ("OCF_NOT_RUNNING", OCF_NOT_RUNNING);
    ("OCF_RUNNING_MASTER", OCF_RUNNING_MASTER);
    ("OCF_SUCCESS", OCF_SUCCESS) ].

(** A text that is a decimal integer of the range of [int]. *)
Definition parses (raw : string) : bool :=
  match Atoi raw with inr _ => true | inl _ => false end.

(** The first name, in the order of import, whose value does not parse. *)
Definition firstInvalid (environ : gmap string string) : option string :=
  List.find (fun name => negb (parses (Getenv environ name))) (map fst slots).

(** The rows of a result set that [rows.Scan] reads before it fails. *)
Fixpoint scanned {A : Type} (rows : list (error + A)) : list A :=
  match rows with
  | inr row :: rest => row :: scanned rest
  | _ => []
  end.

(** No row that [QueryDiagnostics] scans has this component name. *)
Definition noRowNamed (name : string) (rows : list (error + DiagnosticsRow)) : Prop :=
  Forall (fun row => componentName row <> name) (scanned rows).

(** The lines that the expression matches, as the host and the value each
    one carries. *)
Definition parsed (lines : list string) : list (string * Z) :=
  omap (fun line =>
          match aghelper.lineRegex line with
          | Some (host, digits) => Some (host, decimalValue digits)
          | None => None
          end)
       lines.

(** Those of the lines of [--sequence-numbers]. *)
Definition parsedLines (sequenceNumbers : string) : list (string * Z) :=
  parsed (Split sequenceNumbers linefeed).

(** The value recorded for a host: the one of the last line that names
    it, 0 when no line does. *)
Definition recorded (host : string) (lines : list (string * Z)) : Z :=
  fold_left (fun value line => if String.eqb (fst line) host then snd line else value)
            lines 0.

(** The checks of [promote] on the sequence numbers pass: every value is
    in the range of [int64], none is greater than the one recorded for the
    new master, and that one is not 0. *)
Definition sequenceCheckPasses (newMaster sequenceNumbers : string) : Prop :=
  let lines := parsedLines sequenceNumbers in
  Forall (fun line => snd line <= MaxInt64) lines
  /\ Forall (fun line => snd line <= recorded newMaster lines) lines
  /\ recorded newMaster lines <> 0.

(** [promote] gets as far as its check of the quorum: the local replica
    is not PRIMARY, its availability mode is SYNCHRONOUS_COMMIT unless the
    check is skipped, the checks on the sequence numbers pass, and the
    query for the number of SYNCHRONOUS_COMMIT replicas answers
    [numSync], leaving the instance as [db']. *)
Definition reachesQuorumCheck (db : Instance) (agName sequenceNumbers newMaster : string)
    (skipPreCheck : bool) (db' : Instance) (numSync : Z) : Prop :=
  exists db1 db2,
    aghelper.isPrimary db agName = (db1, inr false)
    /\ (if skipPreCheck then db2 = db1
        else exists desc,
            mssqlag.GetAvailabilityMode db1 agName
            = (db2, inr (mssqlag.AmSYNCHRONOUS_COMMIT, desc)))
    /\ sequenceCheckPasses newMaster sequenceNumbers
    /\ mssqlag.GetNumSyncCommitReplicas db2 agName = (db', inr numSync).

(** What holds of the health check started on [db] while the main flow is
    in its [select]: its variable [err] is the latest error received, nil
    when none was; and every error received, as well as the one the
    connector is sending, comes from a connection attempt that was made on
    the instance. *)
Definition selecting (db : Instance) (s : HealthCheck) : Prop :=
  mainFlow s = Selecting (head (observed s))
  /\ (length (requests db) + length (observed s)
      + match connector s with SendingErr _ _ => 1 | _ => 0 end
      <= length (requests (instance s)))%nat.

(** What holds when the main flow has returned: unless it took the
    connection from the connector, its results are no connection and the
    latest error received, or the error of the deadline when none was
    received, which is the case when no request was made. *)
Definition returned (hostname : string) (port : Z) (db : Instance) (s : HealthCheck)
  : Prop :=
  exists h e,
    mainFlow s = Returned h e
    /\ (connector s <> Finished ->
        h = NilDB
        /\ e = Some (default (timedOut hostname port) (head (observed s)))
        /\ (requests (instance s) = requests db ->
            e = Some (timedOut hostname port))).

(** The language of the expression of [promote], with its two groups: the
    text name=, a quoted run of one byte or more without a double quote, the
    text host=, such a run again (the host), the text value=, and a quoted
    run of one decimal digit or more (the value); nothing before, nothing
    after. *)
Definition matchesLine (line host digits : string) : Prop :=
  exists name,
    line = "name=" +:+ DQ +:+ name +:+ DQ +:+ " host=" +:+ DQ +:+ host +:+ DQ
           +:+ " value=" +:+ DQ +:+ digits +:+ DQ
    /\ isEmpty name = false /\ allBytes aghelper.notQuote name = true
    /\ isEmpty host = false /\ allBytes aghelper.notQuote host = true
    /\ isEmpty digits = false /\ allBytes isDigit digits = true.

(** How T-SQL reads a name between brackets, from after the opening
    bracket: two closing brackets stand for one, a single one ends the
    name.  The result is the name and what follows it. *)
Fixpoint readBracketedBody (s : string) : option (string * string) :=
  match s with
  | EmptyString => None
  | String c rest =>
      if Ascii.eqb c "]" then
        match rest with
        | String d rest' =>
            if Ascii.eqb d "]" then
              match readBracketedBody rest' with
              | Some (name, after) => Some (String "]" name, after)
              | None => None
              end
            else Some (EmptyString, rest)
        | EmptyString => Some (EmptyString, rest)
        end
      else
        match readBracketedBody rest with
        | Some (name, after) => Some (String c name, after)
        | None => None
        end
  end.

Definition readBracketed (s : string) : option (string * string) :=
  match s with
  | String c rest => if Ascii.eqb c "[" then readBracketedBody rest else None
  | EmptyString => None
  end.

(** A statement read as a fixed keyword part, then a name between
    brackets: the name and what follows it. *)
Definition readStatement (keywords statement : string) : option (string * string) :=
  match stripPrefix keywords statement with
  | Some rest => readBracketed rest
  | None => None
  end.

Definition startsWithClosingBracket (s : string) : bool :=
  match s with
  | String c _ => Ascii.eqb c "]"
  | EmptyString => false
  end.

(** The flags that [doMain] of ag-helper refuses to run without. *)
Definition flagsComplete (f : aghelper.Flags) : bool :=
  negb (isEmpty (aghelper.hostname f))
  && negb (aghelper.sqlPort f =? 0)
  && negb (isEmpty (aghelper.agName f))
  && negb (isEmpty (aghelper.credentialsFile f))
  && negb (isEmpty (aghelper.applicationName f))
  && negb (isEmpty (aghelper.action f))
  && negb (String.eqb (aghelper.action f) "promote" && isEmpty (aghelper.newMaster f)).

(** The errors that [OpenDB] returns. *)
Definition isDown (err : error) : Prop :=
  exists inner, err = ServerUnhealthyError ServerDownOrUnresponsive inner.

(** The number of connection attempts among the requests. *)
Definition isOpen (r : Request) : bool :=
  match r with Open _ _ _ _ _ _ => true | _ => false end.

Definition attempts (requested : list Request) : nat :=
  length (List.filter isOpen requested).

(** How [GetDatabaseStates] words one row. *)
Definition describeRow (row : DatabaseStateRow) : string :=
  fmtD (numDatabases row) +:+ " databases are " +:+ stateDesc row.

(** The queries for the states of the databases among the requests. *)
Definition isPoll (r : Request) : bool :=
  match r with QueryRow SelectDatabaseStates _ => true | _ => false end.

Definition polls (requested : list Request) : nat :=
  length (List.filter isPoll requested).

(** The instance [db] has become [db'] by requests that are no statements:
    the same server, the requests of [db] with later ones before them, and
    the same statements run. *)
Definition afterQueries (db db' : Instance) : Prop :=
  server db' = server db
  /\ statements db' = statements db
  /\ exists later, requests db' = later ++ requests db.

(** The instance [db] has become [after] by queries and then the statement
    that sets REQUIRED_SYNCHRONIZED_SECONDARIES_TO_COMMIT, which the instance
    answered with [answer]: the value is the one given, or the one computed
    from the number of replicas that the instance answered just before. *)
Definition setsRequired (db : Instance) (agName : string) (required : option Z)
    (after : Instance) (answer : option error) : Prop :=
  exists before value,
    statements before = statements db
    /\ mssqlag.SetRequiredSynchronizedSecondariesToCommit before agName value
       = (after, answer)
    /\ match required with
       | Some given => value = aghelper.toInt32 given
       | None =>
           exists asked numSync,
             mssqlag.GetNumSyncCommitReplicas asked agName = (before, inr numSync)
             /\ value = aghelper.toInt32
                          (aghelper.calculateRequiredSynchronizedSecondariesToCommit
                             numSync)
       end.

(** What holds of the health check started on [db] under every schedule:
    it runs no statement; the errors that the connector sends are those of
    [OpenDB]; the connector makes an attempt only when the main flow has
    received the error of the one before; and the main flow returns a
    connection whose diagnostics were read, or no connection and an error:
    the one of a failed query for the diagnostics, after which the
    connection is closed, or else an error of [OpenDB] or of the deadline. *)
Definition sound (db : Instance) (s : HealthCheck) : Prop :=
  server (instance s) = server db
  /\ statements (instance s) = statements db
  /\ Forall isDown (observed s)
  /\ match connector s with
     | SendingErr _ e => isDown e
     | SendingDB => head (requests (instance s)) = Some Ping
     | _ => True
     end
  /\ attempts (requests (instance s))
     = (attempts (requests db) + length (observed s)
        + match connector s with
          | Attempting _ | Sleeping _ => 0
          | _ => 1
          end)%nat
  /\ match mainFlow s with
     | Selecting err => err = head (observed s) /\ connector s <> Finished
     | Returned NilDB None => False
     | Returned NilDB (Some e) =>
         match connector s with
         | Finished =>
             exists asked,
               head (requests asked) = Some Ping
               /\ snd (snd (QueryDiagnostics asked)) = Some e
               /\ instance s = ask Close (fst (QueryDiagnostics asked))
         | _ => isDown e
         end
     | Returned OpenedDB e =>
         connector s = Finished
         /\ exists asked,
              head (requests asked) = Some Ping
              /\ snd (snd (QueryDiagnostics asked)) = None
              /\ instance s = fst (QueryDiagnostics asked)
              /\ e = Diagnose (fst (snd (QueryDiagnostics asked)))
     end.

(** An instance that no attempt can connect to: it refuses to open, or it
    never answers the ping. *)
Definition outOfReach (s : Server) : Prop :=
  forall requested, opened s requested <> None \/ pinged s (Ping :: requested) <> None.

(** How many times the connection has been closed. *)
Definition isClose (r : Request) : bool :=
  match r with Close => true | _ => false end.

Definition closes (db : Instance) : nat :=
  length (List.filter isClose (requests db)).

(** The exit codes that the handlers of ag-helper return. *)
Definition returnedCodes (c : OcfExitCodes) : list Z :=
  [ OCF_ERR_CONFIGURED c; OCF_ERR_GENERIC c; OCF_ERR_ARGS c; OCF_FAILED_MASTER c;
    OCF_NOT_RUNNING c; OCF_RUNNING_MASTER c; OCF_SUCCESS c ].

(** No connection attempt has succeeded: the connector neither holds a
    connection to hand over nor has handed one over. *)
Definition noAttemptSucceeded (s : HealthCheck) : Prop :=
  connector s <> SendingDB /\ connector s <> Finished.

End Spec.

(* ===================================================================== *)
(** * Scenarios                                                            *)
(* ===================================================================== *)

Module Scenario.

Import mssqlcommon aghelper.

(** The exit codes of the OCF resource agent API. *)
Definition ocfCodes : OcfExitCodes :=
  {| OCF_ERR_CONFIGURED := 6; OCF_ERR_GENERIC := 1; OCF_ERR_ARGS := 2;
     OCF_ERR_PERM := 4; OCF_ERR_UNIMPLEMENTED := 3; OCF_FAILED_MASTER := 9;
     OCF_NOT_RUNNING := 7; OCF_RUNNING_MASTER := 8; OCF_SUCCESS := 0 |}.

(** An instance that accepts every connection and statement and whose
    local replica has a fixed role and availability mode, in a group of
    [numSync] SYNCHRONOUS_COMMIT replicas. *)
Definition replica (role mode numSync : Z) : Server :=
  {| opened := fun _ => None;
     pinged := fun _ => None;
     executed := fun _ => None;
     roleRow := fun _ => inr (role, "ROLE");
     availabilityModeRow := fun _ => inr (mode, "MODE");
     dbFailoverRow := fun _ => inr false;
     numSyncCommitReplicasRow := fun _ => inr numSync;
     sequenceNumberRow := fun _ => inr 1;
     databaseStateRows := fun _ => inr ([], None);
     diagnosticsRows := fun _ =>
       inr ([ inr {| componentName := "system"; state := 1 |};
              inr {| componentName := "resource"; state := 1 |};
              inr {| componentName := "query_processing"; state := 1 |};
              inr {| componentName := "io_subsystem"; state := 1 |};
              inr {| componentName := "events"; state := 0 |} ], None) |}.

(** An instance whose [sp_server_diagnostics] returns no row. *)
Definition silent : Server :=
  {| opened := fun _ => None;
     pinged := fun _ => None;
     executed := fun _ => None;
     roleRow := fun _ => inr (2, "SECONDARY");
     availabilityModeRow := fun _ => inr (1, "SYNCHRONOUS_COMMIT");
     dbFailoverRow := fun _ => inr false;
     numSyncCommitReplicasRow := fun _ => inr 3;
     sequenceNumberRow := fun _ => inr 1;
     databaseStateRows := fun _ => inr ([], None);
     diagnosticsRows := fun _ => inr ([], None) |}.

(** An instance whose second row of [sp_server_diagnostics] does not scan:
    the rows after it, the one of the resources among them, are not read. *)
Definition garbled : Server :=
  {| opened := fun _ => None;
     pinged := fun _ => None;
     executed := fun _ => None;
     roleRow := fun _ => inr (2, "SECONDARY");
     availabilityModeRow := fun _ => inr (1, "SYNCHRONOUS_COMMIT");
     dbFailoverRow := fun _ => inr false;
     numSyncCommitReplicasRow := fun _ => inr 3;
     sequenceNumberRow := fun _ => inr 1;
     databaseStateRows := fun _ => inr ([], None);
     diagnosticsRows := fun _ =>
       inr ([ inr {| componentName := "system"; state := 1 |};
              inl (errorString "sql: Scan error on column index 3: converting driver.Value type string to a int: invalid syntax");
              inr {| componentName := "resource"; state := 1 |};
              inr {| componentName := "query_processing"; state := 1 |} ], None) |}.

(** An instance that refuses every connection. *)
Definition unreachable : Server :=
  {| opened := fun _ => None;
     pinged := fun _ => Some (errorString "dial tcp 127.0.0.1:1433: connect: connection refused");
     executed := fun _ => None;
     roleRow := fun _ => inl ErrNoRows;
     availabilityModeRow := fun _ => inl ErrNoRows;
     dbFailoverRow := fun _ => inl ErrNoRows;
     numSyncCommitReplicasRow := fun _ => inl ErrNoRows;
     sequenceNumberRow := fun _ => inl ErrNoRows;
     databaseStateRows := fun _ => inr ([], None);
     diagnosticsRows := fun _ => inr ([], None) |}.

Definition fresh (s : Server) : Instance := {| server := s; requests := [] |}.

(** A primary replica of a group with DB_FAILOVER on, whose databases are
    all online once the instance has been asked [ready] times. *)
Definition recovering (ready : nat) : Server :=
  {| opened := fun _ => None;
     pinged := fun _ => None;
     executed := fun _ => None;
     roleRow := fun _ => inr (1, "PRIMARY");
     availabilityModeRow := fun _ => inr (1, "SYNCHRONOUS_COMMIT");
     dbFailoverRow := fun _ => inr true;
     numSyncCommitReplicasRow := fun _ => inr 3;
     sequenceNumberRow := fun _ => inr 1;
     databaseStateRows := fun requested =>
       if Nat.ltb (Spec.polls requested) ready
       then inr ([inr {| stateDesc := "RECOVERING"; numDatabases := 2 |}], None)
       else inr ([], None);
     diagnosticsRows := fun _ => inr ([], None) |}.

(** One line of [attrd_updater -QA]. *)
Definition line (host value : string) : string :=
  "name=" +:+ DQ +:+ "ag1-sequence-number" +:+ DQ
  +:+ " host=" +:+ DQ +:+ host +:+ DQ
  +:+ " value=" +:+ DQ +:+ value +:+ DQ.

(** Host A is at 10 and host B, the one to promote, at 9. *)
Definition lagging : string := line "A" "10" +:+ LF +:+ line "B" "9".

(** Hosts A and B are both at 10. *)
Definition level : string := line "A" "10" +:+ LF +:+ line "B" "10".

(** Host B alone reports, at 10. *)
Definition alone : string := line "B" "10".

(** The instance when [promote] has asked for the role, the availability
    mode and the number of SYNCHRONOUS_COMMIT replicas of ag1. *)
Definition atQuorumCheck (s : Server) : Instance :=
  ask (QueryRow SelectNumSyncCommitReplicas "ag1")
    (ask (QueryRow SelectAvailabilityMode "ag1")
       (ask (QueryRow SelectRole "ag1") (fresh s))).

(** The environment of the test of [ImportOcfExitCodes]. *)
Definition testEnvironment : gmap string string :=
  list_to_map
    [ ("OCF_SUCCESS", "1"); ("OCF_ERR_ARGS", "2"); ("OCF_ERR_CONFIGURED", "3");
      ("OCF_ERR_GENERIC", "4"); ("OCF_ERR_PERM", "5");
      ("OCF_ERR_UNIMPLEMENTED", "6"); ("OCF_FAILED_MASTER", "7");
      ("OCF_NOT_RUNNING", "8"); ("OCF_RUNNING_MASTER", "9") ].

Definition stopFlags : Flags :=
  {| hostname := "localhost"; sqlPort := 1433; agName := "ag1";
     credentialsFile := "/var/opt/mssql/secrets/passwd";
     applicationName := "monitor-ag1-stop";
     rawConnectionTimeout := 30; rawHealthThreshold := 3; action := "stop";
     numRetriesForOnlineDatabases := 60; skipPreCheck := false;
     sequenceNumbers := EmptyString; newMaster := EmptyString;
     requiredSynchronizedSecondariesToCommitArg := -1 |}.

(** The environment that the resource agent passes on. *)
Definition ocfEnvironment : gmap string string :=
  list_to_map
    [ ("OCF_SUCCESS", "0"); ("OCF_ERR_GENERIC", "1"); ("OCF_ERR_ARGS", "2");
      ("OCF_ERR_UNIMPLEMENTED", "3"); ("OCF_ERR_PERM", "4");
      ("OCF_ERR_CONFIGURED", "6"); ("OCF_NOT_RUNNING", "7");
      ("OCF_RUNNING_MASTER", "8"); ("OCF_FAILED_MASTER", "9") ].

Definition promoteFlags (sequenceNumbers : string) (required : Z) : Flags :=
  {| hostname := "localhost"; sqlPort := 1433; agName := "ag1";
     credentialsFile := "/var/opt/mssql/secrets/passwd";
     applicationName := "monitor-ag1-promote";
     rawConnectionTimeout := 30; rawHealthThreshold := 3; action := "promote";
     numRetriesForOnlineDatabases := 60; skipPreCheck := false;
     sequenceNumbers := sequenceNumbers; newMaster := "B";
     requiredSynchronizedSecondariesToCommitArg := required |}.

(** A process of the agent at its start, with its credentials file. *)
Definition agent (s : Server) : Process :=
  {| environ := ocfEnvironment;
     files := {[ "/var/opt/mssql/secrets/passwd" := "sa" +:+ LF +:+ "secret" +:+ LF ]};
     codes := zeroCodes; stderr := []; sequenceNumberOut := [];
     sqlServer := fresh s |}.

(** The first attempt connects and the main flow takes the connection. *)
Definition connects : list Turn := [ConnectorRuns; ReceiveDB].

(** The first attempt fails, the main flow takes the error, then the
    deadline. *)
Definition refused : list Turn := [ConnectorRuns; ReceiveErr; TimerFires; ReceiveTimeout].

(** The deadline passes before the first attempt is over. *)
Definition overdue : list Turn := [TimerFires; ReceiveTimeout].

(** A process at its start: the exit codes are all zero. *)
Definition started (environ : gmap string string) (s : Server) : Process :=
  {| environ := environ; files := ∅; codes := zeroCodes; stderr := [];
     sequenceNumberOut := []; sqlServer := fresh s |}.

End Scenario.

(* ===================================================================== *)
(** * Properties                                                           *)
(* ===================================================================== *)

Import mssqlcommon mssqlag aghelper.

(** ** Text *)

Lemma append_nil (b : string) : EmptyString +:+ b = b.
Proof. reflexivity. Qed.

Lemma append_cons (x : ascii) (a b : string) : String x a +:+ b = String x (a +:+ b).
Proof. reflexivity. Qed.

(** Unfold the concatenations whose left operand is known. *)
Ltac unfold_append := rewrite ?append_cons, ?append_nil.

Lemma append_assoc (a b c : string) : (a +:+ b) +:+ c = a +:+ (b +:+ c).
Proof. induction a as [|x a IH]; unfold_append; [reflexivity | now rewrite IH]. Qed.

Lemma append_empty_r (a : string) : a +:+ EmptyString = a.
Proof. induction a as [|x a IH]; unfold_append; [reflexivity | now rewrite IH]. Qed.

Lemma append_length (a b : string) :
  String.length (a +:+ b) = (String.length a + String.length b)%nat.
Proof. induction a as [|x a IH]; unfold_append; simpl; [reflexivity | now rewrite IH]. Qed.

Lemma append_inj_r (a b c : string) : a +:+ c = b +:+ c -> a = b.
Proof.
  revert b. induction a as [|x a IH]; intros [|y b] H; rewrite ?append_cons, ?append_nil in H.
  - reflexivity.
  - apply (f_equal String.length) in H. simpl in H. rewrite append_length in H. lia.
  - apply (f_equal String.length) in H. simpl in H. rewrite append_length in H. lia.
  - injection H as -> H. f_equal. now apply IH.
Qed.

Lemma ascii_eqb_true (a b : ascii) : Ascii.eqb a b = true <-> a = b.
Proof. apply Ascii.eqb_eq. Qed.

Lemma ascii_eqb_false (a b : ascii) : Ascii.eqb a b = false <-> a <> b.
Proof. apply Ascii.eqb_neq. Qed.

(** ** quoteName *)

Lemma Replace_closing_bracket (s : string) :
  Replace s "]" "]]" = Spec.doubleClosingBrackets s.
Proof.
  unfold Replace. induction s as [|c s IH]; [reflexivity|].
  cbn [replaceFrom Spec.doubleClosingBrackets String.prefix].
  destruct (Ascii.eqb c "]") eqn:E.
  - apply ascii_eqb_true in E. subst c.
    destruct (Ascii.ascii_dec "]" "]") as [_|N]; [|congruence].
    unfold_append. simpl.
    assert (String.prefix EmptyString s = true) as -> by (destruct s; reflexivity).
    now rewrite IH.
  - apply ascii_eqb_false in E.
    destruct (Ascii.ascii_dec "]" c) as [Heq|_]; [congruence|].
    now rewrite IH.
Qed.

Lemma doubleClosingBrackets_inj (s t : string) :
  Spec.doubleClosingBrackets s = Spec.doubleClosingBrackets t -> s = t.
Proof.
  revert t. induction s as [|c s IH]; intros [|d t]; simpl.
  - reflexivity.
  - destruct (Ascii.eqb d "]"); discriminate.
  - destruct (Ascii.eqb c "]"); discriminate.
  - destruct (Ascii.eqb c "]") eqn:Ec, (Ascii.eqb d "]") eqn:Ed; intros H.
    + apply ascii_eqb_true in Ec, Ed. subst. injection H as H. f_equal. now apply IH.
    + apply ascii_eqb_false in Ed. injection H as H _. congruence.
    + apply ascii_eqb_false in Ec. injection H as H _. congruence.
    + injection H as -> H. f_equal. now apply IH.
Qed.

(** C8. [quoteName s] is an opening bracket, [s] with every closing bracket
    doubled, and a closing bracket; and two names with the same quoted form
    are the same name. *)
Theorem quoteName_doubles_and_is_injective (s t : string) :
  quoteName s = "[" +:+ Spec.doubleClosingBrackets s +:+ "]"
  /\ (quoteName s = quoteName t -> s = t).
Proof.
  unfold quoteName. rewrite !Replace_closing_bracket. split; [reflexivity|].
  intros H. rewrite !append_cons, !append_nil in H. injection H as H.
  apply append_inj_r in H. now apply doubleClosingBrackets_inj.
Qed.

Lemma quoteName_witness :
  quoteName "a]b" = "[a]]b]" /\ (quoteName "ag1" = quoteName "ag1" -> "ag1" = "ag1").
Proof.
  split.
  - exact (proj1 (quoteName_doubles_and_is_injective "a]b" "a]b")).
  - exact (proj2 (quoteName_doubles_and_is_injective "ag1" "ag1")).
Defined.

(** ** REQUIRED_SYNCHRONIZED_SECONDARIES_TO_COMMIT *)

(** C3. For a count of replicas that is not negative, the value is 0 for two
    replicas and the floor of half the count otherwise: 1, 2, 3, 4, 5, 6, 7
    give 0, 0, 1, 2, 2, 3, 3. *)
Theorem calculateRequiredSynchronizedSecondariesToCommit_formula (numSync : Z) :
  0 <= numSync ->
  let required := calculateRequiredSynchronizedSecondariesToCommit numSync in
  (numSync = 2 -> required = 0)
  /\ (numSync <> 2 ->
      required = numSync / 2 /\ 2 * required <= numSync < 2 * required + 2)
  /\ map calculateRequiredSynchronizedSecondariesToCommit [1; 2; 3; 4; 5; 6; 7]
     = [0; 0; 1; 2; 2; 3; 3].
Proof.
  intros Hn required. subst required.
  unfold calculateRequiredSynchronizedSecondariesToCommit.
  split; [|split].
  - intros ->. reflexivity.
  - intros Hne. destruct (Z.eqb_spec numSync 2) as [|_]; [contradiction|].
    split; [reflexivity|].
    pose proof (Z.div_mod numSync 2 ltac:(lia)) as Hdm.
    pose proof (Z.mod_pos_bound numSync 2 ltac:(lia)). lia.
  - reflexivity.
Qed.

Lemma calculateRequiredSynchronizedSecondariesToCommit_witness :
  (2 = 2 -> calculateRequiredSynchronizedSecondariesToCommit 2 = 0)
  /\ (5 <> 2 -> calculateRequiredSynchronizedSecondariesToCommit 5 = 2).
Proof.
  split.
  - exact (proj1 (calculateRequiredSynchronizedSecondariesToCommit_formula 2 ltac:(lia))).
  - intros H.
    exact (proj1 (proj1 (proj2
      (calculateRequiredSynchronizedSecondariesToCommit_formula 5 ltac:(lia))) H)).
Defined.

(** ** Diagnose *)

(** C7. [Diagnose] succeeds exactly when the three components are healthy;
    otherwise its error names the first unhealthy one in the order system,
    resource, query processing, with the severity critical, moderate, any
    qualified. *)
Theorem Diagnose_priority (s r q : bool) :
  let d := {| System := s; Resource := r; QueryProcessing := q |} in
  (Diagnose d = None <-> s = true /\ r = true /\ q = true)
  /\ Diagnose d = option_map Spec.unhealthy (Spec.firstFailure d)
  /\ (s = false ->
      Diagnose d = Some (ServerUnhealthyError ServerCriticalError
        (errorString "sp_server_diagnostics result indicates system error")))
  /\ (s = true -> r = false ->
      Diagnose d = Some (ServerUnhealthyError ServerModerateError
        (errorString "sp_server_diagnostics result indicates resource error")))
  /\ (s = true -> r = true -> q = false ->
      Diagnose d = Some (ServerUnhealthyError ServerAnyQualifiedError
        (errorString "sp_server_diagnostics result indicates query processing error"))).
Proof.
  destruct s, r, q; cbn; repeat split; intros; try discriminate;
    try reflexivity; intuition discriminate.
Qed.

Lemma Diagnose_witness :
  Diagnose {| System := true; Resource := false; QueryProcessing := false |}
  = Some (ServerUnhealthyError ServerModerateError
            (errorString "sp_server_diagnostics result indicates resource error")).
Proof.
  exact (proj1 (proj2 (proj2 (proj2 (Diagnose_priority true false false))))
           eq_refl eq_refl).
Defined.

(** ** QueryDiagnostics *)

Lemma scanDiagnostics_System (rows : list (error + DiagnosticsRow)) (d : Diagnostics) :
  Spec.noRowNamed "system" rows -> System (scanDiagnostics rows d) = System d.
Proof.
  unfold Spec.noRowNamed. revert d.
  induction rows as [|[e|row] rows IH]; intros d H; simpl in *; try reflexivity.
  inversion H as [|? ? Hrow Hrest]; subst.
  rewrite IH by assumption.
  destruct (String.eqb_spec (componentName row) "system"); [contradiction|].
  destruct (String.eqb (componentName row) "resource"); [reflexivity|].
  destruct (String.eqb (componentName row) "query_processing"); reflexivity.
Qed.

Lemma scanDiagnostics_Resource (rows : list (error + DiagnosticsRow)) (d : Diagnostics) :
  Spec.noRowNamed "resource" rows -> Resource (scanDiagnostics rows d) = Resource d.
Proof.
  unfold Spec.noRowNamed. revert d.
  induction rows as [|[e|row] rows IH]; intros d H; simpl in *; try reflexivity.
  inversion H as [|? ? Hrow Hrest]; subst.
  rewrite IH by assumption.
  destruct (String.eqb (componentName row) "system"); [reflexivity|].
  destruct (String.eqb_spec (componentName row) "resource"); [contradiction|].
  destruct (String.eqb (componentName row) "query_processing"); reflexivity.
Qed.

Lemma scanDiagnostics_QueryProcessing (rows : list (error + DiagnosticsRow))
    (d : Diagnostics) :
  Spec.noRowNamed "query_processing" rows ->
  QueryProcessing (scanDiagnostics rows d) = QueryProcessing d.
Proof.
  unfold Spec.noRowNamed. revert d.
  induction rows as [|[e|row] rows IH]; intros d H; simpl in *; try reflexivity.
  inversion H as [|? ? Hrow Hrest]; subst.
  rewrite IH by assumption.
  destruct (String.eqb (componentName row) "system"); [reflexivity|].
  destruct (String.eqb (componentName row) "resource"); [reflexivity|].
  destruct (String.eqb_spec (componentName row) "query_processing");
    [contradiction | reflexivity].
Qed.

(** C10. [QueryDiagnostics] starts from three false booleans and sets one
    only when it scans a row with that component's name.  So a result set
    with no row named system, the empty one for instance, leaves [System]
    false, and [Diagnose] then answers as for a reported system failure: the
    critical error. *)
Theorem QueryDiagnostics_missing_row_reads_as_failure
    (db : Instance) (rows : list (error + DiagnosticsRow)) (rowsErr : option error) :
  diagnosticsRows (server db) (QueryServerDiagnostics :: requests db)
  = inr (rows, rowsErr) ->
  let result := fst (snd (QueryDiagnostics db)) in
  snd (snd (QueryDiagnostics db)) = rowsErr
  /\ (Spec.noRowNamed "system" rows ->
      System result = false
      /\ Diagnose result
         = Some (ServerUnhealthyError ServerCriticalError
                   (errorString "sp_server_diagnostics result indicates system error"))
      /\ Diagnose result
         = Diagnose (scanDiagnostics [inr {| componentName := "system"; state := 0 |}]
                       result))
  /\ (Spec.noRowNamed "resource" rows -> Resource result = false)
  /\ (Spec.noRowNamed "query_processing" rows -> QueryProcessing result = false).
Proof.
  intros Hrows result. subst result. unfold QueryDiagnostics. simpl.
  rewrite Hrows. simpl. split; [reflexivity|]. split; [|split].
  - intros Hno.
    pose proof (scanDiagnostics_System rows
                  {| System := false; Resource := false; QueryProcessing := false |}
                  Hno) as HS.
    simpl in HS.
    unfold Diagnose. simpl. rewrite HS. simpl. auto.
  - intros Hno. now rewrite scanDiagnostics_Resource.
  - intros Hno. now rewrite scanDiagnostics_QueryProcessing.
Qed.

Lemma QueryDiagnostics_missing_row_witness :
  Diagnose (fst (snd (QueryDiagnostics (Scenario.fresh Scenario.silent))))
  = Some (ServerUnhealthyError ServerCriticalError
            (errorString "sp_server_diagnostics result indicates system error")).
Proof.
  refine (proj1 (proj2 (proj1 (proj2
    (QueryDiagnostics_missing_row_reads_as_failure
       (Scenario.fresh Scenario.silent) [] None eq_refl)) _))).
  constructor.
Defined.

(** ** ImportOcfExitCodes *)

Lemma parses_inr (raw : string) :
  Spec.parses raw = true -> exists value, Atoi raw = inr value.
Proof. unfold Spec.parses. destruct (Atoi raw); [discriminate | eauto]. Qed.

Lemma parses_inl (raw : string) :
  Spec.parses raw = false -> exists message, Atoi raw = inl message.
Proof. unfold Spec.parses. destruct (Atoi raw); [eauto | discriminate]. Qed.

(** One step of the import, when the value parses and when it does not. *)
Lemma importInto_valid set name environ next c value :
  Atoi (Getenv environ name) = inr value ->
  importInto set name environ next c = next (set value c).
Proof. intros H. unfold importInto, importOcfExitCode. now rewrite H. Qed.

Lemma importInto_invalid set name environ next c :
  Spec.parses (Getenv environ name) = false ->
  snd (importInto set name environ next c)
  = Some (errorString (name +:+ " is set to an invalid value ["
                       +:+ Getenv environ name +:+ "]")).
Proof.
  intros H. apply parses_inl in H as [message H].
  unfold importInto, importOcfExitCode. now rewrite H.
Qed.

(** Use the hypotheses on the variables that parse to run the import up to
    the first one that does not. *)
Ltac import_steps :=
  repeat match goal with
         | H : Forall _ (_ :: _) |- _ =>
             let Hhd := fresh "Hhd" in
             let Htl := fresh "Htl" in
             apply Forall_cons in H as [Hhd Htl];
             apply parses_inr in Hhd as [? Hhd];
             rewrite (importInto_valid _ _ _ _ _ _ Hhd)
         end.

(** C5. When the nine variables are all set in the environment to texts
    that parse as decimal integers, the import succeeds and every slot holds
    the value that the text of its variable in the environment parses to.
    Otherwise the import fails, and its error names the first variable, in
    the order of import, whose text does not parse, with that text between
    the brackets; a variable that is not set in the environment has the
    empty text, which does not parse. *)
Theorem ImportOcfExitCodes_all_or_first_invalid
    (environ : gmap string string) (c : OcfExitCodes) :
  (Forall (fun name => Spec.parses (default EmptyString (environ !! name)) = true)
          (map fst Spec.slots) ->
   snd (ImportOcfExitCodes environ c) = None
   /\ Forall (fun '(name, slot) =>
                exists text,
                  environ !! name = Some text
                  /\ Atoi text = inr (slot (fst (ImportOcfExitCodes environ c))))
             Spec.slots)
  /\ (forall before name after,
        map fst Spec.slots = before ++ name :: after ->
        Forall (fun name => Spec.parses (default EmptyString (environ !! name)) = true)
               before ->
        Spec.parses (default EmptyString (environ !! name)) = false ->
        snd (ImportOcfExitCodes environ c)
        = Some (errorString (name +:+ " is set to an invalid value ["
                             +:+ default EmptyString (environ !! name) +:+ "]")))
  /\ (forall name,
        environ !! name = None ->
        Spec.parses (default EmptyString (environ !! name)) = false).
Proof.
  assert (Hset : forall name value,
             Atoi (Getenv environ name) = inr value ->
             exists text, environ !! name = Some text /\ Atoi text = inr value).
  { intros name value H. unfold Getenv in H.
    destruct (environ !! name) as [text|]; [now exists text|].
    vm_compute in H. discriminate H. }
  split; [|split].
  - intros H. unfold ImportOcfExitCodes. simpl in H. import_steps. simpl.
    split; [reflexivity|]. repeat constructor; now apply Hset.
  - intros before name after Hsplit Hbefore Hname. unfold ImportOcfExitCodes.
    simpl in Hsplit.
    do 9 (destruct before as [|? before];
          [ injection Hsplit as <- _; import_steps; now apply importInto_invalid
          | injection Hsplit as <- Hsplit ]).
    destruct before; discriminate.
  - intros name ->. reflexivity.
Qed.

(** The environment that the resource agent passes on sets the nine
    variables to integers. *)
Lemma ocfEnvironment_parses :
  Forall (fun name =>
            Spec.parses (default EmptyString (Scenario.ocfEnvironment !! name)) = true)
         (map fst Spec.slots).
Proof.
  unfold Spec.slots. cbn [map fst].
  repeat (apply Forall_cons_2; [vm_compute; reflexivity|]). apply Forall_nil_2.
Qed.

Lemma ImportOcfExitCodes_witness :
  (snd (ImportOcfExitCodes Scenario.ocfEnvironment zeroCodes) = None
   /\ Forall (fun '(name, slot) =>
                exists text,
                  Scenario.ocfEnvironment !! name = Some text
                  /\ Atoi text
                     = inr (slot (fst (ImportOcfExitCodes Scenario.ocfEnvironment
                                         zeroCodes))))
             Spec.slots)
  /\ snd (ImportOcfExitCodes ∅ zeroCodes)
     = Some (errorString "OCF_ERR_CONFIGURED is set to an invalid value []").
Proof.
  split.
  - exact (proj1 (ImportOcfExitCodes_all_or_first_invalid Scenario.ocfEnvironment
                    zeroCodes) ocfEnvironment_parses).
  - exact (proj1 (proj2 (ImportOcfExitCodes_all_or_first_invalid ∅ zeroCodes))
             [] "OCF_ERR_CONFIGURED" (List.tl (map fst Spec.slots)) eq_refl
             (Forall_nil_2 _) eq_refl).
Defined.

(** The three calls of [TestImportOcfExitCodes]. *)
Example ImportOcfExitCodes_test :
  ImportOcfExitCodes Scenario.testEnvironment zeroCodes
  = ({| OCF_ERR_CONFIGURED := 3; OCF_ERR_GENERIC := 4; OCF_ERR_ARGS := 2;
        OCF_ERR_PERM := 5; OCF_ERR_UNIMPLEMENTED := 6; OCF_FAILED_MASTER := 7;
        OCF_NOT_RUNNING := 8; OCF_RUNNING_MASTER := 9; OCF_SUCCESS := 1 |}, None)
  /\ snd (ImportOcfExitCodes (delete "OCF_SUCCESS" Scenario.testEnvironment) zeroCodes)
     = Some (errorString "OCF_SUCCESS is set to an invalid value []")
  /\ snd (ImportOcfExitCodes (<["OCF_SUCCESS" := "A"]> Scenario.testEnvironment) zeroCodes)
     = Some (errorString "OCF_SUCCESS is set to an invalid value [A]").
Proof. repeat split; vm_compute; reflexivity. Qed.

(** ** The expression of [promote] and its matcher *)

Lemma stripPrefix_spec (p s rest : string) :
  stripPrefix p s = Some rest <-> s = p +:+ rest.
Proof.
  revert s. induction p as [|a p IH]; intros s; simpl.
  - rewrite append_nil. split; [intros H; now injection H | intros ->; reflexivity].
  - rewrite append_cons. destruct s as [|b s]; [split; discriminate|].
    destruct (Ascii.eqb_spec a b) as [->|Hne].
    + rewrite IH. split; [intros ->; reflexivity | intros H; now injection H].
    + split; [discriminate | intros H; injection H as H _; congruence].
Qed.

(** [span] cuts [s] after its longest prefix in the class. *)
Lemma span_append (keep : ascii -> bool) (run rest : string) :
  allBytes keep run = true ->
  match rest with
  | EmptyString => True
  | String c _ => keep c = false
  end ->
  span keep (run +:+ rest) = (run, rest).
Proof.
  intros Hall Hrest. induction run as [|d run IH].
  - rewrite append_nil. destruct rest as [|c rest]; cbn [span]; [reflexivity|].
    now rewrite Hrest.
  - rewrite append_cons. cbn [allBytes] in Hall.
    apply andb_true_iff in Hall as [Hd Hall].
    cbn [span]. rewrite Hd, (IH Hall). reflexivity.
Qed.

Lemma span_sound (keep : ascii -> bool) (s run rest : string) :
  span keep s = (run, rest) ->
  s = run +:+ rest /\ allBytes keep run = true
  /\ match rest with
     | EmptyString => True
     | String c _ => keep c = false
     end.
Proof.
  revert run rest. induction s as [|c s IH]; intros run rest H; cbn [span] in H.
  - injection H as <- <-. auto.
  - destruct (keep c) eqn:Hc.
    + destruct (span keep s) as [run' rest'] eqn:Hs.
      destruct (IH run' rest' eq_refl) as (-> & Hall & Hrest).
      injection H as <- <-. rewrite append_cons. cbn [allBytes].
      rewrite Hc, Hall. auto.
    + injection H as <- <-. rewrite append_nil. auto.
Qed.

Lemma span_spec (keep : ascii -> bool) (s run rest : string) :
  span keep s = (run, rest) <->
  s = run +:+ rest /\ allBytes keep run = true
  /\ match rest with
     | EmptyString => True
     | String c _ => keep c = false
     end.
Proof.
  split; [apply span_sound|]. intros (-> & Hall & Hrest). now apply span_append.
Qed.

Lemma allDigits_allBytes (s : string) : allDigits s = allBytes isDigit s.
Proof. induction s as [|c s IH]; simpl; [reflexivity | now rewrite IH]. Qed.

Lemma span_append_quote (keep : ascii -> bool) (run rest : string) :
  keep dquote = false -> allBytes keep run = true ->
  span keep (run +:+ DQ +:+ rest) = (run, DQ +:+ rest).
Proof.
  intros Hq Hall. apply span_append; [assumption|].
  unfold DQ. rewrite append_cons. exact Hq.
Qed.

(** The matcher of the model accepts the language of the expression, with
    the same groups. *)
Lemma lineRegex_matches (line host digits : string) :
  lineRegex line = Some (host, digits) <-> Spec.matchesLine line host digits.
Proof.
  unfold lineRegex, Spec.matchesLine. split.
  - intros H.
    destruct (stripPrefix _ line) as [rest1|] eqn:H1; [|discriminate].
    apply stripPrefix_spec in H1.
    destruct (span notQuote rest1) as [name rest2] eqn:H2.
    apply span_spec in H2 as (-> & Hname & _).
    destruct (isEmpty name) eqn:Ename; [discriminate|].
    destruct (stripPrefix _ rest2) as [rest3|] eqn:H3; [|discriminate].
    apply stripPrefix_spec in H3.
    destruct (span notQuote rest3) as [host' rest4] eqn:H4.
    apply span_spec in H4 as (-> & Hhost & _).
    destruct (isEmpty host') eqn:Ehost; [discriminate|].
    destruct (stripPrefix _ rest4) as [rest5|] eqn:H5; [|discriminate].
    apply stripPrefix_spec in H5.
    destruct (span isDigit rest5) as [value rest6] eqn:H6.
    apply span_spec in H6 as (-> & Hvalue & _).
    destruct (isEmpty value) eqn:Evalue; [discriminate|].
    destruct (String.eqb_spec rest6 DQ) as [->|]; [|discriminate].
    injection H as <- <-. exists name. subst.
    rewrite !append_assoc. repeat split; assumption.
  - intros (name & -> & Ename & Hname & Ehost & Hhost & Edigits & Hdigits).
    assert (stripPrefix ("name=" +:+ DQ)
              ("name=" +:+ DQ +:+ name +:+ DQ +:+ " host=" +:+ DQ +:+ host +:+ DQ
               +:+ " value=" +:+ DQ +:+ digits +:+ DQ)
            = Some (name +:+ DQ +:+ " host=" +:+ DQ +:+ host +:+ DQ
                    +:+ " value=" +:+ DQ +:+ digits +:+ DQ)) as ->
        by (apply stripPrefix_spec; now rewrite !append_assoc).
    rewrite (span_append_quote notQuote name) by (reflexivity || assumption).
    rewrite Ename.
    assert (stripPrefix (DQ +:+ " host=" +:+ DQ)
              (DQ +:+ " host=" +:+ DQ +:+ host +:+ DQ +:+ " value=" +:+ DQ
               +:+ digits +:+ DQ)
            = Some (host +:+ DQ +:+ " value=" +:+ DQ +:+ digits +:+ DQ)) as ->
        by (apply stripPrefix_spec; now rewrite !append_assoc).
    rewrite (span_append_quote notQuote host) by (reflexivity || assumption).
    rewrite Ehost.
    assert (stripPrefix (DQ +:+ " value=" +:+ DQ)
              (DQ +:+ " value=" +:+ DQ +:+ digits +:+ DQ)
            = Some (digits +:+ DQ)) as ->
        by (apply stripPrefix_spec; now rewrite !append_assoc).
    assert (span isDigit (digits +:+ DQ) = (digits, DQ)) as ->.
    { apply span_append; [assumption | reflexivity]. }
    rewrite Edigits. now rewrite String.eqb_refl.
Qed.

(** ** strings.Split *)

Lemma Join_cons (c : ascii) (piece : string) (pieces : list string) (sep : string) :
  Join (String c piece :: pieces) sep = String c (Join (piece :: pieces) sep).
Proof. destruct pieces; cbn [Join]; now rewrite ?append_cons. Qed.

(** The pieces of [Split], joined by the separator, give the text back, and
    no piece holds the separator. *)
Lemma Split_Join (s : string) (sep : ascii) :
  Join (Split s sep) (String sep EmptyString) = s
  /\ Forall (fun piece => allBytes (fun c => negb (Ascii.eqb c sep)) piece = true)
            (Split s sep).
Proof.
  induction s as [|c s [IHjoin IHfree]]; cbn [Split].
  - split; [reflexivity | repeat constructor].
  - destruct (Ascii.eqb_spec c sep) as [->|Hne].
    + split; [|constructor; [reflexivity | assumption]].
      destruct (Split s sep) as [|piece pieces] eqn:Hs; cbn [Join] in *.
      * now subst.
      * rewrite append_nil, append_cons, append_nil. now rewrite IHjoin.
    + destruct (Split s sep) as [|piece pieces] eqn:Hs.
      * cbn [Join] in IHjoin. subst s. split; [reflexivity|].
        repeat constructor. cbn [allBytes].
        apply Ascii.eqb_neq in Hne. now rewrite Hne.
      * split; [rewrite Join_cons; now rewrite IHjoin|].
        inversion IHfree as [|? ? Hpiece Hrest]; subst.
        constructor; [|assumption]. cbn [allBytes].
        apply Ascii.eqb_neq in Hne. now rewrite Hne, Hpiece.
Qed.

(** ** The lines of sequence numbers *)

Lemma isDigit_bounds (c : ascii) :
  isDigit c = true -> (48 <= nat_of_ascii c <= 57)%nat.
Proof.
  unfold isDigit. intros H. apply andb_true_iff in H as [H1 H2].
  apply Nat.leb_le in H1, H2. lia.
Qed.

Lemma isDigit_not_sign (c : ascii) :
  isDigit c = true -> Ascii.eqb c "-" = false /\ Ascii.eqb c "+" = false.
Proof.
  intros H. split; apply ascii_eqb_false; intros ->; discriminate H.
Qed.

Lemma decimalFrom_nonneg (s : string) (acc : Z) :
  allDigits s = true -> 0 <= acc -> 0 <= decimalFrom acc s.
Proof.
  revert acc. induction s as [|c s IH]; intros acc H Hacc; simpl in *; [assumption|].
  apply andb_true_iff in H as [Hc Hs]. apply IH; [assumption|].
  apply isDigit_bounds in Hc. unfold digitValue. lia.
Qed.

Lemma span_isDigit (s run rest : string) :
  span isDigit s = (run, rest) -> allDigits run = true.
Proof.
  revert run rest. induction s as [|c s IH]; intros run rest H; simpl in H.
  - injection H as <- _. reflexivity.
  - destruct (isDigit c) eqn:Hc.
    + destruct (span isDigit s) as [run' rest'] eqn:Hs.
      injection H as <- _. simpl. rewrite Hc. simpl. eapply IH. reflexivity.
    + injection H as <- _. reflexivity.
Qed.

Lemma lineRegex_digits (line host digits : string) :
  lineRegex line = Some (host, digits) ->
  allDigits digits = true /\ isEmpty digits = false.
Proof.
  unfold lineRegex. intros H.
  destruct (stripPrefix _ line) as [rest1|]; [|discriminate].
  destruct (span notQuote rest1) as [name rest2].
  destruct (isEmpty name); [discriminate|].
  destruct (stripPrefix _ rest2) as [rest3|]; [|discriminate].
  destruct (span notQuote rest3) as [host' rest4].
  destruct (isEmpty host'); [discriminate|].
  destruct (stripPrefix _ rest4) as [rest5|]; [|discriminate].
  destruct (span isDigit rest5) as [value rest6] eqn:Hspan.
  destruct (isEmpty value) eqn:Hempty; [discriminate|].
  destruct (String.eqb rest6 DQ); [|discriminate].
  injection H as _ <-. split; [|assumption]. eapply span_isDigit, Hspan.
Qed.

Lemma ParseInt_digits (digits : string) :
  allDigits digits = true -> isEmpty digits = false ->
  0 <= decimalValue digits
  /\ ParseInt digits
     = (if decimalValue digits <=? MaxInt64 then inr (decimalValue digits)
        else inl ("strconv.ParseInt: parsing " +:+ Quote digits +:+ ": value out of range")).
Proof.
  intros Hall Hne.
  assert (Hpos : 0 <= decimalValue digits) by (now apply decimalFrom_nonneg).
  split; [assumption|].
  unfold ParseInt, parseSigned, signedDecimal.
  destruct digits as [|c rest]; [discriminate|].
  pose proof Hall as Hc. simpl in Hc. apply andb_true_iff in Hc as [Hc _].
  destruct (isDigit_not_sign c Hc) as [-> ->]. rewrite Hall.
  assert ((MinInt64 <=? decimalValue (String c rest)) = true) as ->
      by (apply Z.leb_le; unfold MinInt64; lia).
  reflexivity.
Qed.

(** What the loop of [promote] leaves in its three variables. *)
Lemma scanSequenceNumbers_spec (newMaster : string) (lines : list string)
    (seen0 : SequenceNumbers) :
  0 <= numSequenceNumbers seen0 < 2 ^ 64 ->
  match scanSequenceNumbers newMaster lines seen0 with
  | inl _ => Exists (fun line => MaxInt64 < snd line) (Spec.parsed lines)
  | inr seen =>
      Forall (fun line => 0 <= snd line <= MaxInt64) (Spec.parsed lines)
      /\ maxSequenceNumber seen
         = fold_left Z.max (map snd (Spec.parsed lines)) (maxSequenceNumber seen0)
      /\ newMasterSequenceNumber seen
         = fold_left (fun value line =>
                        if String.eqb (fst line) newMaster then snd line else value)
             (Spec.parsed lines) (newMasterSequenceNumber seen0)
      /\ numSequenceNumbers seen
         = wrapUint (numSequenceNumbers seen0 + Z.of_nat (length (Spec.parsed lines)))
  end.
Proof.
  revert seen0. induction lines as [|line lines IH]; intros seen0 Hnum.
  - simpl. repeat split; [constructor|].
    unfold wrapUint. rewrite Z.add_0_r, Z.mod_small; [reflexivity | assumption].
  - unfold Spec.parsed in *. cbn [scanSequenceNumbers omap list_omap].
    destruct (lineRegex line) as [[host digits]|] eqn:Hline; [|now apply IH].
    destruct (lineRegex_digits _ _ _ Hline) as [Hall Hne].
    destruct (ParseInt_digits digits Hall Hne) as [Hpos ->].
    destruct (Z.leb_spec (decimalValue digits) MaxInt64) as [Hfit|Hbig].
    + match goal with |- context [scanSequenceNumbers _ _ ?s] => specialize (IH s) end.
      cbn [numSequenceNumbers maxSequenceNumber newMasterSequenceNumber] in IH.
      assert (Hw : 0 <= wrapUint (numSequenceNumbers seen0 + 1) < 2 ^ 64)
        by (apply Z.mod_pos_bound; lia).
      specialize (IH Hw).
      destruct (scanSequenceNumbers _ lines _) as [err|seen].
      * now apply Exists_cons_tl.
      * destruct IH as (Hrange & Hmax & Hnew & Hcount).
        cbn [map fold_left fst snd length]. repeat split.
        -- constructor; [simpl; lia | assumption].
        -- rewrite Hmax. f_equal.
           destruct (Z.ltb_spec (maxSequenceNumber seen0) (decimalValue digits)); lia.
        -- exact Hnew.
        -- rewrite Hcount. unfold wrapUint.
           rewrite Zplus_mod_idemp_l. f_equal. lia.
    + apply Exists_cons_hd. simpl. lia.
Qed.

Lemma fold_max_ge_init (values : list Z) (init : Z) : init <= fold_left Z.max values init.
Proof.
  revert init. induction values as [|v values IH]; intros init; simpl; [lia|].
  specialize (IH (Z.max init v)). lia.
Qed.

Lemma fold_max_ge (values : list Z) (init v : Z) :
  In v values -> v <= fold_left Z.max values init.
Proof.
  revert init. induction values as [|w values IH]; intros init Hin; simpl in *.
  - contradiction.
  - destruct Hin as [->|Hin]; [|now apply IH].
    pose proof (fold_max_ge_init values (Z.max init v)). lia.
Qed.

Lemma fold_max_le (values : list Z) (init bound : Z) :
  init <= bound -> Forall (fun v => v <= bound) values ->
  fold_left Z.max values init <= bound.
Proof.
  revert init. induction values as [|w values IH]; intros init Hinit H; simpl; [assumption|].
  inversion H; subst. apply IH; [lia | assumption].
Qed.

Lemma Split_length (s : string) (sep : ascii) :
  (length (Split s sep) <= String.length s + 1)%nat.
Proof.
  induction s as [|c s IH]; simpl; [lia|].
  destruct (Ascii.eqb c sep); simpl; [lia|].
  destruct (Split s sep); simpl in *; lia.
Qed.

Lemma parsed_length (lines : list string) :
  (length (Spec.parsed lines) <= length lines)%nat.
Proof.
  unfold Spec.parsed.
  induction lines as [|line lines IH]; cbn [omap list_omap length]; [lia|].
  destruct (lineRegex line) as [[host digits]|]; cbn [length]; lia.
Qed.

(** A Go string holds fewer than [2^63 + 1] lines. *)
Lemma parsedLines_length (sequenceNumbers : string) :
  goString sequenceNumbers ->
  Z.of_nat (length (Spec.parsedLines sequenceNumbers)) <= 2 ^ 63.
Proof.
  unfold goString, MaxInt64, Spec.parsedLines. intros H.
  pose proof (parsed_length (Split sequenceNumbers linefeed)).
  pose proof (Split_length sequenceNumbers linefeed). lia.
Qed.

(** ** promote *)

(** A query adds no statement to those run on the instance. *)
Lemma isPrimary_statements (db db1 : Instance) (agName : string) (r : error + bool) :
  isPrimary db agName = (db1, r) -> statements db1 = statements db.
Proof.
  unfold isPrimary, GetRole. cbn.
  destruct (roleRow _ _) as [err|[role desc]]; [|destruct (scanInteger 0 255 role)];
    intros H; injection H as <- _; reflexivity.
Qed.

Lemma GetAvailabilityMode_statements (db db1 : Instance) (agName : string)
    (r : error + (Z * string)) :
  GetAvailabilityMode db agName = (db1, r) -> statements db1 = statements db.
Proof. unfold GetAvailabilityMode. intros H. injection H as <- _. reflexivity. Qed.

Lemma GetNumSyncCommitReplicas_statements (db db1 : Instance) (agName : string)
    (r : error + Z) :
  GetNumSyncCommitReplicas db agName = (db1, r) -> statements db1 = statements db.
Proof. unfold GetNumSyncCommitReplicas. intros H. injection H as <- _. reflexivity. Qed.

(** The count of replicas is a [uint]. *)
Lemma GetNumSyncCommitReplicas_range (db db1 : Instance) (agName : string) (n : Z) :
  GetNumSyncCommitReplicas db agName = (db1, inr n) -> 0 <= n <= MaxUint.
Proof.
  unfold GetNumSyncCommitReplicas, scanInteger. intros H. injection H as _ H.
  destruct (numSyncCommitReplicasRow _ _) as [err|m]; [discriminate|].
  destruct (Z.leb_spec 0 m), (Z.leb_spec m MaxUint); simpl in H;
    try discriminate. injection H as <-. lia.
Qed.

(** When a line carries more than what is recorded for the new master, the
    loop fails or leaves the new master behind the maximum. *)
Lemma scanSequenceNumbers_lagging (newMaster sequenceNumbers : string) :
  Exists (fun line => Spec.recorded newMaster (Spec.parsedLines sequenceNumbers) < snd line)
         (Spec.parsedLines sequenceNumbers) ->
  match scanSequenceNumbers newMaster (Split sequenceNumbers linefeed)
          initialSequenceNumbers with
  | inl _ => True
  | inr seen => (newMasterSequenceNumber seen <? maxSequenceNumber seen) = true
  end.
Proof.
  intros H. apply Exists_exists in H as (line & Hin & Hlt).
  pose proof (scanSequenceNumbers_spec newMaster (Split sequenceNumbers linefeed)
                initialSequenceNumbers ltac:(simpl; lia)) as Hscan.
  destruct (scanSequenceNumbers _ _ _) as [err|seen]; [exact I|].
  destruct Hscan as (_ & Hmax & Hnew & _). simpl in Hmax, Hnew.
  apply Z.ltb_lt. rewrite Hnew, Hmax.
  eapply Z.lt_le_trans; [exact Hlt|].
  apply fold_max_ge. apply list_elem_of_In in Hin. now apply in_map.
Qed.

(** When the checks on the sequence numbers pass, the loop succeeds, the
    two tests after it fail, and the counter is the number of lines that
    the expression matches. *)
Lemma scanSequenceNumbers_passes (newMaster sequenceNumbers : string) :
  Spec.sequenceCheckPasses newMaster sequenceNumbers ->
  exists seen,
    scanSequenceNumbers newMaster (Split sequenceNumbers linefeed) initialSequenceNumbers
    = inr seen
    /\ (newMasterSequenceNumber seen <? maxSequenceNumber seen) = false
    /\ (newMasterSequenceNumber seen =? 0) = false
    /\ numSequenceNumbers seen
       = wrapUint (Z.of_nat (length (Spec.parsedLines sequenceNumbers))).
Proof.
  intros (Hfit & Hle & Hne).
  pose proof (scanSequenceNumbers_spec newMaster (Split sequenceNumbers linefeed)
                initialSequenceNumbers ltac:(simpl; lia)) as Hscan.
  fold (Spec.parsedLines sequenceNumbers) in Hscan.
  destruct (scanSequenceNumbers _ _ _) as [err|seen].
  - exfalso. apply Exists_exists in Hscan as (line & Hin & Hbig).
    rewrite Forall_forall in Hfit. specialize (Hfit line Hin). lia.
  - destruct Hscan as (Hrange & Hmax & Hnew & Hcount). simpl in Hmax, Hnew, Hcount.
    fold (Spec.recorded newMaster (Spec.parsedLines sequenceNumbers)) in Hnew.
    exists seen. repeat split.
    + apply Z.ltb_ge. rewrite Hmax, Hnew. apply fold_max_le.
      * destruct (Spec.parsedLines sequenceNumbers) as [|line lines] eqn:Hlines;
          [contradiction Hne; reflexivity|].
        inversion Hrange as [|? ? Hline _]; subst.
        inversion Hle as [|? ? Hline' _]; subst. lia.
      * apply Forall_map. exact Hle.
    + apply Z.eqb_neq. now rewrite Hnew.
    + exact Hcount.
Qed.

(** C1, as amended.  When a line of [--sequence-numbers] that the
    expression matches carries a value greater than the one recorded for
    the new master (0 when no line names it), [promote] runs no statement on
    the instance, so no FAILOVER; and unless the local replica answers that
    it is PRIMARY already, [promote] returns OCF_ERR_GENERIC with an error,
    whatever the fuel. *)
Theorem promote_refuses_lagging_new_master
    (codes : OcfExitCodes) (fuel : nat) (db : Instance)
    (agName sequenceNumbers newMaster : string) (skipPreCheck : bool)
    (required : option Z) :
  Exists (fun line => Spec.recorded newMaster (Spec.parsedLines sequenceNumbers) < snd line)
         (Spec.parsedLines sequenceNumbers) ->
  statements (fst (promote codes fuel db agName sequenceNumbers newMaster
                     skipPreCheck required))
  = statements db
  /\ (snd (isPrimary db agName) <> inr true ->
      exists message,
        snd (promote codes fuel db agName sequenceNumbers newMaster
               skipPreCheck required)
        = Some (OCF_ERR_GENERIC codes, Some (errorString message))).
Proof.
  intros Hlag. apply scanSequenceNumbers_lagging in Hlag.
  unfold promote.
  destruct (isPrimary db agName) as [db1 primary] eqn:Hprimary.
  pose proof (isPrimary_statements _ _ _ _ Hprimary) as Hs1.
  destruct primary as [err|[|]]; cbn [fst snd].
  - split; [assumption | eauto].
  - split; [assumption | congruence].
  - destruct skipPreCheck.
    + destruct (scanSequenceNumbers _ _ _) as [err|seen]; cbn [fst snd];
        [split; eauto|].
      rewrite Hlag. cbn [fst snd]. split; eauto.
    + destruct (GetAvailabilityMode db1 agName) as [db2 mode] eqn:Hmode.
      pose proof (GetAvailabilityMode_statements _ _ _ _ Hmode) as Hs2.
      rewrite <- Hs1, <- Hs2.
      destruct mode as [err|[m desc]]; cbn [fst snd]; [split; eauto|].
      destruct (m =? AmSYNCHRONOUS_COMMIT); cbn [fst snd]; [|split; eauto].
      destruct (scanSequenceNumbers _ _ _) as [err|seen]; cbn [fst snd];
        [split; eauto|].
      rewrite Hlag. cbn [fst snd]. split; eauto.
Qed.

Lemma promote_lagging_witness :
  statements (fst (promote Scenario.ocfCodes 0 (Scenario.fresh (Scenario.replica 2 1 3))
                     "ag1" Scenario.lagging "B" false None))
  = []
  /\ exists message,
      snd (promote Scenario.ocfCodes 0 (Scenario.fresh (Scenario.replica 2 1 3))
             "ag1" Scenario.lagging "B" false None)
      = Some (1, Some (errorString message)).
Proof.
  assert (Hlag : Exists (fun line =>
                           Spec.recorded "B" (Spec.parsedLines Scenario.lagging) < snd line)
                        (Spec.parsedLines Scenario.lagging)).
  { apply Exists_cons_hd. vm_compute. reflexivity. }
  destruct (promote_refuses_lagging_new_master Scenario.ocfCodes 0
              (Scenario.fresh (Scenario.replica 2 1 3)) "ag1" Scenario.lagging "B"
              false None Hlag) as [Hstatements Hresult].
  split; [exact Hstatements|].
  apply Hresult. vm_compute. discriminate.
Defined.

(** C1 as stated fails: a replica that is PRIMARY already gets OCF_SUCCESS,
    whatever the sequence numbers say.  Here host A is at 10 and the new
    master B at 9. *)
Lemma promote_already_primary_counterexample :
  ~ (forall (codes : OcfExitCodes) (fuel : nat) (db : Instance)
            (agName sequenceNumbers newMaster : string) (skipPreCheck : bool)
            (required : option Z),
        Exists (fun line =>
                  Spec.recorded newMaster (Spec.parsedLines sequenceNumbers) < snd line)
               (Spec.parsedLines sequenceNumbers) ->
        exists err,
          snd (promote codes fuel db agName sequenceNumbers newMaster
                 skipPreCheck required)
          = Some (OCF_ERR_GENERIC codes, err)).
Proof.
  intros H.
  destruct (H Scenario.ocfCodes 0%nat (Scenario.fresh (Scenario.replica 1 1 3))
              "ag1" Scenario.lagging "B" false None) as [err Herr].
  - apply Exists_cons_hd. vm_compute. reflexivity.
  - vm_compute in Herr. discriminate Herr.
Qed.

Example promote_already_primary :
  Spec.parsedLines Scenario.lagging = [("A", 10); ("B", 9)]
  /\ snd (promote Scenario.ocfCodes 0 (Scenario.fresh (Scenario.replica 1 1 3))
            "ag1" Scenario.lagging "B" false None)
     = Some (OCF_SUCCESS Scenario.ocfCodes, None).
Proof. split; vm_compute; reflexivity. Qed.

(** At its check of the quorum, [promote] compares the counter of the loop
    with the difference of two [uint]. *)
Lemma promote_short_of_quorum
    (codes : OcfExitCodes) (fuel : nat) (db db' : Instance)
    (agName sequenceNumbers newMaster : string) (skipPreCheck : bool)
    (required : option Z) (numSync : Z) :
  Spec.reachesQuorumCheck db agName sequenceNumbers newMaster skipPreCheck db' numSync ->
  let requiredValue :=
    match required with
    | None => calculateRequiredSynchronizedSecondariesToCommit numSync
    | Some value => value
    end in
  let received := wrapUint (Z.of_nat (length (Spec.parsedLines sequenceNumbers))) in
  received < wrapUint (numSync - requiredValue) ->
  promote codes fuel db agName sequenceNumbers newMaster skipPreCheck required
  = (db', Some (OCF_ERR_GENERIC codes,
                Some (errorString
                        ("Expected to receive " +:+ fmtD received
                         +:+ " sequence numbers but only received "
                         +:+ fmtD (wrapUint (numSync - requiredValue))
                         +:+ ". Not enough replicas are online to safely promote the local replica."))))
  /\ statements db' = statements db.
Proof.
  intros (db1 & db2 & Hprimary & Hpre & Hseq & Hnum) requiredValue received Hshort.
  pose proof (isPrimary_statements _ _ _ _ Hprimary) as Hs1.
  pose proof (GetNumSyncCommitReplicas_statements _ _ _ _ Hnum) as Hs3.
  destruct (scanSequenceNumbers_passes _ _ Hseq) as (seen & Hscan & Hlt & Hzero & Hcount).
  apply Z.ltb_lt in Hshort.
  unfold promote. rewrite Hprimary.
  destruct skipPreCheck.
  - subst db2. rewrite Hscan, Hlt, Hzero, Hnum, Hcount.
    fold requiredValue received. rewrite Hshort.
    split; [reflexivity | congruence].
  - destruct Hpre as [desc Hmode].
    pose proof (GetAvailabilityMode_statements _ _ _ _ Hmode) as Hs2.
    rewrite Hmode. rewrite Z.eqb_refl. rewrite Hscan, Hlt, Hzero, Hnum, Hcount.
    fold requiredValue received. rewrite Hshort.
    split; [reflexivity | congruence].
Qed.

(** C2.  In [promote], with the local replica not PRIMARY and the checks
    before the quorum passed, [numSync] the count that the instance answers
    and [requiredValue] the value given by the operator or else the computed
    one: when fewer lines were matched than [numSync - requiredValue],
    [promote] returns OCF_ERR_GENERIC, and it has run no statement, so no
    FAILOVER. *)
Theorem promote_requires_quorum
    (codes : OcfExitCodes) (fuel : nat) (db db' : Instance)
    (agName sequenceNumbers newMaster : string) (skipPreCheck : bool)
    (required : option Z) (numSync : Z) :
  Spec.reachesQuorumCheck db agName sequenceNumbers newMaster skipPreCheck db' numSync ->
  match required with Some value => 0 <= value <= MaxUint | None => True end ->
  let requiredValue :=
    match required with
    | None => calculateRequiredSynchronizedSecondariesToCommit numSync
    | Some value => value
    end in
  let matched := Z.of_nat (length (Spec.parsedLines sequenceNumbers)) in
  matched < numSync - requiredValue ->
  promote codes fuel db agName sequenceNumbers newMaster skipPreCheck required
  = (db', Some (OCF_ERR_GENERIC codes,
                Some (errorString
                        ("Expected to receive " +:+ fmtD matched
                         +:+ " sequence numbers but only received "
                         +:+ fmtD (numSync - requiredValue)
                         +:+ ". Not enough replicas are online to safely promote the local replica."))))
  /\ statements db' = statements db.
Proof.
  intros Hreach Huint requiredValue matched Hfew.
  assert (Hrange : 0 <= numSync <= MaxUint).
  { destruct Hreach as (? & ? & _ & _ & _ & Hnum).
    eapply GetNumSyncCommitReplicas_range, Hnum. }
  assert (Hreq : 0 <= requiredValue).
  { subst requiredValue. destruct required as [value|]; [lia|].
    unfold calculateRequiredSynchronizedSecondariesToCommit.
    destruct (numSync =? 2); [lia|]. apply Z.div_pos; lia. }
  unfold MaxUint in Hrange.
  assert (Hm : wrapUint matched = matched)
    by (unfold wrapUint; apply Z.mod_small; subst matched; lia).
  assert (Hd : wrapUint (numSync - requiredValue) = numSync - requiredValue)
    by (unfold wrapUint; apply Z.mod_small; subst matched; lia).
  pose proof (promote_short_of_quorum codes fuel db db' agName sequenceNumbers
                newMaster skipPreCheck required numSync Hreach) as H.
  cbv zeta in H. fold requiredValue matched in H. rewrite Hm, Hd in H.
  apply H. exact Hfew.
Qed.

(** C9.  The number of sequence numbers that [promote] requires is the
    difference of two [uint].  [doMain] accepts every value between 0 and
    MaxInt32 for the flag; when the value is greater than the number of
    SYNCHRONOUS_COMMIT replicas the difference wraps around to
    [numSync - value + 2^64], which no number of lines of a Go string
    reaches: [promote] returns OCF_ERR_GENERIC with the message that not
    enough replicas are online. *)
Theorem promote_override_above_replicas_wraps
    (codes : OcfExitCodes) (fuel : nat) (db db' : Instance)
    (agName sequenceNumbers newMaster : string) (skipPreCheck : bool)
    (value numSync : Z) :
  goString sequenceNumbers ->
  0 <= value <= MaxInt32 ->
  Spec.reachesQuorumCheck db agName sequenceNumbers newMaster skipPreCheck db' numSync ->
  numSync < value ->
  toRequiredSynchronizedSecondariesToCommit value = Some (Some value)
  /\ wrapUint (numSync - value) = numSync - value + 2 ^ 64
  /\ promote codes fuel db agName sequenceNumbers newMaster skipPreCheck (Some value)
     = (db', Some (OCF_ERR_GENERIC codes,
                   Some (errorString
                           ("Expected to receive "
                            +:+ fmtD (Z.of_nat (length (Spec.parsedLines sequenceNumbers)))
                            +:+ " sequence numbers but only received "
                            +:+ fmtD (numSync - value + 2 ^ 64)
                            +:+ ". Not enough replicas are online to safely promote the local replica."))))
  /\ statements db' = statements db.
Proof.
  intros Hgo Hvalue Hreach Hover.
  assert (Hrange : 0 <= numSync <= MaxUint).
  { destruct Hreach as (? & ? & _ & _ & _ & Hnum).
    eapply GetNumSyncCommitReplicas_range, Hnum. }
  pose proof (parsedLines_length sequenceNumbers Hgo) as Hlen.
  unfold MaxInt32 in Hvalue. unfold MaxUint in Hrange.
  assert (Hwrap : wrapUint (numSync - value) = numSync - value + 2 ^ 64).
  { unfold wrapUint. symmetry. apply (Z.mod_unique _ _ (-1)); lia. }
  assert (Hm : wrapUint (Z.of_nat (length (Spec.parsedLines sequenceNumbers)))
               = Z.of_nat (length (Spec.parsedLines sequenceNumbers)))
    by (unfold wrapUint; apply Z.mod_small; lia).
  split; [|split; [exact Hwrap|]].
  - unfold toRequiredSynchronizedSecondariesToCommit, MaxInt32.
    destruct (Z.eqb_spec value (-1)); [lia|]. simpl.
    destruct (Z.ltb_spec value 0); [lia|].
    destruct (Z.ltb_spec (2 ^ 31 - 1) value); [lia|]. simpl.
    unfold wrapUint. rewrite Z.mod_small; [reflexivity | lia].
  - pose proof (promote_short_of_quorum codes fuel db db' agName sequenceNumbers
                  newMaster skipPreCheck (Some value) numSync Hreach) as H.
    cbv zeta in H. rewrite Hm, Hwrap in H. apply H. lia.
Qed.

(** With three SYNCHRONOUS_COMMIT replicas and the local one SECONDARY,
    [promote] reaches its check of the quorum when the new master is level
    with the other hosts. *)
Lemma Scenario_reachesQuorumCheck (sequenceNumbers : string) :
  Spec.sequenceCheckPasses "B" sequenceNumbers ->
  Spec.reachesQuorumCheck (Scenario.fresh (Scenario.replica 2 1 3)) "ag1"
    sequenceNumbers "B" false
    (Scenario.atQuorumCheck (Scenario.replica 2 1 3)) 3.
Proof.
  intros Hseq. eexists. eexists.
  split; [reflexivity|]. split; [eexists; reflexivity|].
  split; [exact Hseq | reflexivity].
Qed.

Lemma Scenario_alone_passes : Spec.sequenceCheckPasses "B" Scenario.alone.
Proof.
  unfold Spec.sequenceCheckPasses.
  assert (Spec.parsedLines Scenario.alone = [("B", 10)]) as -> by (vm_compute; reflexivity).
  repeat split; [repeat constructor; vm_compute; discriminate ..|].
  vm_compute. discriminate.
Qed.

Lemma Scenario_level_passes : Spec.sequenceCheckPasses "B" Scenario.level.
Proof.
  unfold Spec.sequenceCheckPasses.
  assert (Spec.parsedLines Scenario.level = [("A", 10); ("B", 10)]) as ->
      by (vm_compute; reflexivity).
  repeat split; [repeat constructor; vm_compute; discriminate ..|].
  vm_compute. discriminate.
Qed.

Lemma promote_requires_quorum_witness :
  promote Scenario.ocfCodes 0 (Scenario.fresh (Scenario.replica 2 1 3)) "ag1"
    Scenario.alone "B" false None
  = (Scenario.atQuorumCheck (Scenario.replica 2 1 3),
     Some (1, Some (errorString
                      ("Expected to receive "
                       +:+ fmtD (Z.of_nat (length (Spec.parsedLines Scenario.alone)))
                       +:+ " sequence numbers but only received "
                       +:+ fmtD (3 - calculateRequiredSynchronizedSecondariesToCommit 3)
                       +:+ ". Not enough replicas are online to safely promote the local replica."))))
  /\ statements (Scenario.atQuorumCheck (Scenario.replica 2 1 3)) = [].
Proof.
  apply (promote_requires_quorum Scenario.ocfCodes 0
           (Scenario.fresh (Scenario.replica 2 1 3))
           (Scenario.atQuorumCheck (Scenario.replica 2 1 3))
           "ag1" Scenario.alone "B" false None 3).
  - apply Scenario_reachesQuorumCheck, Scenario_alone_passes.
  - exact I.
  - vm_compute. reflexivity.
Defined.

Lemma promote_override_witness :
  wrapUint (3 - 5) = 3 - 5 + 2 ^ 64
  /\ promote Scenario.ocfCodes 0 (Scenario.fresh (Scenario.replica 2 1 3)) "ag1"
       Scenario.level "B" false (Some 5)
     = (Scenario.atQuorumCheck (Scenario.replica 2 1 3),
        Some (1, Some (errorString
                         ("Expected to receive "
                          +:+ fmtD (Z.of_nat (length (Spec.parsedLines Scenario.level)))
                          +:+ " sequence numbers but only received "
                          +:+ fmtD (3 - 5 + 2 ^ 64)
                          +:+ ". Not enough replicas are online to safely promote the local replica.")))).
Proof.
  assert (Hgo : goString Scenario.level) by (vm_compute; discriminate).
  assert (Hvalue : 0 <= 5 <= MaxInt32) by (vm_compute; split; discriminate).
  assert (Hover : 3 < 5) by reflexivity.
  pose proof (promote_override_above_replicas_wraps Scenario.ocfCodes 0
                (Scenario.fresh (Scenario.replica 2 1 3))
                (Scenario.atQuorumCheck (Scenario.replica 2 1 3))
                "ag1" Scenario.level "B" false 5 3 Hgo Hvalue
                (Scenario_reachesQuorumCheck _ Scenario_level_passes) Hover)
    as (_ & Hwrap & Hpromote & _).
  split; assumption.
Defined.

(** What the two messages read; with two lines for a quorum of two, the
    FAILOVER is run. *)
Example promote_messages :
  snd (promote Scenario.ocfCodes 0 (Scenario.fresh (Scenario.replica 2 1 3)) "ag1"
         Scenario.alone "B" false None)
  = Some (1, Some (errorString "Expected to receive 1 sequence numbers but only received 2. Not enough replicas are online to safely promote the local replica."))
  /\ snd (promote Scenario.ocfCodes 0 (Scenario.fresh (Scenario.replica 2 1 3)) "ag1"
            Scenario.level "B" false (Some 5))
     = Some (1, Some (errorString "Expected to receive 2 sequence numbers but only received 18446744073709551614. Not enough replicas are online to safely promote the local replica."))
  /\ statements (fst (promote Scenario.ocfCodes 3 (Scenario.fresh (Scenario.replica 2 1 3))
                         "ag1" Scenario.level "B" false (Some 1)))
     = ["ALTER AVAILABILITY GROUP [ag1] FAILOVER"].
Proof. repeat split; vm_compute; reflexivity. Qed.

(** ** The action stop *)





Example stop_exit_statuses :
  snd (main Scenario.stopFlags [] 0
         (Scenario.started Scenario.testEnvironment (Scenario.replica 2 1 3)))
  = Exited 11
  /\ OCF_SUCCESS (codes (fst (main Scenario.stopFlags [] 0
                                (Scenario.started Scenario.testEnvironment
                                   (Scenario.replica 2 1 3)))))
     = 1
  /\ main Scenario.stopFlags [] 0
       (Scenario.started (delete "OCF_SUCCESS" Scenario.testEnvironment)
          (Scenario.replica 2 1 3))
     = ({| environ := delete "OCF_SUCCESS" Scenario.testEnvironment; files := ∅;
           codes := {| OCF_ERR_CONFIGURED := 3; OCF_ERR_GENERIC := 4; OCF_ERR_ARGS := 2;
                       OCF_ERR_PERM := 5; OCF_ERR_UNIMPLEMENTED := 6;
                       OCF_FAILED_MASTER := 7; OCF_NOT_RUNNING := 8;
                       OCF_RUNNING_MASTER := 9; OCF_SUCCESS := 0 |};
           stderr := ["Unexpected error: OCF_SUCCESS is set to an invalid value []"];
           sequenceNumberOut := [];
           sqlServer := Scenario.fresh (Scenario.replica 2 1 3) |},
        Exited 1).
Proof. repeat split; vm_compute; reflexivity. Qed.

(** ** OpenDBWithHealthCheck *)

Section HealthCheckTimeout.

Variables (hostname : string) (port : Z).
Variables (username password applicationName : string).
Variable connectionTimeout : Z.
Variable db : Instance.

Let turn := turn hostname port username password applicationName connectionTimeout.
Let run := run hostname port username password applicationName connectionTimeout.

Local Abbreviation selecting := (Spec.selecting db).
Local Abbreviation returned := (Spec.returned hostname port db).

Lemma entered_selecting : selecting (entered db).
Proof. split; simpl; [reflexivity | lia]. Qed.

(** The return of the main flow through the case of the deadline. *)
Lemma deadline_returned (c : Connector) (requested : Instance) (seen : list error) :
  (length (requests db) + length seen <= length (requests requested))%nat ->
  returned
    {| connector := c; timeoutChannel := false;
       mainFlow := Returned NilDB
                     (Some match head seen with
                           | Some e => e
                           | None => timedOut hostname port
                           end);
       instance := requested; observed := seen |}.
Proof.
  intros Hcount. eexists; eexists. split; [reflexivity|]. intros _. cbn.
  split; [reflexivity|]. split; [destruct seen; reflexivity|].
  intros Hsame. rewrite Hsame in Hcount.
  destruct seen; [reflexivity | cbn in Hcount; lia].
Qed.

Lemma turn_selecting (t : Turn) (s : HealthCheck) :
  selecting s -> selecting (turn t s) \/ returned (turn t s).
Proof.
  intros [Hmain Hcount]. unfold turn, mssqlcommon.turn. rewrite Hmain.
  destruct t, (connector s) as [i| |i err|i|] eqn:Hconn;
    try (left; split; cbn;
         [first [reflexivity | assumption] | cbn in *; rewrite ?Hconn; cbn; lia]).
  - (* the connector makes an attempt *)
    left. unfold OpenDB. cbn.
    destruct (opened _ _); [|destruct (pinged _ _)];
      split; cbn in *; try reflexivity; lia.
  - (* select takes the connection *)
    right. unfold QueryDiagnostics. cbn.
    destruct (diagnosticsRows _ _) as [err|[rows [err|]]]; cbn;
      eexists; eexists;
      (split; [reflexivity | intros Hne; contradiction Hne; reflexivity]).
  - (* select takes the deadline, in each state of the connector *)
    destruct (timeoutChannel s); [right | left; split; [assumption | rewrite Hconn; lia]].
    apply deadline_returned. lia.
  - destruct (timeoutChannel s); [right | left; split; [assumption | rewrite Hconn; lia]].
    apply deadline_returned. lia.
  - destruct (timeoutChannel s); [right | left; split; [assumption | rewrite Hconn; lia]].
    apply deadline_returned. cbn in *. lia.
  - destruct (timeoutChannel s); [right | left; split; [assumption | rewrite Hconn; lia]].
    apply deadline_returned. lia.
  - destruct (timeoutChannel s); [right | left; split; [assumption | rewrite Hconn; lia]].
    apply deadline_returned. lia.
Qed.

Lemma run_returned (schedule : list Turn) (s : HealthCheck) :
  returned s -> run schedule s = s.
Proof.
  intros (h & e & Hmain & _). unfold run.
  destruct schedule; simpl; now rewrite Hmain.
Qed.

(** Every schedule leaves the main flow in its [select] or returned, as
    described. *)
Lemma run_selecting (schedule : list Turn) (s : HealthCheck) :
  selecting s -> selecting (run schedule s) \/ returned (run schedule s).
Proof.
  revert s. induction schedule as [|t schedule IH]; intros s Hs.
  - left. unfold run. simpl. destruct Hs as [Hmain ?]. rewrite Hmain.
    split; assumption.
  - unfold run. simpl. destruct Hs as [Hmain Hcount]. rewrite Hmain.
    fold run. destruct (turn_selecting t s (conj Hmain Hcount)) as [Hsel|Hret].
    + now apply IH.
    + right. fold (turn t s). now rewrite run_returned.
Qed.

(** Once the deadline has passed and the main flow takes it, the function
    returns. *)
Lemma deadline_turns (s : HealthCheck) :
  selecting s ->
  run [TimerFires; ReceiveTimeout] s
  = {| connector := connector s; timeoutChannel := false;
       mainFlow := Returned NilDB
                     (Some match head (observed s) with
                           | Some e => e
                           | None => timedOut hostname port
                           end);
       instance := instance s; observed := observed s |}.
Proof.
  intros [Hmain _]. unfold run, mssqlcommon.run, mssqlcommon.turn.
  rewrite Hmain. destruct (connector s); reflexivity.
Qed.

Lemma run_deadline (schedule : list Turn) :
  returned (run (schedule ++ [TimerFires; ReceiveTimeout]) (entered db)).
Proof.
  assert (Hgen : forall s, selecting s ->
                   returned (run (schedule ++ [TimerFires; ReceiveTimeout]) s)).
  { induction schedule as [|t rest IH]; intros s Hs.
    - rewrite app_nil_l, deadline_turns by assumption.
      apply deadline_returned. destruct Hs as [_ Hcount]. lia.
    - destruct Hs as [Hmain Hcount]. unfold run. simpl. rewrite Hmain. fold run.
      destruct (turn_selecting t s (conj Hmain Hcount)) as [Hsel|Hret].
      + now apply IH.
      + fold (turn t s). now rewrite run_returned. }
  apply Hgen, entered_selecting.
Qed.

(** A connection that the connector holds or has handed over stays so:
    when no attempt has succeeded after a turn, none had before it. *)
Lemma noAttemptSucceeded_before (t : Turn) (s : HealthCheck) :
  Spec.noAttemptSucceeded (turn t s) -> Spec.noAttemptSucceeded s.
Proof.
  unfold Spec.noAttemptSucceeded, turn, mssqlcommon.turn.
  destruct (connector s) eqn:Hconn; try (intros _; split; discriminate);
    intros [H1 H2]; exfalso;
    destruct t, (mainFlow s); cbn in *; rewrite ?Hconn in *;
    try congruence;
    repeat match goal with
           | H : context [let '(_, _) := ?x in _] |- _ => destruct x as [? [? [?|]]]
           | H : context [if ?b then _ else _] |- _ => destruct b
           end; cbn in *; rewrite ?Hconn in *; congruence.
Qed.

(** C6.  Take any schedule of the connector, the timer and the main flow.
    When the main flow returns and no connection attempt has succeeded,
    the connection it returns is nil and its error is the latest one it
    received from the connector, or, when it received none, the error of
    the deadline: a ServerUnhealthyError of severity DownOrUnresponsive
    whose message begins with the words timed out.  It received none when
    no attempt was made.  And the main flow does return once the deadline
    has passed and is taken. *)
Theorem OpenDBWithHealthCheck_timeout (schedule : list Turn) :
  let s := run schedule (entered db) in
  (forall h e,
      mainFlow s = Returned h e ->
      Spec.noAttemptSucceeded s ->
      OpenDBWithHealthCheck hostname port username password applicationName
        connectionTimeout schedule db
      = (instance s, Some (NilDB, e))
      /\ e = Some (default (timedOut hostname port) (head (observed s)))
      /\ (requests (instance s) = requests db -> e = Some (timedOut hostname port)))
  /\ (exists h e,
        mainFlow (run (schedule ++ [TimerFires; ReceiveTimeout]) (entered db))
        = Returned h e)
  /\ exists rest,
      timedOut hostname port
      = ServerUnhealthyError ServerDownOrUnresponsive
          (errorString ("timed out" +:+ rest)).
Proof.
  intros s. split; [|split].
  - intros h e Hmain [_ Hnot].
    destruct (run_selecting schedule (entered db) entered_selecting) as [Hsel|Hret].
    + destruct Hsel as [Hsel _]. fold s in Hsel. congruence.
    + destruct Hret as (h' & e' & Hmain' & Hrest). fold s in Hmain', Hrest.
      rewrite Hmain in Hmain'. injection Hmain' as <- <-.
      destruct (Hrest Hnot) as (-> & He & Hnone).
      split; [|split; assumption].
      unfold OpenDBWithHealthCheck. fold run. fold s. now rewrite Hmain.
  - destruct (run_deadline schedule) as (h & e & Hmain & _). eauto.
  - eexists. unfold timedOut. reflexivity.
Qed.

End HealthCheckTimeout.


Lemma OpenDBWithHealthCheck_timeout_witness :
  snd (OpenDBWithHealthCheck "localhost" 1433 "sa" "secret" "monitor-ag1" 30000000000
         Scenario.refused (Scenario.fresh Scenario.unreachable))
  = Some (NilDB,
          Some (ServerUnhealthyError ServerDownOrUnresponsive
                  (errorString "dial tcp 127.0.0.1:1433: connect: connection refused"))).
Proof.
  assert (Hmain : mainFlow (run "localhost" 1433 "sa" "secret" "monitor-ag1" 30000000000
                              Scenario.refused
                              (entered (Scenario.fresh Scenario.unreachable)))
                  = Returned NilDB
                      (Some (ServerUnhealthyError ServerDownOrUnresponsive
                               (errorString "dial tcp 127.0.0.1:1433: connect: connection refused"))))
    by (vm_compute; reflexivity).
  assert (Hnone : Spec.noAttemptSucceeded
                    (run "localhost" 1433 "sa" "secret" "monitor-ag1" 30000000000
                       Scenario.refused
                       (entered (Scenario.fresh Scenario.unreachable))))
    by (split; vm_compute; discriminate).
  destruct (proj1 (OpenDBWithHealthCheck_timeout "localhost" 1433 "sa" "secret"
                     "monitor-ag1" 30000000000 (Scenario.fresh Scenario.unreachable)
                     Scenario.refused) _ _ Hmain Hnone)
    as [Hresult _].
  exact (f_equal snd Hresult).
Defined.

(** The three ways out of the health check: the deadline after a refused
    attempt, the deadline before any attempt is over, and a connection to
    an instance whose diagnostics name no component. *)
Example OpenDBWithHealthCheck_outcomes :
  snd (OpenDBWithHealthCheck "localhost" 1433 "sa" "secret" "monitor-ag1" 30000000000
         Scenario.overdue (Scenario.fresh Scenario.unreachable))
  = Some (NilDB,
          Some (ServerUnhealthyError ServerDownOrUnresponsive
                  (errorString "timed out while attempting to connect to the instance at localhost:1433 and run sp_server_diagnostics")))
  /\ snd (OpenDBWithHealthCheck "localhost" 1433 "sa" "secret" "monitor-ag1" 30000000000
            Scenario.connects (Scenario.fresh Scenario.silent))
     = Some (OpenedDB,
             Some (ServerUnhealthyError ServerCriticalError
                     (errorString "sp_server_diagnostics result indicates system error")))
  /\ snd (OpenDBWithHealthCheck "localhost" 1433 "sa" "secret" "monitor-ag1" 30000000000
            Scenario.connects (Scenario.fresh (Scenario.replica 2 1 3)))
     = Some (OpenedDB, None).
Proof. repeat split; vm_compute; reflexivity. Qed.

(** ** The scenarios of the specification, from the command line to the exit *)

(** Promote with the new master behind: exit 1 + 10, the error on stderr,
    and the session context as the only statement run. *)
Example main_promote_lagging :
  let final := main (Scenario.promoteFlags Scenario.lagging (-1)) Scenario.connects 0
                 (Scenario.agent (Scenario.replica 2 1 3)) in
  snd final = Exited 11
  /\ stderr (fst final)
     = ["Local replica has sequence number 9 but max sequence number is 10, so it cannot be promoted"]
  /\ statements (sqlServer (fst final)) = [sessionContext].
Proof. repeat split; vm_compute; reflexivity. Qed.

(** Promote with one of three replicas reporting: exit 1 + 10. *)
Example main_promote_one_of_three :
  let final := main (Scenario.promoteFlags Scenario.alone (-1)) Scenario.connects 0
                 (Scenario.agent (Scenario.replica 2 1 3)) in
  snd final = Exited 11
  /\ stderr (fst final)
     = ["Expected to receive 1 sequence numbers but only received 2. Not enough replicas are online to safely promote the local replica."]
  /\ statements (sqlServer (fst final)) = [sessionContext].
Proof. repeat split; vm_compute; reflexivity. Qed.

(** Promote with the flag set to 5 for three replicas: exit 1 + 10; with the
    flag set to 2^31 the value is refused: exit 6 + 10, and no request. *)
Example main_promote_override :
  let final := main (Scenario.promoteFlags Scenario.level 5) Scenario.connects 0
                 (Scenario.agent (Scenario.replica 2 1 3)) in
  let refused := main (Scenario.promoteFlags Scenario.level (2 ^ 31)) Scenario.connects 0
                   (Scenario.agent (Scenario.replica 2 1 3)) in
  snd final = Exited 11
  /\ stderr (fst final)
     = ["Expected to receive 2 sequence numbers but only received 18446744073709551614. Not enough replicas are online to safely promote the local replica."]
  /\ snd refused = Exited 16
  /\ requests (sqlServer (fst refused)) = [].
Proof. repeat split; vm_compute; reflexivity. Qed.

(** Stop: exit 0 + 10 in the environment of the agent, and no request. *)
Example main_stop :
  let final := main Scenario.stopFlags Scenario.connects 0
                 (Scenario.agent (Scenario.replica 2 1 3)) in
  snd final = Exited 10 /\ requests (sqlServer (fst final)) = [].
Proof. repeat split; vm_compute; reflexivity. Qed.

(** The instance refuses the connection until the deadline: exit 1 + 10. *)
Example main_connect_timeout :
  let final := main (Scenario.promoteFlags Scenario.level (-1)) Scenario.refused 0
                 (Scenario.agent Scenario.unreachable) in
  snd final = Exited 11
  /\ stderr (fst final)
     = ["Instance health status 1 is at or below the threshold value of 3"].
Proof. repeat split; vm_compute; reflexivity. Qed.

(** ** strconv *)

Example Atoi_examples :
  Atoi "12" = inr 12 /\ Atoi "+5" = inr 5 /\ Atoi "-3" = inr (-3)
  /\ Atoi "007" = inr 7
  /\ Atoi "9223372036854775807" = inr MaxInt64
  /\ Atoi "9223372036854775808"
     = inl ("strconv.Atoi: parsing " +:+ Quote "9223372036854775808" +:+ ": value out of range")
  /\ Atoi EmptyString = inl ("strconv.Atoi: parsing " +:+ Quote EmptyString +:+ ": invalid syntax")
  /\ Atoi "A" = inl ("strconv.Atoi: parsing " +:+ Quote "A" +:+ ": invalid syntax")
  /\ Atoi "1 " = inl ("strconv.Atoi: parsing " +:+ Quote "1 " +:+ ": invalid syntax").
Proof. repeat split; vm_compute; reflexivity. Qed.

(** ** The expression of the sequence-number lines *)

Example lineRegex_examples :
  lineRegex (Scenario.line "node1" "42") = Some ("node1", "42")
  /\ lineRegex (Scenario.line "node1" EmptyString) = None
  /\ lineRegex (Scenario.line "node1" "4x2") = None
  /\ lineRegex (Scenario.line EmptyString "42") = None
  /\ lineRegex (Scenario.line "node1" "42" +:+ " ") = None
  /\ lineRegex (" " +:+ Scenario.line "node1" "42") = None
  /\ Split (Scenario.line "A" "1" +:+ LF +:+ LF +:+ "junk" +:+ LF) linefeed
     = [Scenario.line "A" "1"; EmptyString; "junk"; EmptyString].
Proof. repeat split; vm_compute; reflexivity. Qed.

(* ===================================================================== *)
(** * Further properties of the code                                       *)
(* ===================================================================== *)

(** ** Names in statements *)

Lemma readBracketedBody_doubled (s rest : string) :
  Spec.startsWithClosingBracket rest = false ->
  Spec.readBracketedBody (Spec.doubleClosingBrackets s +:+ String "]" rest)
  = Some (s, rest).
Proof.
  intros Hrest. induction s as [|c s IH].
  - cbn [Spec.doubleClosingBrackets]. rewrite append_nil.
    cbn [Spec.readBracketedBody]. rewrite Ascii.eqb_refl.
    destruct rest as [|d rest]; [reflexivity|].
    cbn [Spec.startsWithClosingBracket] in Hrest. now rewrite Hrest.
  - cbn [Spec.doubleClosingBrackets]. destruct (Ascii.eqb c "]") eqn:Hc.
    + apply ascii_eqb_true in Hc. subst c.
      rewrite (append_cons "]"), (append_cons "]").
      cbn [Spec.readBracketedBody]. rewrite Ascii.eqb_refl. now rewrite IH.
    + rewrite append_cons. cbn [Spec.readBracketedBody]. now rewrite Hc, IH.
Qed.

Lemma readBracketed_quoteName (s rest : string) :
  Spec.startsWithClosingBracket rest = false ->
  Spec.readBracketed (quoteName s +:+ rest) = Some (s, rest).
Proof.
  intros Hrest.
  assert (quoteName s +:+ rest
          = String "[" (Spec.doubleClosingBrackets s +:+ String "]" rest)) as ->.
  { unfold quoteName. rewrite Replace_closing_bracket. unfold_append.
    rewrite append_assoc. now unfold_append. }
  cbn [Spec.readBracketed]. rewrite Ascii.eqb_refl.
  now apply readBracketedBody_doubled.
Qed.

(** X1.  A name quoted by [quoteName] reads back as itself: whatever bytes
    the name holds, T-SQL's reading of a name between brackets consumes
    exactly the quoted name and gives the name, as long as what follows
    does not start with a closing bracket. *)
Theorem quoteName_reads_back (s rest : string) :
  Spec.startsWithClosingBracket rest = false ->
  Spec.readBracketed (quoteName s +:+ rest) = Some (s, rest)
  /\ Spec.readBracketed (quoteName s) = Some (s, EmptyString).
Proof.
  intros Hrest. split; [now apply readBracketed_quoteName|].
  rewrite <- (append_empty_r (quoteName s)) at 1.
  now apply readBracketed_quoteName.
Qed.

Lemma quoteName_reads_back_witness :
  Spec.readBracketed (quoteName "a]b] DROP" +:+ " FAILOVER")
  = Some ("a]b] DROP", " FAILOVER").
Proof. exact (proj1 (quoteName_reads_back "a]b] DROP" " FAILOVER" eq_refl)). Defined.

Lemma readStatement_quoted (keywords name rest : string) :
  Spec.startsWithClosingBracket rest = false ->
  Spec.readStatement keywords (keywords +:+ quoteName name +:+ rest) = Some (name, rest).
Proof.
  intros Hrest. unfold Spec.readStatement.
  assert (stripPrefix keywords (keywords +:+ quoteName name +:+ rest)
          = Some (quoteName name +:+ rest)) as -> by (now apply stripPrefix_spec).
  now apply readBracketed_quoteName.
Qed.

(** X2.  Each statement that the gateway builds around the name of an
    Availability Group is its keywords, the name between brackets, and a
    fixed rest: the name, whatever it holds, cannot change the statement
    that is run.  Each of these functions makes one request, without
    parameters, and returns its answer. *)
Theorem statements_name_the_group (db : Instance) (agName : string) :
  let ran (r : Instance * option error) (keywords rest : string) :=
    exists statement,
      requests (fst r) = Exec statement [] :: requests db
      /\ snd r = executed (server db) (Exec statement [] :: requests db)
      /\ Spec.readStatement keywords statement = Some (agName, rest) in
  ran (Drop db agName) "DROP AVAILABILITY GROUP " EmptyString
  /\ ran (Failover db agName) "ALTER AVAILABILITY GROUP " " FAILOVER"
  /\ ran (FailoverWithDataLoss db agName) "ALTER AVAILABILITY GROUP "
       " FORCE_FAILOVER_ALLOW_DATA_LOSS"
  /\ ran (GrantCreateAnyDatabase db agName) "ALTER AVAILABILITY GROUP "
       " GRANT CREATE ANY DATABASE"
  /\ ran (SetRoleToSecondary db agName) "ALTER AVAILABILITY GROUP "
       " SET (ROLE = SECONDARY)".
Proof.
  cbv zeta. repeat split;
    (eexists; split; [reflexivity|]; split; [reflexivity|]).
  - rewrite <- (append_empty_r (quoteName agName)).
    now apply readStatement_quoted.
  - now apply readStatement_quoted.
  - now apply readStatement_quoted.
  - now apply readStatement_quoted.
  - now apply readStatement_quoted.
Qed.

(** ** The value of REQUIRED_SYNCHRONIZED_SECONDARIES_TO_COMMIT *)

(** X3.  The flag is taken as given exactly when it is between 0 and
    MaxInt32, is left to the computation when it is -1, and is refused
    otherwise; a value that is taken survives the conversion to [int32]
    that [setRequiredSynchronizedSecondariesToCommit] applies before the
    statement is built. *)
Theorem toRequiredSynchronizedSecondariesToCommit_range (arg : Z) :
  match toRequiredSynchronizedSecondariesToCommit arg with
  | None => arg < -1 \/ MaxInt32 < arg
  | Some None => arg = -1
  | Some (Some value) => value = arg /\ 0 <= arg <= MaxInt32 /\ toInt32 value = value
  end.
Proof.
  unfold toRequiredSynchronizedSecondariesToCommit, MaxInt32, toInt32, wrapUint.
  destruct (Z.eqb_spec arg (-1)) as [->|Hne]; cbn [negb]; [reflexivity|].
  destruct (Z.ltb_spec arg 0); cbn [orb]; [left; lia|].
  destruct (Z.ltb_spec (2 ^ 31 - 1) arg); [right; lia|].
  rewrite (Z.mod_small arg) by lia. repeat split; try lia.
  rewrite Z.mod_small by lia. lia.
Qed.

(** X4.  The computed value, for a number of replicas in the range of
    [uint]: it is below the number of replicas (the range that the flag
    documents), the primary and that many secondaries are more than half of
    the replicas unless there are two, and the number of sequence numbers
    that [promote] derives from it is the plain difference, at least 1: with
    the computed value the subtraction never wraps. *)
Theorem calculateRequiredSynchronizedSecondariesToCommit_in_range (numSync : Z) :
  1 <= numSync <= MaxUint ->
  let required := calculateRequiredSynchronizedSecondariesToCommit numSync in
  0 <= required <= numSync - 1
  /\ (numSync <> 2 -> numSync < 2 * (required + 1))
  /\ wrapUint (numSync - required) = numSync - required
  /\ 1 <= numSync - required.
Proof.
  unfold MaxUint. intros Hn. cbv zeta.
  unfold calculateRequiredSynchronizedSecondariesToCommit.
  assert (Hdiv : 2 * (numSync / 2) <= numSync < 2 * (numSync / 2) + 2).
  { pose proof (Z.div_mod numSync 2 ltac:(lia)).
    pose proof (Z.mod_pos_bound numSync 2 ltac:(lia)). lia. }
  destruct (Z.eqb_spec numSync 2) as [->|Hne].
  - repeat split; try lia; try reflexivity.
  - repeat split; try lia. unfold wrapUint. apply Z.mod_small. lia.
Qed.

Lemma calculateRequiredSynchronizedSecondariesToCommit_in_range_witness :
  wrapUint (3 - calculateRequiredSynchronizedSecondariesToCommit 3)
  = 3 - calculateRequiredSynchronizedSecondariesToCommit 3.
Proof.
  exact (proj1 (proj2 (proj2
    (calculateRequiredSynchronizedSecondariesToCommit_in_range 3
       ltac:(vm_compute; split; discriminate))))).
Defined.

(** ** The handlers of ag-helper *)

Lemma GetRole_asks (db db1 : Instance) (agName : string) (r : error + (Z * string)) :
  GetRole db agName = (db1, r) -> db1 = ask (QueryRow SelectRole agName) db.
Proof. unfold GetRole. intros H. injection H as <- _. reflexivity. Qed.

Lemma GetDBFailoverMode_asks (db db1 : Instance) (agName : string) (r : error + bool) :
  GetDBFailoverMode db agName = (db1, r) ->
  db1 = ask (QueryRow SelectDBFailoverMode agName) db.
Proof. unfold GetDBFailoverMode. intros H. injection H as <- _. reflexivity. Qed.

Lemma GetDatabaseStates_asks (db db1 : Instance) (agName : string)
    (r : string * option error) :
  GetDatabaseStates db agName = (db1, r) ->
  db1 = ask (QueryRow SelectDatabaseStates agName) db.
Proof. unfold GetDatabaseStates. intros H. injection H as <- _. reflexivity. Qed.

Lemma GetSequenceNumber_asks (db db1 : Instance) (agName : string) (r : error + Z) :
  GetSequenceNumber db agName = (db1, r) ->
  db1 = ask (QueryRow SelectSequenceNumber agName) db.
Proof. unfold GetSequenceNumber. intros H. injection H as <- _. reflexivity. Qed.

Lemma GetNumSyncCommitReplicas_asks (db db1 : Instance) (agName : string)
    (r : error + Z) :
  GetNumSyncCommitReplicas db agName = (db1, r) ->
  db1 = ask (QueryRow SelectNumSyncCommitReplicas agName) db.
Proof. unfold GetNumSyncCommitReplicas. intros H. injection H as <- _. reflexivity. Qed.

Lemma GetAvailabilityMode_asks (db db1 : Instance) (agName : string)
    (r : error + (Z * string)) :
  GetAvailabilityMode db agName = (db1, r) ->
  db1 = ask (QueryRow SelectAvailabilityMode agName) db.
Proof. unfold GetAvailabilityMode. intros H. injection H as <- _. reflexivity. Qed.

Lemma isErrNoRows_true (err : error) : isErrNoRows err = true -> err = ErrNoRows.
Proof. destruct err; [reflexivity | discriminate | discriminate]. Qed.

(** The statement that sets REQUIRED_SYNCHRONIZED_SECONDARIES_TO_COMMIT is
    one statement more. *)
Lemma setsRequired_statements (db after : Instance) (agName : string)
    (required : option Z) (answer : option error) :
  Spec.setsRequired db agName required after answer ->
  exists statement, statements after = statement :: statements db.
Proof.
  intros (before & value & Hs & Hset & _).
  unfold SetRequiredSynchronizedSecondariesToCommit, exec in Hset.
  injection Hset as <- _. unfold statements in *. cbn. rewrite Hs.
  eexists. reflexivity.
Qed.

Lemma setsRequired_after_queries (db0 db after : Instance) (agName : string)
    (required : option Z) (answer : option error) :
  statements db = statements db0 ->
  Spec.setsRequired db agName required after answer ->
  Spec.setsRequired db0 agName required after answer.
Proof.
  intros Hs (before & value & Hbefore & Hset & Hvalue).
  exists before, value. split; [congruence | split; assumption].
Qed.

(** The block that [monitor], [preStart] and [postStop] share. *)
Lemma updateRequiredSynchronizedSecondariesToCommit_spec
    (db db' : Instance) (agName : string) (required : option Z) (err : option string) :
  updateRequiredSynchronizedSecondariesToCommit db agName required = (db', err) ->
  (statements db' = statements db /\ err <> None)
  \/ exists answer,
       Spec.setsRequired db agName required db' answer
       /\ (err = None <-> answer = None).
Proof.
  unfold updateRequiredSynchronizedSecondariesToCommit. destruct required as [value|].
  - destruct (setRequiredSynchronizedSecondariesToCommit db agName value)
      as [db1 e] eqn:Hset.
    intros H. injection H as <- <-. right. exists e. split.
    + exists db, (toInt32 value). repeat split. exact Hset.
    + destruct e; split; intros; congruence.
  - unfold calculateAndSetRequiredSynchronizedSecondariesToCommit.
    destruct (GetNumSyncCommitReplicas db agName) as [db1 r] eqn:Hnum.
    pose proof (GetNumSyncCommitReplicas_statements _ _ _ _ Hnum) as Hs.
    destruct r as [e|numSync].
    + intros H. injection H as <- <-. left. split; [exact Hs | discriminate].
    + destruct (setRequiredSynchronizedSecondariesToCommit db1 agName _)
        as [db2 e] eqn:Hset.
      intros H. injection H as <- <-. right. exists e. split.
      * exists db1, (toInt32 (calculateRequiredSynchronizedSecondariesToCommit numSync)).
        split; [exact Hs|]. split; [exact Hset|]. exists db, numSync. now split.
      * destruct e; split; intros; congruence.
Qed.

(** The loop that waits for the databases: what it asks and when it ends. *)
Lemma polls_ask_poll (db : Instance) (agName : string) :
  Spec.polls (requests (ask (QueryRow SelectDatabaseStates agName) db))
  = S (Spec.polls (requests db)).
Proof. reflexivity. Qed.

Lemma waitForDatabasesToBeOnline_spec
    (retries : nat) (db db' : Instance) (agName : string) (lastErr err : option error) :
  waitForDatabasesToBeOnline retries db agName lastErr = (db', err) ->
  statements db' = statements db
  /\ server db' = server db
  /\ (Spec.polls (requests db') <= Spec.polls (requests db) + retries)%nat
  /\ match err with
     | None =>
         (retries = 0%nat /\ lastErr = None /\ db' = db)
         \/ exists asked later,
              GetDatabaseStates asked agName = (db', (EmptyString, None))
              /\ server asked = server db
              /\ requests asked = later ++ requests db
     | Some _ =>
         Spec.polls (requests db') = (Spec.polls (requests db) + retries)%nat
     end.
Proof.
  revert db lastErr. induction retries as [|retries IH]; intros db lastErr.
  - cbn [waitForDatabasesToBeOnline]. intros H. injection H as <- <-.
    repeat split; [lia|]. destruct lastErr; [lia | left; repeat split].
  - cbn [waitForDatabasesToBeOnline].
    destruct (GetDatabaseStates db agName) as [db1 [message e]] eqn:Hpoll.
    pose proof (GetDatabaseStates_asks _ _ _ _ Hpoll) as Hdb1.
    assert (Hnext : forall lastErr',
               waitForDatabasesToBeOnline retries (ask (Sleep 1) db1) agName lastErr'
               = (db', err) ->
               lastErr' <> None ->
               statements db' = statements db
               /\ server db' = server db
               /\ (Spec.polls (requests db') <= Spec.polls (requests db) + S retries)%nat
               /\ match err with
                  | None =>
                      (S retries = 0%nat /\ lastErr = None /\ db' = db)
                      \/ exists asked later,
                           GetDatabaseStates asked agName = (db', (EmptyString, None))
                           /\ server asked = server db
                           /\ requests asked = later ++ requests db
                  | Some _ =>
                      Spec.polls (requests db')
                      = (Spec.polls (requests db) + S retries)%nat
                  end).
    { intros lastErr' H Hsome. apply IH in H as (Hs & Hserver & Hbound & Herr).
      subst db1. cbn in Hs, Hserver, Hbound.
      repeat split; [exact Hs | exact Hserver | unfold Spec.polls in *; cbn in *; lia |].
      destruct err as [e'|].
      - unfold Spec.polls in *. cbn in *. lia.
      - destruct Herr as [(_ & Hnone & _)|(asked & later & Hask & Hsrv & Hreq)];
          [contradiction|].
        right. exists asked, (later ++ [Sleep 1; QueryRow SelectDatabaseStates agName]).
        split; [exact Hask|]. split; [exact Hsrv|].
        rewrite Hreq. cbn. rewrite <- app_assoc. reflexivity. }
    destruct e as [e|].
    + intros H. apply (Hnext _ H). discriminate.
    + destruct message as [|c message]; cbn [isEmpty].
      * intros H. injection H as <- <-. subst db1.
        repeat split; [unfold Spec.polls; cbn; lia|].
        right. exists db, []. split; [exact Hpoll|]. split; reflexivity.
      * intros H. apply (Hnext _ H). discriminate.
Qed.

(** X5.  [monitor] runs a statement only on a replica that answered that it
    is PRIMARY, and then one statement: the one that sets
    REQUIRED_SYNCHRONIZED_SECONDARIES_TO_COMMIT, to the value given or else to
    the value computed from the number of replicas just queried.  On every
    other path it only queries. *)
Theorem monitor_statement_only_as_primary
    (codes : OcfExitCodes) (db : Instance) (agName : string) (retries : Z)
    (required : option Z) :
  let r := monitor codes db agName retries required in
  statements (fst r) = statements db
  \/ (exists desc, snd (GetRole db agName) = inr (RolePRIMARY, desc))
     /\ exists answer, Spec.setsRequired db agName required (fst r) answer.
Proof.
  cbv zeta. unfold monitor.
  destruct (GetRole db agName) as [db1 r] eqn:Hrole.
  pose proof (GetRole_asks _ _ _ _ Hrole) as Hdb1.
  assert (Hs1 : statements db1 = statements db) by (subst db1; reflexivity).
  destruct r as [err|[role desc]].
  - destruct (isErrNoRows err); left; exact Hs1.
  - destruct (Z.eqb_spec role RolePRIMARY) as [->|Hrol].
    + destruct (GetDBFailoverMode db1 agName) as [db2 mode] eqn:Hmode.
      pose proof (GetDBFailoverMode_asks _ _ _ _ Hmode) as Hdb2.
      assert (Hs2 : statements db2 = statements db) by (subst db2; exact Hs1).
      destruct mode as [err|on]; [left; exact Hs2|].
      destruct (if on then waitForDatabasesToBeOnline (Z.to_nat retries) db2 agName None
                else (db2, None)) as [db3 err] eqn:Hwait.
      assert (Hs3 : statements db3 = statements db).
      { destruct on.
        - apply waitForDatabasesToBeOnline_spec in Hwait as (Hs & _). congruence.
        - injection Hwait as <- _. exact Hs2. }
      destruct err as [e|]; [left; exact Hs3|].
      destruct (updateRequiredSynchronizedSecondariesToCommit db3 agName required)
        as [db4 message] eqn:Hupdate.
      apply updateRequiredSynchronizedSecondariesToCommit_spec in Hupdate
        as [[Hs4 Hmessage]|(answer & Hsets & _)].
      * left. destruct message; cbn [fst]; congruence.
      * right. split; [eauto|]. exists answer.
        apply (setsRequired_after_queries db db3); [exact Hs3|].
        destruct message; exact Hsets.
    + destruct (role =? RoleRESOLVING); left; exact Hs1.
Qed.

(** X6.  The exit code of [monitor] as its callers read it.  With an error
    the code is OCF_ERR_GENERIC.  Without one, the code tells the role that
    the instance answered: OCF_RUNNING_MASTER for PRIMARY, OCF_NOT_RUNNING for
    RESOLVING and for a group without a row, OCF_SUCCESS for every other
    role. *)
Theorem monitor_contract
    (codes : OcfExitCodes) (db : Instance) (agName : string) (retries : Z)
    (required : option Z) :
  let r := snd (monitor codes db agName retries required) in
  match snd r with
  | Some _ => fst r = OCF_ERR_GENERIC codes
  | None =>
      match snd (GetRole db agName) with
      | inl err => err = ErrNoRows /\ fst r = OCF_NOT_RUNNING codes
      | inr (role, _) =>
          fst r = if role =? RolePRIMARY then OCF_RUNNING_MASTER codes
                  else if role =? RoleRESOLVING then OCF_NOT_RUNNING codes
                  else OCF_SUCCESS codes
      end
  end.
Proof.
  cbv zeta. unfold monitor.
  destruct (GetRole db agName) as [db1 r]. cbn [snd].
  destruct r as [err|[role desc]].
  - destruct (isErrNoRows err) eqn:Herr; cbn [fst snd failure]; [|reflexivity].
    split; [now apply isErrNoRows_true | reflexivity].
  - destruct (role =? RolePRIMARY).
    + destruct (GetDBFailoverMode db1 agName) as [db2 [err|on]];
        cbn [fst snd failure]; [reflexivity|].
      destruct (if on then _ else _) as [db3 [e|]]; cbn [fst snd failure]; [reflexivity|].
      destruct (updateRequiredSynchronizedSecondariesToCommit db3 agName required)
        as [db4 [message|]]; reflexivity.
    + destruct (role =? RoleRESOLVING); reflexivity.
Qed.

(** X7.  The loop that waits for the databases runs no statement and asks
    for the states of the databases at most [retries] times.  It returns nil
    right after an answer without a row, and otherwise only when it was
    given no retry at all; it returns an error only when every retry has
    been used. *)
Theorem waitForDatabasesToBeOnline_bounded
    (retries : nat) (db : Instance) (agName : string) (lastErr : option error) :
  let r := waitForDatabasesToBeOnline retries db agName lastErr in
  statements (fst r) = statements db
  /\ (Spec.polls (requests (fst r)) <= Spec.polls (requests db) + retries)%nat
  /\ match snd r with
     | None =>
         (retries = 0%nat /\ lastErr = None)
         \/ exists asked, GetDatabaseStates asked agName = (fst r, (EmptyString, None))
     | Some _ =>
         Spec.polls (requests (fst r)) = (Spec.polls (requests db) + retries)%nat
     end.
Proof.
  cbv zeta.
  destruct (waitForDatabasesToBeOnline retries db agName lastErr) as [db' err] eqn:H.
  apply waitForDatabasesToBeOnline_spec in H as (Hs & _ & Hbound & Herr).
  cbn [fst snd]. repeat split; [exact Hs | exact Hbound |].
  destruct err; [exact Herr|].
  destruct Herr as [(H0 & Hnone & _)|(asked & later & Hask & _)]; [left; now split|].
  right. now exists asked.
Qed.

(** X8.  What OCF_RUNNING_MASTER says about the databases.  On a PRIMARY
    replica of a group with DB_FAILOVER on, when [monitor] returns without
    an error: with one retry or more, the instance answered one of the
    queries for the states of the databases without naming a database that
    is not online; with no retry, [monitor] did not ask. *)
Theorem monitor_running_master_databases_online
    (codes : OcfExitCodes) (db : Instance) (agName : string) (retries : Z)
    (required : option Z) (desc : string) :
  snd (GetRole db agName) = inr (RolePRIMARY, desc) ->
  snd (GetDBFailoverMode (fst (GetRole db agName)) agName) = inr true ->
  let r := monitor codes db agName retries required in
  snd (snd r) = None ->
  if 0 <? retries then
    exists asked later,
      snd (GetDatabaseStates asked agName) = (EmptyString, None)
      /\ server asked = server db
      /\ requests (fst r) = later ++ requests (fst (GetDatabaseStates asked agName))
  else Spec.polls (requests (fst r)) = Spec.polls (requests db).
Proof.
  intros Hrole Hmode. cbv zeta. unfold monitor.
  destruct (GetRole db agName) as [db1 r] eqn:Hrole1.
  pose proof (GetRole_asks _ _ _ _ Hrole1) as Hdb1.
  cbn [fst snd] in Hrole, Hmode. subst r. rewrite Z.eqb_refl.
  destruct (GetDBFailoverMode db1 agName) as [db2 mode] eqn:Hmode1.
  pose proof (GetDBFailoverMode_asks _ _ _ _ Hmode1) as Hdb2.
  cbn [snd] in Hmode. subst mode.
  destruct (waitForDatabasesToBeOnline (Z.to_nat retries) db2 agName None)
    as [db3 err] eqn:Hwait.
  apply waitForDatabasesToBeOnline_spec in Hwait as (_ & Hserver & Hbound & Herr).
  destruct err as [e|]; [discriminate|].
  destruct (updateRequiredSynchronizedSecondariesToCommit db3 agName required)
    as [db4 message] eqn:Hupdate.
  assert (Hlater : exists later, requests db4 = later ++ requests db3
                                 /\ Spec.polls later = 0%nat).
  { unfold updateRequiredSynchronizedSecondariesToCommit,
      calculateAndSetRequiredSynchronizedSecondariesToCommit,
      setRequiredSynchronizedSecondariesToCommit,
      SetRequiredSynchronizedSecondariesToCommit, exec in Hupdate.
    destruct required as [value|].
    - injection Hupdate as <- _. eexists [_]. split; reflexivity.
    - destruct (GetNumSyncCommitReplicas db3 agName) as [db5 [e|numSync]] eqn:Hnum;
        apply GetNumSyncCommitReplicas_asks in Hnum; subst db5;
        injection Hupdate as <- _.
      + eexists [_]. split; reflexivity.
      + eexists [_; _]. split; reflexivity. }
  destruct Hlater as (later & Hreq & Hpolls).
  destruct message as [message|]; [discriminate|]. intros _. cbn [fst].
  destruct (Z.ltb_spec 0 retries) as [Hpos|Hzero].
  - destruct Herr as [(H0 & _)|(asked & later' & Hask & Hsrv & Hreq')]; [lia|].
    exists asked, later. rewrite Hask. cbn [fst snd].
    split; [reflexivity|]. split; [|exact Hreq].
    rewrite Hsrv. subst db2 db1. reflexivity.
  - replace (Z.to_nat retries) with 0%nat in Hbound by lia.
    assert (Hle : (Spec.polls (requests db3) <= Spec.polls (requests db))%nat).
    { subst db2 db1. unfold Spec.polls in *. cbn in Hbound. cbn. lia. }
    assert (Hge : (Spec.polls (requests db) <= Spec.polls (requests db3))%nat).
    { destruct Herr as [(_ & _ & ->)|(asked & later' & Hask & _ & Hreq')].
      - subst db2 db1. unfold Spec.polls. cbn. lia.
      - apply GetDatabaseStates_asks in Hask. subst db3.
        rewrite polls_ask_poll in Hle. rewrite polls_ask_poll.
        unfold Spec.polls in *. rewrite Hreq' in *.
        rewrite List.filter_app, length_app in *. subst db2 db1. cbn in *. lia. }
    rewrite Hreq. unfold Spec.polls in *.
    rewrite List.filter_app, length_app. lia.
Qed.

Lemma monitor_running_master_databases_online_witness :
  exists asked later,
    snd (GetDatabaseStates asked "ag1") = (EmptyString, None)
    /\ server asked = Scenario.recovering 2
    /\ requests (fst (monitor Scenario.ocfCodes (Scenario.fresh (Scenario.recovering 2))
                        "ag1" 5 None))
       = later ++ requests (fst (GetDatabaseStates asked "ag1")).
Proof.
  exact (monitor_running_master_databases_online Scenario.ocfCodes
           (Scenario.fresh (Scenario.recovering 2)) "ag1" 5 None "PRIMARY"
           eq_refl eq_refl eq_refl).
Defined.

(** ** Waiting for a role *)

Lemma waitUntilRoleSatisfies_spec
    (fuel : nat) (db db' : Instance) (agName : string) (predicate : Z -> bool)
    (waited : option (option error)) :
  waitUntilRoleSatisfies fuel db agName predicate = (db', waited) ->
  statements db' = statements db
  /\ server db' = server db
  /\ match waited with
     | None => length (requests db') = (length (requests db) + fuel)%nat
     | Some None =>
         exists asked role desc,
           GetRole asked agName = (db', inr (role, desc)) /\ predicate role = true
     | Some (Some err) => exists asked, GetRole asked agName = (db', inl err)
     end.
Proof.
  revert db. induction fuel as [|fuel IH]; intros db.
  - cbn [waitUntilRoleSatisfies]. intros H. injection H as <- <-.
    repeat split. lia.
  - cbn [waitUntilRoleSatisfies].
    destruct (GetRole db agName) as [db1 r] eqn:Hrole.
    pose proof (GetRole_asks _ _ _ _ Hrole) as Hdb1.
    destruct r as [err|[role desc]].
    + intros H. injection H as <- <-. subst db1. repeat split. now exists db.
    + destruct (predicate role) eqn:Hpredicate.
      * intros H. injection H as <- <-. subst db1. repeat split.
        now exists db, role, desc.
      * intros H. apply IH in H as (Hs & Hserver & Hwaited). subst db1.
        repeat split; [exact Hs | exact Hserver |].
        destruct waited as [[err|]|]; [exact Hwaited | exact Hwaited |].
        rewrite Hwaited. cbn. lia.
Qed.

Lemma waitUntilRoleSatisfies_more_fuel
    (fuel more : nat) (db db' : Instance) (agName : string) (predicate : Z -> bool)
    (result : option error) :
  waitUntilRoleSatisfies fuel db agName predicate = (db', Some result) ->
  waitUntilRoleSatisfies (fuel + more) db agName predicate = (db', Some result).
Proof.
  revert db. induction fuel as [|fuel IH]; intros db; [discriminate|].
  cbn [waitUntilRoleSatisfies Nat.add].
  destruct (GetRole db agName) as [db1 [err|[role desc]]]; [trivial|].
  destruct (predicate role); [trivial | apply IH].
Qed.

(** While the instance answers with a role that does not satisfy the
    predicate, the loop does not end. *)
Lemma waitUntilRoleSatisfies_blocked
    (fuel : nat) (db : Instance) (agName : string) (predicate : Z -> bool) :
  (forall requested, exists role desc,
      roleRow (server db) requested = inr (role, desc)
      /\ 0 <= role <= 255 /\ predicate role = false) ->
  snd (waitUntilRoleSatisfies fuel db agName predicate) = None.
Proof.
  revert db. induction fuel as [|fuel IH]; intros db Hrole; [reflexivity|].
  cbn [waitUntilRoleSatisfies]. unfold GetRole.
  destruct (Hrole (requests (ask (QueryRow SelectRole agName) db)))
    as (role & desc & Hrow & Hrange & Hpredicate).
  cbv zeta. cbn [server requests ask] in *. rewrite Hrow. unfold scanInteger.
  assert ((0 <=? role) && (role <=? 255) = true) as ->
      by (apply andb_true_iff; split; apply Z.leb_le; lia).
  rewrite Hpredicate. apply IH. exact Hrole.
Qed.

(** X9.  When [waitUntilRoleSatisfies] returns, it has run no statement, and
    its result is the answer to its last question: nil when the role
    answered satisfies the predicate, the error otherwise.  More polls
    allowed do not change the result, so it is the result of the loop of
    the source. *)
Theorem waitUntilRoleSatisfies_returns
    (fuel : nat) (db db' : Instance) (agName : string) (predicate : Z -> bool)
    (result : option error) :
  waitUntilRoleSatisfies fuel db agName predicate = (db', Some result) ->
  statements db' = statements db
  /\ (exists asked,
        match result with
        | None =>
            exists role desc,
              GetRole asked agName = (db', inr (role, desc)) /\ predicate role = true
        | Some err => GetRole asked agName = (db', inl err)
        end)
  /\ forall more,
       waitUntilRoleSatisfies (fuel + more) db agName predicate = (db', Some result).
Proof.
  intros H. pose proof (waitUntilRoleSatisfies_spec _ _ _ _ _ _ H) as (Hs & _ & Hlast).
  split; [exact Hs|]. split.
  - destruct result as [err|]; [exact Hlast|].
    destruct Hlast as (asked & role & desc & Hlast). exists asked, role, desc. exact Hlast.
  - intros more. now apply waitUntilRoleSatisfies_more_fuel.
Qed.

Lemma waitUntilRoleSatisfies_returns_witness :
  statements (ask (QueryRow SelectRole "ag1") (Scenario.fresh (Scenario.replica 1 1 3)))
  = statements (Scenario.fresh (Scenario.replica 1 1 3)).
Proof.
  exact (proj1 (waitUntilRoleSatisfies_returns 1 (Scenario.fresh (Scenario.replica 1 1 3))
                  (ask (QueryRow SelectRole "ag1") (Scenario.fresh (Scenario.replica 1 1 3)))
                  "ag1" (fun role => role =? RolePRIMARY) None eq_refl)).
Defined.

(** X10.  [start] does not return while the replica stays in the RESOLVING
    role, however many times it asks; the one statement it has run is the
    one that sets the role to SECONDARY, whose error it does not look at. *)
Theorem start_waits_while_resolving
    (codes : OcfExitCodes) (fuel : nat) (db : Instance) (agName : string)
    (retries : Z) (required : option Z) :
  (forall requested, exists desc,
      roleRow (server db) requested = inr (RoleRESOLVING, desc)) ->
  let r := start codes fuel db agName retries required in
  snd r = None
  /\ statements (fst r) = statements (fst (SetRoleToSecondary db agName)).
Proof.
  intros Hrole. cbv zeta. unfold start.
  destruct (SetRoleToSecondary db agName) as [db1 ignored] eqn:Hset.
  assert (Hserver : server db1 = server db).
  { unfold SetRoleToSecondary, exec in Hset. injection Hset as <- _. reflexivity. }
  destruct (waitUntilRoleSatisfies fuel db1 agName _) as [db2 waited] eqn:Hwait.
  pose proof (waitUntilRoleSatisfies_blocked fuel db1 agName
                (fun role => negb (role =? RoleRESOLVING))) as Hblocked.
  rewrite Hwait in Hblocked. cbn [snd] in Hblocked. rewrite Hblocked.
  - apply waitUntilRoleSatisfies_spec in Hwait as (Hs & _). now split.
  - intros requested. destruct (Hrole requested) as [desc Hrow].
    exists RoleRESOLVING, desc. rewrite Hserver.
    split; [exact Hrow|]. split; [unfold RoleRESOLVING; lia | reflexivity].
Qed.

Lemma start_waits_while_resolving_witness :
  snd (start Scenario.ocfCodes 7 (Scenario.fresh (Scenario.replica 0 1 3)) "ag1" 60 None)
  = None.
Proof.
  exact (proj1 (start_waits_while_resolving Scenario.ocfCodes 7
                  (Scenario.fresh (Scenario.replica 0 1 3)) "ag1" 60 None
                  (fun _ => ex_intro _ "ROLE" eq_refl))).
Defined.

(** ** promote *)

Lemma afterQueries_refl (db : Instance) : Spec.afterQueries db db.
Proof. repeat split. now exists []. Qed.

Lemma afterQueries_ask (db db' : Instance) (query : Select) (agName : string) :
  Spec.afterQueries db db' -> Spec.afterQueries db (ask (QueryRow query agName) db').
Proof.
  intros (Hserver & Hstatements & later & Hrequests). repeat split; [assumption..|].
  exists (QueryRow query agName :: later). cbn [requests ask]. now rewrite Hrequests.
Qed.

(** X11.  The statements of [promote], and what it returns after each.
    Either it runs none, and returns OCF_SUCCESS without an error or
    OCF_ERR_GENERIC with one.  Or it has asked for the number of replicas
    and then runs FAILOVER on the instance as its queries have left it.
    When the instance answers FAILOVER with an error, that is the last
    request and the result is OCF_FAILED_MASTER with that error.  When it
    answers without one, [promote] waits for the PRIMARY role: while it
    waits it has not returned; an error of the wait gives
    OCF_FAILED_MASTER; and once the instance has answered PRIMARY, the
    second and last statement sets
    REQUIRED_SYNCHRONIZED_SECONDARIES_TO_COMMIT to the value given, or else
    to the one computed from the number of replicas, and the result is
    OCF_SUCCESS when the instance answers that statement without an error
    and OCF_ERR_GENERIC with its error otherwise. *)
Theorem promote_failover_discipline
    (codes : OcfExitCodes) (fuel : nat) (db : Instance)
    (agName sequenceNumbers newMaster : string) (skipPreCheck : bool)
    (required : option Z) :
  let r := promote codes fuel db agName sequenceNumbers newMaster skipPreCheck required in
  (statements (fst r) = statements db
   /\ (snd r = Some (OCF_SUCCESS codes, None)
       \/ exists message, snd r = Some (failure (OCF_ERR_GENERIC codes) message)))
  \/ exists asked db1 numSync,
       Spec.afterQueries db asked
       /\ GetNumSyncCommitReplicas asked agName = (db1, inr numSync)
       /\ match Failover db1 agName with
          | (db2, Some e) =>
              r = (db2, Some (failure (OCF_FAILED_MASTER codes)
                                ("Could not promote local replica to PRIMARY role: "
                                 +:+ Error e)))
          | (db2, None) =>
              match waitUntilRoleSatisfies fuel db2 agName
                      (fun role => role =? RolePRIMARY) with
              | (db3, None) => r = (db3, None)
              | (db3, Some (Some e)) =>
                  r = (db3, Some (failure (OCF_FAILED_MASTER codes)
                                    ("Failed while waiting for local replica to be in PRIMARY role: "
                                     +:+ Error e)))
              | (db3, Some None) =>
                  (exists polled desc,
                      GetRole polled agName = (db3, inr (RolePRIMARY, desc)))
                  /\ match SetRequiredSynchronizedSecondariesToCommit db3 agName
                             (toInt32
                                match required with
                                | Some given => given
                                | None =>
                                    calculateRequiredSynchronizedSecondariesToCommit
                                      numSync
                                end) with
                     | (db4, None) => r = (db4, Some (OCF_SUCCESS codes, None))
                     | (db4, Some e) =>
                         r = (db4, Some (failure (OCF_ERR_GENERIC codes)
                                           ("Could not set value of REQUIRED_SYNCHRONIZED_SECONDARIES_TO_COMMIT: "
                                            +:+ Error e)))
                     end
              end
          end.
Proof.
  cbv zeta. unfold promote.
  destruct (isPrimary db agName) as [db1 primary] eqn:Hprimary.
  assert (H1 : Spec.afterQueries db db1).
  { unfold isPrimary in Hprimary.
    destruct (GetRole db agName) as [d answer] eqn:Hrole.
    apply GetRole_asks in Hrole. subst d.
    destruct answer as [err|[role desc]]; injection Hprimary as <- _;
      apply afterQueries_ask, afterQueries_refl. }
  pose proof H1 as (_ & Hs1 & _).
  destruct primary as [err|[|]]; cbn [fst snd]; [left; eauto | left; eauto |].
  destruct (if skipPreCheck then (db1, None) else _) as [db2 precheck] eqn:Hpre.
  assert (H2 : Spec.afterQueries db db2).
  { destruct skipPreCheck; [injection Hpre as <- _; exact H1|].
    destruct (GetAvailabilityMode db1 agName) as [d mode] eqn:Hmode.
    apply GetAvailabilityMode_asks in Hmode. subst d.
    destruct mode as [err|[mode desc]];
      [injection Hpre as <- _; now apply afterQueries_ask|].
    destruct (mode =? AmSYNCHRONOUS_COMMIT); injection Hpre as <- _;
      now apply afterQueries_ask. }
  pose proof H2 as (_ & Hs2 & _).
  destruct precheck as [message|]; cbn [fst snd]; [left; eauto|].
  destruct (scanSequenceNumbers _ _ _) as [err|seen]; cbn [fst snd]; [left; eauto|].
  destruct (_ <? _); cbn [fst snd]; [left; eauto|].
  destruct (_ =? 0); cbn [fst snd]; [left; eauto|].
  destruct (GetNumSyncCommitReplicas db2 agName) as [db3 answer] eqn:Hnum.
  pose proof (GetNumSyncCommitReplicas_statements _ _ _ _ Hnum) as Hs3.
  destruct answer as [err|numSync]; cbn [fst snd]; [left; split; [congruence | eauto]|].
  destruct (_ <? _); cbn [fst snd]; [left; split; [congruence | eauto]|].
  right. exists db2, db3, numSync. split; [exact H2|]. split; [exact Hnum|].
  destruct (Failover db3 agName) as [db4 [e|]]; [reflexivity|].
  destruct (waitUntilRoleSatisfies fuel db4 agName _) as [db5 waited] eqn:Hwait.
  apply waitUntilRoleSatisfies_spec in Hwait as (_ & _ & Hlast).
  destruct waited as [[e|]|]; [reflexivity | | reflexivity].
  destruct Hlast as (polled & role & desc & Hpolled & Hrole).
  apply Z.eqb_eq in Hrole. subst role.
  split; [now exists polled, desc|].
  unfold setRequiredSynchronizedSecondariesToCommit.
  destruct (SetRequiredSynchronizedSecondariesToCommit db5 agName _) as [db6 [e|]];
    reflexivity.
Qed.

(** What the loop leaves for the new master is the value recorded for it. *)
Lemma scanSequenceNumbers_recorded (newMaster sequenceNumbers : string)
    (seen : SequenceNumbers) :
  scanSequenceNumbers newMaster (Split sequenceNumbers linefeed) initialSequenceNumbers
  = inr seen ->
  newMasterSequenceNumber seen
  = Spec.recorded newMaster (Spec.parsedLines sequenceNumbers).
Proof.
  intros H.
  pose proof (scanSequenceNumbers_spec newMaster (Split sequenceNumbers linefeed)
                initialSequenceNumbers ltac:(simpl; lia)) as Hscan.
  rewrite H in Hscan. destruct Hscan as (_ & _ & Hnew & _). exact Hnew.
Qed.

(** X12.  [promote] refuses a new master without a sequence number: when no
    line of [--sequence-numbers] that the expression matches names the new
    master, or the last one that does carries 0, and the local replica has
    not answered that it is PRIMARY, the result is OCF_ERR_GENERIC with an
    error and no statement is run. *)
Theorem promote_refuses_without_sequence_number
    (codes : OcfExitCodes) (fuel : nat) (db : Instance)
    (agName sequenceNumbers newMaster : string) (skipPreCheck : bool)
    (required : option Z) :
  Spec.recorded newMaster (Spec.parsedLines sequenceNumbers) = 0 ->
  snd (isPrimary db agName) <> inr true ->
  let r := promote codes fuel db agName sequenceNumbers newMaster skipPreCheck required in
  statements (fst r) = statements db
  /\ exists message, snd r = Some (failure (OCF_ERR_GENERIC codes) message).
Proof.
  intros Hzero Hnot. cbv zeta. unfold promote.
  destruct (isPrimary db agName) as [db1 primary] eqn:Hprimary.
  pose proof (isPrimary_statements _ _ _ _ Hprimary) as Hs1.
  cbn [snd] in Hnot.
  destruct primary as [err|[|]]; cbn [fst snd]; [eauto | congruence |].
  destruct (if skipPreCheck then (db1, None) else _) as [db2 precheck] eqn:Hpre.
  assert (Hs2 : statements db2 = statements db).
  { destruct skipPreCheck; [injection Hpre as <- _; exact Hs1|].
    destruct (GetAvailabilityMode db1 agName) as [db2' mode] eqn:Hmode.
    pose proof (GetAvailabilityMode_statements _ _ _ _ Hmode) as Hs.
    destruct mode as [err|[mode desc]]; [injection Hpre as <- _; congruence|].
    destruct (mode =? AmSYNCHRONOUS_COMMIT); injection Hpre as <- _; congruence. }
  destruct precheck as [message|]; cbn [fst snd]; [eauto|].
  destruct (scanSequenceNumbers _ _ _) as [err|seen] eqn:Hscan; cbn [fst snd]; [eauto|].
  apply scanSequenceNumbers_recorded in Hscan. rewrite Hzero in Hscan.
  rewrite Hscan.
  destruct (0 <? maxSequenceNumber seen); cbn [fst snd]; [eauto|].
  rewrite Z.eqb_refl. cbn [fst snd]. eauto.
Qed.

Lemma promote_refuses_without_sequence_number_witness :
  statements (fst (promote Scenario.ocfCodes 0 (Scenario.fresh (Scenario.replica 2 1 3))
                     "ag1" Scenario.alone "C" false None))
  = [].
Proof.
  assert (Hzero : Spec.recorded "C" (Spec.parsedLines Scenario.alone) = 0)
    by (vm_compute; reflexivity).
  assert (Hnot : snd (isPrimary (Scenario.fresh (Scenario.replica 2 1 3)) "ag1")
                 <> inr true) by (vm_compute; discriminate).
  exact (proj1 (promote_refuses_without_sequence_number Scenario.ocfCodes 0
                  (Scenario.fresh (Scenario.replica 2 1 3)) "ag1" Scenario.alone "C"
                  false None Hzero Hnot)).
Defined.

(** ** The notifications *)

(** X13.  [preStart] and [postStop] do the same.  On a replica that has not
    answered that it is PRIMARY they run no statement (and return
    OCF_SUCCESS when the instance answered with a role); on a PRIMARY
    replica they run at most the statement that sets
    REQUIRED_SYNCHRONIZED_SECONDARIES_TO_COMMIT, and return without an error
    exactly when that statement was run and succeeded. *)
Theorem preStart_postStop
    (codes : OcfExitCodes) (db : Instance) (agName : string) (required : option Z) :
  postStop codes db agName required = preStart codes db agName required
  /\ let r := preStart codes db agName required in
     match snd (isPrimary db agName) with
     | inl _ =>
         statements (fst r) = statements db
         /\ exists message, snd r = failure (OCF_ERR_GENERIC codes) message
     | inr false =>
         statements (fst r) = statements db /\ snd r = (OCF_SUCCESS codes, None)
     | inr true =>
         (statements (fst r) = statements db
          /\ exists message, snd r = failure (OCF_ERR_GENERIC codes) message)
         \/ exists answer,
              Spec.setsRequired db agName required (fst r) answer
              /\ match answer with
                 | None => snd r = (OCF_SUCCESS codes, None)
                 | Some _ =>
                     exists message, snd r = failure (OCF_ERR_GENERIC codes) message
                 end
     end.
Proof.
  split; [reflexivity|]. cbv zeta. unfold preStart.
  destruct (isPrimary db agName) as [db1 primary] eqn:Hprimary.
  pose proof (isPrimary_statements _ _ _ _ Hprimary) as Hs1.
  destruct primary as [err|[|]]; cbn [fst snd]; [eauto | | eauto].
  destruct (updateRequiredSynchronizedSecondariesToCommit db1 agName required)
    as [db2 message] eqn:Hupdate.
  apply updateRequiredSynchronizedSecondariesToCommit_spec in Hupdate
    as [[Hs2 Hmessage]|(answer & Hsets & Hiff)].
  - left. destruct message as [message|]; [|contradiction]. cbn [fst snd].
    split; [congruence | eauto].
  - right. exists answer.
    destruct message as [message|], answer as [e|]; cbn [fst snd].
    + split; [now apply (setsRequired_after_queries db db1) | eauto].
    + destruct Hiff as [_ Hiff]. now specialize (Hiff eq_refl).
    + destruct Hiff as [Hiff _]. now specialize (Hiff eq_refl).
    + split; [now apply (setsRequired_after_queries db db1) | reflexivity].
Qed.

(** X14.  [prePromote] runs no statement and prints one line or none: none
    with an error (OCF_ERR_GENERIC), and otherwise, with OCF_SUCCESS, a
    number in the range of [int64]: the sequence number that the instance
    answered when the availability mode is SYNCHRONOUS_COMMIT or
    CONFIGURATION_ONLY, and 0, without asking for the sequence number, for
    every other mode. *)
Theorem prePromote_prints_sequence_number
    (codes : OcfExitCodes) (db : Instance) (agName : string) :
  let r := prePromote codes db agName in
  statements (fst r) = statements db
  /\ match snd (snd (snd r)) with
     | Some _ => fst (snd r) = [] /\ fst (snd (snd r)) = OCF_ERR_GENERIC codes
     | None =>
         fst (snd (snd r)) = OCF_SUCCESS codes
         /\ exists mode desc,
              snd (GetAvailabilityMode db agName) = inr (mode, desc)
              /\ if (mode =? AmSYNCHRONOUS_COMMIT) || (mode =? AmCONFIGURATION_ONLY)
                 then exists asked sequenceNumber,
                        GetSequenceNumber asked agName = (fst r, inr sequenceNumber)
                        /\ MinInt64 <= sequenceNumber <= MaxInt64
                        /\ fst (snd r) = [fmtD sequenceNumber]
                 else fst r = fst (GetAvailabilityMode db agName)
                      /\ fst (snd r) = [fmtD 0]
     end.
Proof.
  cbv zeta. unfold prePromote.
  destruct (GetAvailabilityMode db agName) as [db1 mode] eqn:Hmode.
  pose proof (GetAvailabilityMode_statements _ _ _ _ Hmode) as Hs1.
  destruct mode as [err|[mode desc]]; cbn [fst snd failure]; [now split|].
  destruct ((mode =? AmSYNCHRONOUS_COMMIT) || (mode =? AmCONFIGURATION_ONLY)) eqn:Hsync.
  - destruct (GetSequenceNumber db1 agName) as [db2 r] eqn:Hnumber.
    pose proof (GetSequenceNumber_asks _ _ _ _ Hnumber) as Hdb2.
    assert (Hs2 : statements db2 = statements db) by (subst db2; exact Hs1).
    destruct r as [err|sequenceNumber]; cbn [fst snd failure]; [now split|].
    split; [exact Hs2|]. split; [reflexivity|].
    exists mode, desc. split; [reflexivity|]. rewrite Hsync.
    exists db1, sequenceNumber. split; [exact Hnumber|]. split; [|reflexivity].
    unfold GetSequenceNumber, scanInteger in Hnumber. injection Hnumber as _ Hnumber.
    destruct (sequenceNumberRow _ _) as [err|v]; [discriminate|].
    destruct (Z.leb_spec MinInt64 v), (Z.leb_spec v MaxInt64); cbn in Hnumber;
      try discriminate.
    injection Hnumber as <-. lia.
  - split; [exact Hs1|]. split; [reflexivity|].
    exists mode, desc. split; [reflexivity|]. rewrite Hsync. now split.
Qed.

(** ** The health check under every schedule *)

Lemma timedOut_isDown (hostname : string) (port : Z) :
  Spec.isDown (timedOut hostname port).
Proof. eexists. reflexivity. Qed.

Lemma OpenDB_spec (db db' : Instance) (hostname : string) (port : Z)
    (username password applicationName : string) (connectionTimeout : Z)
    (err : option error) :
  OpenDB db hostname port username password applicationName connectionTimeout
  = (db', err) ->
  server db' = server db
  /\ statements db' = statements db
  /\ Spec.attempts (requests db') = S (Spec.attempts (requests db))
  /\ match err with
     | Some e => Spec.isDown e
     | None => head (requests db') = Some Ping
     end.
Proof.
  unfold OpenDB. cbv zeta.
  destruct (opened _ _) as [e|].
  - intros H. injection H as <- <-. repeat split. eexists. reflexivity.
  - destruct (pinged _ _) as [e|]; intros H; injection H as <- <-; repeat split.
    eexists. reflexivity.
Qed.

Lemma QueryDiagnostics_asks (db db' : Instance) (r : Diagnostics * option error) :
  QueryDiagnostics db = (db', r) -> db' = ask QueryServerDiagnostics db.
Proof.
  unfold QueryDiagnostics. cbv zeta.
  destruct (diagnosticsRows _ _) as [err|[rows rowsErr]]; intros H;
    injection H as <- _; reflexivity.
Qed.

Section HealthCheckInvariant.

Variables (hostname : string) (port : Z).
Variables (username password applicationName : string).
Variable connectionTimeout : Z.
Variable db : Instance.

Let turn := turn hostname port username password applicationName connectionTimeout.
Let run := run hostname port username password applicationName connectionTimeout.

Lemma run_invariant (P : HealthCheck -> Prop) :
  (forall t s e, mainFlow s = Selecting e -> P s -> P (turn t s)) ->
  forall schedule s, P s -> P (run schedule s).
Proof.
  intros Hturn schedule. induction schedule as [|t schedule IH]; intros s Hs.
  - unfold run. cbn. destruct (mainFlow s); exact Hs.
  - unfold run. cbn. destruct (mainFlow s) eqn:Hflow; [|exact Hs].
    eapply IH, Hturn; eassumption.
Qed.

Lemma entered_sound : Spec.sound db (entered db).
Proof.
  unfold Spec.sound, entered. cbn.
  repeat split; [constructor | lia | discriminate].
Qed.

Lemma turn_sound (t : Turn) (s : HealthCheck) (e : option error) :
  mainFlow s = Selecting e -> Spec.sound db s -> Spec.sound db (turn t s).
Proof.
  intros Hflow Hs.
  pose proof Hs as (Hserver & Hstatements & Hobserved & Hsending & Hattempts & Hmain).
  rewrite Hflow in Hmain. destruct Hmain as [He Hfinished].
  assert (Hdeadline : Spec.isDown match e with
                                  | Some e0 => e0
                                  | None => timedOut hostname port
                                  end).
  { destruct e as [e0|]; [|apply timedOut_isDown].
    destruct (observed s) as [|e1 seen]; [discriminate|].
    injection He as ->. now inversion Hobserved. }
  unfold turn, mssqlcommon.turn. rewrite Hflow.
  destruct t, (connector s) as [i| |i err|i|] eqn:Hconn;
    try contradiction;
    try (unfold Spec.sound; rewrite ?Hconn, ?Hflow; cbn;
         rewrite ?Hconn, ?Hflow; repeat split; tauto).
  - (* the connector makes an attempt *)
    destruct (OpenDB _ _ _ _ _ _ _) as [db1 failed] eqn:Hopen.
    apply OpenDB_spec in Hopen as (Hserver1 & Hstatements1 & Hattempts1 & Hfailed).
    unfold Spec.sound. cbn.
    destruct failed; repeat split; try congruence; try assumption; try lia.
  - (* the connector has slept *)
    unfold Spec.sound. cbn. repeat split; try assumption; try discriminate.
  - (* select takes the connection *)
    destruct (QueryDiagnostics (instance s)) as [db1 [diagnostics failed]] eqn:Hquery.
    pose proof (QueryDiagnostics_asks _ _ _ Hquery) as Hdb1.
    unfold Spec.sound.
    destruct failed as [e0|]; cbn; subst db1;
      repeat split; try assumption;
      try (unfold Spec.attempts in *; cbn; lia);
      exists (instance s); rewrite Hquery; now repeat split.
  - (* select takes the error *)
    unfold Spec.sound. cbn. repeat split; try assumption; try discriminate.
    + now constructor.
    + lia.
  - destruct (timeoutChannel s); [|exact Hs].
    unfold Spec.sound. cbn. now repeat split.
  - destruct (timeoutChannel s); [|exact Hs].
    unfold Spec.sound. cbn. now repeat split.
  - destruct (timeoutChannel s); [|exact Hs].
    unfold Spec.sound. cbn. now repeat split.
  - destruct (timeoutChannel s); [|exact Hs].
    unfold Spec.sound. cbn. now repeat split.
Qed.

(** Every schedule keeps it. *)
Lemma run_sound (schedule : list Turn) : Spec.sound db (run schedule (entered db)).
Proof.
  apply run_invariant; [|apply entered_sound].
  intros t s e. apply turn_sound.
Qed.

End HealthCheckInvariant.

(** X15.  What [OpenDBWithHealthCheck] returns, under every schedule.  It
    runs no statement.  It never returns nil and nil.  A connection comes
    with nil or with the error of [Diagnose] for the diagnostics that were
    read on it, right after the ping.  Without a connection the error is
    one of severity DownOrUnresponsive, or it is the error of the query for
    the diagnostics, after which the connection was closed. *)
Theorem OpenDBWithHealthCheck_results
    (hostname : string) (port : Z) (username password applicationName : string)
    (connectionTimeout : Z) (schedule : list Turn) (db : Instance) :
  let r := OpenDBWithHealthCheck hostname port username password applicationName
             connectionTimeout schedule db in
  statements (fst r) = statements db
  /\ server (fst r) = server db
  /\ match snd r with
     | None => True
     | Some (NilDB, None) => False
     | Some (NilDB, Some e) =>
         Spec.isDown e
         \/ exists asked,
              head (requests asked) = Some Ping
              /\ snd (snd (QueryDiagnostics asked)) = Some e
              /\ fst r = ask Close (fst (QueryDiagnostics asked))
     | Some (OpenedDB, e) =>
         exists asked,
           head (requests asked) = Some Ping
           /\ snd (snd (QueryDiagnostics asked)) = None
           /\ fst r = fst (QueryDiagnostics asked)
           /\ e = Diagnose (fst (snd (QueryDiagnostics asked)))
     end.
Proof.
  cbv zeta. unfold OpenDBWithHealthCheck. cbn [fst snd].
  pose proof (run_sound hostname port username password applicationName
                connectionTimeout db schedule)
    as (Hserver & Hstatements & _ & _ & _ & Hmain).
  split; [exact Hstatements|]. split; [exact Hserver|].
  destruct (mainFlow _) as [e|[|] e]; [exact I | |].
  - destruct e as [e|]; [|exact Hmain].
    destruct (connector _); try (left; exact Hmain). right. exact Hmain.
  - destruct Hmain as [_ Hmain]. exact Hmain.
Qed.

(** X16.  The connector and the main flow move in step: under every
    schedule, the number of connection attempts made is the number of errors
    that the main flow has received, or one more; each of these errors is
    one of severity DownOrUnresponsive. *)
Theorem connector_waits_for_main_flow
    (hostname : string) (port : Z) (username password applicationName : string)
    (connectionTimeout : Z) (schedule : list Turn) (db : Instance) :
  let s := run hostname port username password applicationName connectionTimeout
             schedule (entered db) in
  let made := (Spec.attempts (requests (instance s)) - Spec.attempts (requests db))%nat in
  (made = length (observed s) \/ made = S (length (observed s)))
  /\ Forall Spec.isDown (observed s).
Proof.
  cbv zeta.
  pose proof (run_sound hostname port username password applicationName
                connectionTimeout db schedule)
    as (_ & _ & Hobserved & _ & Hattempts & _).
  split; [|exact Hobserved].
  rewrite Hattempts. destruct (connector _); [left | right | right | left | right]; lia.
Qed.

(** ** An instance out of reach *)

Lemma OpenDB_outOfReach (db : Instance) (hostname : string) (port : Z)
    (username password applicationName : string) (connectionTimeout : Z) :
  Spec.outOfReach (server db) ->
  snd (OpenDB db hostname port username password applicationName connectionTimeout)
  <> None.
Proof.
  intros Hout. unfold OpenDB. cbv zeta.
  destruct (Hout (requests (ask (Open hostname port username password applicationName
                                   (Z.quot connectionTimeout 1000000000)) db)))
    as [Hopened|Hpinged].
  - destruct (opened _ _); [discriminate | contradiction].
  - destruct (opened _ _); [discriminate|].
    cbn [requests ask server] in *.
    destruct (pinged _ _); [discriminate | contradiction].
Qed.

Lemma run_outOfReach
    (hostname : string) (port : Z) (username password applicationName : string)
    (connectionTimeout : Z) (schedule : list Turn) (db : Instance) :
  Spec.outOfReach (server db) ->
  Spec.noAttemptSucceeded
    (run hostname port username password applicationName connectionTimeout
       schedule (entered db)).
Proof.
  intros Hout.
  pose (P := fun s : HealthCheck =>
               server (instance s) = server db /\ Spec.noAttemptSucceeded s).
  enough (P (run hostname port username password applicationName connectionTimeout
               schedule (entered db))) as [_ H] by exact H.
  apply run_invariant.
  - intros t s e Hflow [Hserver [Hsending Hfinished]].
    unfold P, Spec.noAttemptSucceeded, turn. rewrite Hflow.
    destruct t, (connector s) as [i| |i err|i|] eqn:Hconn;
      try contradiction;
      try (cbn; rewrite ?Hconn; repeat split; first [assumption | discriminate]).
    + destruct (OpenDB _ _ _ _ _ _ _) as [db1 failed] eqn:Hopen.
      pose proof (OpenDB_outOfReach (instance s) hostname port username password
                    applicationName connectionTimeout) as Hfails.
      rewrite Hserver, Hopen in Hfails. specialize (Hfails Hout). cbn [snd] in Hfails.
      apply OpenDB_spec in Hopen as (Hserver1 & _).
      destruct failed as [e0|]; [|contradiction].
      cbn. repeat split; [congruence | discriminate | discriminate].
    + destruct (timeoutChannel s); cbn; rewrite ?Hconn;
        repeat split; first [assumption | discriminate].
    + destruct (timeoutChannel s); cbn; rewrite ?Hconn;
        repeat split; first [assumption | discriminate].
    + destruct (timeoutChannel s); cbn; rewrite ?Hconn;
        repeat split; first [assumption | discriminate].
  - unfold P, Spec.noAttemptSucceeded, entered. cbn.
    repeat split; discriminate.
Qed.

(** Against such an instance the health check returns, if it does, no
    connection and an error of severity DownOrUnresponsive. *)
Lemma OpenDBWithHealthCheck_outOfReach
    (hostname : string) (port : Z) (username password applicationName : string)
    (connectionTimeout : Z) (schedule : list Turn) (db db' : Instance)
    (opened : option (Handle * option error)) :
  Spec.outOfReach (server db) ->
  OpenDBWithHealthCheck hostname port username password applicationName
    connectionTimeout schedule db = (db', opened) ->
  statements db' = statements db
  /\ (opened = None
      \/ exists inner,
           opened = Some (NilDB, Some (ServerUnhealthyError ServerDownOrUnresponsive
                                         inner))).
Proof.
  intros Hout. unfold OpenDBWithHealthCheck. intros H. injection H as <- <-.
  pose proof (run_sound hostname port username password applicationName
                connectionTimeout db schedule)
    as (_ & Hstatements & _ & _ & _ & Hmain).
  pose proof (run_outOfReach hostname port username password applicationName
                connectionTimeout schedule db Hout) as [Hsending Hfinished].
  split; [exact Hstatements|].
  destruct (mainFlow _) as [e|[|] e]; [now left | | now destruct Hmain].
  destruct e as [e|]; [|contradiction]. right.
  destruct (connector _); try contradiction; destruct Hmain as [inner ->]; eauto.
Qed.

Lemma flagsComplete_true (f : Flags) :
  Spec.flagsComplete f = true ->
  isEmpty (hostname f) = false
  /\ (sqlPort f =? 0) = false
  /\ isEmpty (agName f) = false
  /\ isEmpty (credentialsFile f) = false
  /\ isEmpty (applicationName f) = false
  /\ isEmpty (action f) = false
  /\ String.eqb (action f) "promote" && isEmpty (newMaster f) = false.
Proof.
  unfold Spec.flagsComplete. intros H.
  repeat (apply andb_true_iff in H as [H ?]).
  repeat match goal with
         | H : negb _ = true |- _ => apply negb_true_iff in H
         end.
  repeat split; assumption.
Qed.

(** X17.  When no attempt can connect to the instance, the helper, with
    complete flags, imported exit codes, a valid value of the flag and
    readable credentials, runs no statement, and when its wait ends it
    exits with OCF_ERR_GENERIC plus 10 for a health threshold of 1 or more;
    with a threshold of 0 it goes on without a connection and stops on the
    nil pointer. *)
Theorem main_instance_out_of_reach
    (f : Flags) (schedule : list Turn) (fuel : nat) (p : Process)
    (required : option Z) (credentials : string * string) :
  Spec.flagsComplete f = true ->
  action f <> "stop" ->
  snd (ImportOcfExitCodes (environ p) (codes p)) = None ->
  toRequiredSynchronizedSecondariesToCommit (requiredSynchronizedSecondariesToCommitArg f)
  = Some required ->
  ReadCredentialsFile (files p) (credentialsFile f) = inl credentials ->
  Spec.outOfReach (server (sqlServer p)) ->
  let final := main f schedule fuel p in
  statements (sqlServer (fst final)) = statements (sqlServer p)
  /\ codes (fst final) = fst (ImportOcfExitCodes (environ p) (codes p))
  /\ (snd final = Running
      \/ snd final
         = if 1 <=? rawHealthThreshold f
           then Exited (wrapInt (OCF_ERR_GENERIC (codes (fst final)) + 10))
           else Panicked).
Proof.
  intros Hflags Hstop Himport Hrequired Hcredentials Hout. cbv zeta.
  apply flagsComplete_true in Hflags as (Hhost & Hport & Hag & Hcred & Happ & Hact & Hnew).
  apply String.eqb_neq in Hstop.
  unfold main, doMain.
  rewrite Hhost, Hport, Hag, Hcred, Happ, Hact, Hnew.
  destruct (ImportOcfExitCodes (environ p) (codes p)) as [imported err].
  cbn [fst snd] in *. subst err. cbn [withCodes codes].
  rewrite Hstop, Hrequired. cbn [files withCodes]. rewrite Hcredentials.
  destruct credentials as [sqlUsername sqlPassword]. cbn [sqlServer withCodes].
  destruct (OpenDBWithHealthCheck _ _ _ _ _ _ _ _) as [db opened] eqn:Hopen.
  apply OpenDBWithHealthCheck_outOfReach in Hopen as [Hstatements Hopened];
    [|exact Hout].
  destruct Hopened as [->|[inner ->]].
  - cbn. repeat split; [exact Hstatements | now left].
  - change (ServerDownOrUnresponsive <=? rawHealthThreshold f)
      with (1 <=? rawHealthThreshold f).
    destruct (1 <=? rawHealthThreshold f); cbn;
      (repeat split; [exact Hstatements | now right]).
Qed.

Lemma main_instance_out_of_reach_witness :
  snd (main (Scenario.promoteFlags Scenario.level (-1)) Scenario.refused 0
         (Scenario.agent Scenario.unreachable))
  = Running
  \/ snd (main (Scenario.promoteFlags Scenario.level (-1)) Scenario.refused 0
            (Scenario.agent Scenario.unreachable))
     = Exited (wrapInt (OCF_ERR_GENERIC
                          (codes (fst (main (Scenario.promoteFlags Scenario.level (-1))
                                         Scenario.refused 0
                                         (Scenario.agent Scenario.unreachable))))
                        + 10)).
Proof.
  assert (Himport : snd (ImportOcfExitCodes
                           (environ (Scenario.agent Scenario.unreachable))
                           (codes (Scenario.agent Scenario.unreachable)))
                    = None) by (vm_compute; reflexivity).
  assert (Hcredentials :
            ReadCredentialsFile (files (Scenario.agent Scenario.unreachable))
              (credentialsFile (Scenario.promoteFlags Scenario.level (-1)))
            = inl ("sa", "secret")) by (vm_compute; reflexivity).
  assert (Hout : Spec.outOfReach (server (sqlServer (Scenario.agent Scenario.unreachable))))
    by (intros requested; right; discriminate).
  exact (proj2 (proj2 (main_instance_out_of_reach
                         (Scenario.promoteFlags Scenario.level (-1)) Scenario.refused 0
                         (Scenario.agent Scenario.unreachable) None ("sa", "secret")
                         eq_refl ltac:(discriminate) Himport eq_refl Hcredentials Hout))).
Defined.

(** ** The command line and the exit status *)

(** X18.  With a flag missing that every action needs (or [--new-master]
    for promote), the helper reads neither the environment nor the
    credentials and makes no request: [doMain] returns an error, and the
    process exits with status 1, its exit codes untouched, the error on
    stderr. *)
Theorem main_incomplete_flags
    (f : Flags) (schedule : list Turn) (fuel : nat) (p : Process) :
  Spec.flagsComplete f = false ->
  exists message,
    doMain f schedule fuel p = (p, inl (errorString message))
    /\ main f schedule fuel p
       = ({| environ := environ p; files := files p; codes := codes p;
             stderr := stderr p ++ Split ("Unexpected error: " +:+ message) linefeed;
             sequenceNumberOut := sequenceNumberOut p; sqlServer := sqlServer p |},
          Exited 1).
Proof.
  unfold Spec.flagsComplete, main, doMain. intros H.
  destruct (isEmpty (hostname f)); [eexists; split; reflexivity|].
  destruct (sqlPort f =? 0); [eexists; split; reflexivity|].
  destruct (isEmpty (agName f)); [eexists; split; reflexivity|].
  destruct (isEmpty (credentialsFile f)); [eexists; split; reflexivity|].
  destruct (isEmpty (applicationName f)); [eexists; split; reflexivity|].
  destruct (isEmpty (action f)); [eexists; split; reflexivity|].
  destruct (String.eqb (action f) "promote" && isEmpty (newMaster f));
    [eexists; split; reflexivity | discriminate].
Qed.

Lemma main_incomplete_flags_witness :
  exists message,
    doMain {| hostname := "localhost"; sqlPort := 0; agName := "ag1";
              credentialsFile := "passwd"; applicationName := "monitor";
              rawConnectionTimeout := 30; rawHealthThreshold := 3;
              action := "monitor"; numRetriesForOnlineDatabases := 60;
              skipPreCheck := false; sequenceNumbers := EmptyString;
              newMaster := EmptyString;
              requiredSynchronizedSecondariesToCommitArg := -1 |}
      [] 0 (Scenario.started ∅ Scenario.unreachable)
    = (Scenario.started ∅ Scenario.unreachable, inl (errorString message)).
Proof.
  destruct (main_incomplete_flags
              {| hostname := "localhost"; sqlPort := 0; agName := "ag1";
                 credentialsFile := "passwd"; applicationName := "monitor";
                 rawConnectionTimeout := 30; rawHealthThreshold := 3;
                 action := "monitor"; numRetriesForOnlineDatabases := 60;
                 skipPreCheck := false; sequenceNumbers := EmptyString;
                 newMaster := EmptyString;
                 requiredSynchronizedSecondariesToCommitArg := -1 |}
              [] 0 (Scenario.started ∅ Scenario.unreachable) eq_refl)
    as [message [H _]].
  exists message. exact H.
Defined.

(** The exit codes of the handlers are among seven of the nine imported
    ones. *)
Ltac handler_cases :=
  repeat match goal with
         | |- context [let '(_, _) := ?x in _] => destruct x as [? ?] eqn:?
         | |- context [match ?x with _ => _ end] => destruct x eqn:?
         end.

Ltac code_listed :=
  cbn [fst snd failure]; unfold Spec.returnedCodes; cbn [In]; tauto.

Lemma monitor_code (codes : OcfExitCodes) (db : Instance) (agName : string)
    (retries : Z) (required : option Z) :
  In (fst (snd (monitor codes db agName retries required))) (Spec.returnedCodes codes).
Proof. unfold monitor. handler_cases; code_listed. Qed.

Lemma start_code (codes : OcfExitCodes) (fuel : nat) (db : Instance) (agName : string)
    (retries : Z) (required : option Z) :
  match snd (start codes fuel db agName retries required) with
  | Some result => In (fst result) (Spec.returnedCodes codes)
  | None => True
  end.
Proof.
  unfold start.
  destruct (SetRoleToSecondary db agName) as [db1 ignored].
  destruct (waitUntilRoleSatisfies fuel db1 agName _) as [db2 [[err|]|]];
    [destruct (isErrNoRows err); code_listed | | exact I].
  pose proof (monitor_code codes db2 agName retries required) as H.
  destruct (monitor codes db2 agName retries required) as [db3 result]. exact H.
Qed.

Lemma preStart_code (codes : OcfExitCodes) (db : Instance) (agName : string)
    (required : option Z) :
  In (fst (snd (preStart codes db agName required))) (Spec.returnedCodes codes).
Proof. unfold preStart. handler_cases; code_listed. Qed.

Lemma prePromote_code (codes : OcfExitCodes) (db : Instance) (agName : string) :
  In (fst (snd (snd (prePromote codes db agName)))) (Spec.returnedCodes codes).
Proof. unfold prePromote. handler_cases; code_listed. Qed.

Lemma demote_code (codes : OcfExitCodes) (db : Instance) (agName : string) :
  In (fst (snd (demote codes db agName))) (Spec.returnedCodes codes).
Proof. unfold demote. handler_cases; code_listed. Qed.

Lemma promote_code (codes : OcfExitCodes) (fuel : nat) (db : Instance)
    (agName sequenceNumbers newMaster : string) (skipPreCheck : bool)
    (required : option Z) :
  match snd (promote codes fuel db agName sequenceNumbers newMaster skipPreCheck
               required) with
  | Some result => In (fst result) (Spec.returnedCodes codes)
  | None => True
  end.
Proof.
  unfold promote.
  destruct (isPrimary db agName) as [db1 [err|[|]]]; [code_listed | code_listed |].
  destruct (if skipPreCheck then _ else _) as [db2 [message|]]; [code_listed|].
  destruct (scanSequenceNumbers _ _ _) as [err|seen]; [code_listed|].
  destruct (_ <? _); [code_listed|].
  destruct (_ =? 0); [code_listed|].
  destruct (GetNumSyncCommitReplicas db2 agName) as [db3 [err|numSync]]; [code_listed|].
  destruct (_ <? _); [code_listed|].
  destruct (Failover db3 agName) as [db4 [e|]]; [code_listed|].
  destruct (waitUntilRoleSatisfies fuel db4 agName _) as [db5 [[e|]|]];
    [code_listed | | exact I].
  destruct (setRequiredSynchronizedSecondariesToCommit db5 agName _) as [db6 [e|]];
    code_listed.
Qed.

Lemma dispatch_exit (f : Flags) (fuel : nat) (required : option Z) (p : Process) :
  codes (fst (dispatch f fuel required p)) = codes p
  /\ match snd (dispatch f fuel required p) with
     | inr (Exited status) =>
         exists code,
           In code (Spec.returnedCodes (codes p)) /\ status = wrapInt (code + 10)
     | inr Panicked => False
     | _ => True
     end.
Proof.
  unfold dispatch.
  destruct (exec sessionContext [] (sqlServer p)) as [db [e|]].
  { cbn. split; [reflexivity|]. eexists. split; [|reflexivity].
    unfold Spec.returnedCodes. cbn [In]. tauto. }
  assert (Hfinish : forall (q : Process) (db' : Instance) (result : option Result),
             codes q = codes p ->
             match result with
             | Some r => In (fst r) (Spec.returnedCodes (codes p))
             | None => True
             end ->
             let r := match result with
                      | Some (ocfExitCode, err) => ocfExit (withServer db' q) ocfExitCode err
                      | None => (withServer db' q, inr Running)
                      end in
             codes (fst r) = codes p
             /\ match snd r with
                | inr (Exited status) =>
                    exists code,
                      In code (Spec.returnedCodes (codes p))
                      /\ status = wrapInt (code + 10)
                | inr Panicked => False
                | _ => True
                end).
  { intros q db' [[code err]|] Hcodes Hin; cbn in *; split; try assumption; eauto. }
  cbv zeta in Hfinish.
  destruct (String.eqb (action f) "start").
  { pose proof (start_code (codes p) fuel db (agName f) (numRetriesForOnlineDatabases f)
                  required) as H.
    destruct (start _ _ _ _ _ _) as [db1 result]. now apply Hfinish. }
  destruct (String.eqb (action f) "monitor").
  { pose proof (monitor_code (codes p) db (agName f) (numRetriesForOnlineDatabases f)
                  required) as H.
    destruct (monitor _ _ _ _ _) as [db1 result].
    now apply (Hfinish _ _ (Some result)). }
  destruct (String.eqb (action f) "pre-start").
  { pose proof (preStart_code (codes p) db (agName f) required) as H.
    destruct (preStart _ _ _ _) as [db1 result].
    now apply (Hfinish _ _ (Some result)). }
  destruct (String.eqb (action f) "post-stop").
  { pose proof (preStart_code (codes p) db (agName f) required) as H.
    change (preStart (codes p) db (agName f) required)
      with (postStop (codes p) db (agName f) required) in H.
    destruct (postStop _ _ _ _) as [db1 result].
    now apply (Hfinish _ _ (Some result)). }
  destruct (String.eqb (action f) "pre-promote").
  { pose proof (prePromote_code (codes p) db (agName f)) as H.
    destruct (prePromote _ _ _) as [db1 [printed result]].
    now apply (Hfinish _ _ (Some result)). }
  destruct (String.eqb (action f) "promote").
  { pose proof (promote_code (codes p) fuel db (agName f) (sequenceNumbers f)
                  (newMaster f) (skipPreCheck f) required) as H.
    destruct (promote _ _ _ _ _ _ _ _) as [db1 result]. now apply Hfinish. }
  destruct (String.eqb (action f) "demote").
  { pose proof (demote_code (codes p) db (agName f)) as H.
    destruct (demote _ _ _) as [db1 result].
    now apply (Hfinish _ _ (Some result)). }
  cbn. now split.
Qed.

Lemma OpenDBWithHealthCheck_not_nil_nil
    (hostname : string) (port : Z) (username password applicationName : string)
    (connectionTimeout : Z) (schedule : list Turn) (db db' : Instance) :
  OpenDBWithHealthCheck hostname port username password applicationName
    connectionTimeout schedule db <> (db', Some (NilDB, None)).
Proof.
  unfold OpenDBWithHealthCheck. intros H. injection H as _ H.
  pose proof (run_sound hostname port username password applicationName
                connectionTimeout db schedule) as (_ & _ & _ & _ & _ & Hmain).
  destruct (mainFlow _) as [e|[|] [e|]]; try discriminate. exact Hmain.
Qed.

(** What [doMain] calls the health check with, and gets from it. *)
Definition healthChecked (f : Flags) (schedule : list Turn) (p : Process)
    (db : Instance) (opened : option (Handle * option error)) : Prop :=
  exists credentials,
    ReadCredentialsFile (files p) (credentialsFile f) = inl credentials
    /\ OpenDBWithHealthCheck (hostname f) (sqlPort f) (fst credentials)
         (snd credentials) (applicationName f) (seconds (rawConnectionTimeout f))
         schedule (sqlServer p)
       = (db, opened).

Lemma doMain_exit (f : Flags) (schedule : list Turn) (fuel : nat) (p : Process) :
  match snd (doMain f schedule fuel p) with
  | inr (Exited status) =>
      exists code,
        In code (Spec.returnedCodes (codes (fst (doMain f schedule fuel p))))
        /\ status = wrapInt (code + 10)
  | inr Panicked =>
      exists RawValue Inner,
        healthChecked f schedule p (sqlServer (fst (doMain f schedule fuel p)))
          (Some (NilDB, Some (ServerUnhealthyError RawValue Inner)))
        /\ rawHealthThreshold f < RawValue
  | _ => True
  end.
Proof.
  assert (Hexit : forall (q : Process) (code : Z) (err : option error),
             In code (Spec.returnedCodes (codes q)) ->
             match snd (ocfExit q code err) with
             | inr (Exited status) =>
                 exists code',
                   In code' (Spec.returnedCodes (codes (fst (ocfExit q code err))))
                   /\ status = wrapInt (code' + 10)
             | inr Panicked =>
                 exists RawValue Inner,
                   healthChecked f schedule p (sqlServer (fst (ocfExit q code err)))
                     (Some (NilDB, Some (ServerUnhealthyError RawValue Inner)))
                   /\ rawHealthThreshold f < RawValue
             | _ => True
             end).
  { intros q code err Hin. unfold ocfExit, OcfExit, Exit. cbn [fst snd codes].
    exists code. split; [exact Hin | reflexivity]. }
  assert (Hdispatch : forall (required : option Z) (q : Process),
             match snd (dispatch f fuel required q) with
             | inr (Exited status) =>
                 exists code,
                   In code (Spec.returnedCodes (codes (fst (dispatch f fuel required q))))
                   /\ status = wrapInt (code + 10)
             | inr Panicked =>
                 exists RawValue Inner,
                   healthChecked f schedule p
                     (sqlServer (fst (dispatch f fuel required q)))
                     (Some (NilDB, Some (ServerUnhealthyError RawValue Inner)))
                   /\ rawHealthThreshold f < RawValue
             | _ => True
             end).
  { intros required q. destruct (dispatch_exit f fuel required q) as [-> H].
    destruct (snd (dispatch f fuel required q)) as [e|[status| |]]; tauto. }
  unfold doMain.
  destruct (isEmpty (hostname f)); [exact I|].
  destruct (sqlPort f =? 0); [exact I|].
  destruct (isEmpty (agName f)); [exact I|].
  destruct (isEmpty (credentialsFile f)); [exact I|].
  destruct (isEmpty (applicationName f)); [exact I|].
  destruct (isEmpty (action f)); [exact I|].
  destruct (String.eqb (action f) "promote" && isEmpty (newMaster f)); [exact I|].
  destruct (ImportOcfExitCodes (environ p) (codes p)) as [imported [e|]]; [exact I|].
  destruct (String.eqb (action f) "stop").
  { apply Hexit. unfold Spec.returnedCodes. cbn [In]. tauto. }
  destruct (toRequiredSynchronizedSecondariesToCommit _) as [required|];
    [|apply Hexit; unfold Spec.returnedCodes; cbn [In]; tauto].
  cbn [files sqlServer withCodes].
  destruct (ReadCredentialsFile (files p) (credentialsFile f))
    as [[sqlUsername sqlPassword]|e] eqn:Hcredentials;
    [|apply Hexit; unfold Spec.returnedCodes; cbn [In]; tauto].
  destruct (OpenDBWithHealthCheck _ _ _ _ _ _ _ _) as [db [[handle err]|]] eqn:Hopen;
    [|exact I].
  assert (Hchecked : forall opened,
             OpenDBWithHealthCheck (hostname f) (sqlPort f) sqlUsername sqlPassword
               (applicationName f) (seconds (rawConnectionTimeout f)) schedule
               (sqlServer p) = (db, opened) ->
             healthChecked f schedule p db opened).
  { intros opened H. exists (sqlUsername, sqlPassword). split; [exact Hcredentials|].
    exact H. }
  destruct err as [[|text|RawValue Inner]|].
  - destruct handle; exact I.
  - destruct handle; exact I.
  - destruct handle.
    + destruct (Z.leb_spec RawValue (rawHealthThreshold f)) as [|Hlt].
      * apply Hexit. unfold Spec.returnedCodes. cbn [In]. tauto.
      * cbn [fst snd sqlServer withServer]. exists RawValue, Inner.
        split; [apply Hchecked, Hopen | exact Hlt].
    + destruct (RawValue <=? rawHealthThreshold f); [|apply Hdispatch].
      apply Hexit. unfold Spec.returnedCodes. cbn [In]. tauto.
  - destruct handle; [|apply Hdispatch].
    exfalso. exact (OpenDBWithHealthCheck_not_nil_nil _ _ _ _ _ _ _ _ _ Hopen).
Qed.

(** X19.  How the helper ends.  When the process exits, its status is 1,
    for an error that [doMain] returns, or 10 more than one of seven exit
    codes as the process holds them then: OCF_ERR_CONFIGURED,
    OCF_ERR_GENERIC, OCF_ERR_ARGS, OCF_FAILED_MASTER, OCF_NOT_RUNNING,
    OCF_RUNNING_MASTER and OCF_SUCCESS; OCF_ERR_PERM and
    OCF_ERR_UNIMPLEMENTED are imported and never returned.  The one other
    end is the nil pointer (the runtime of Go then ends the process with
    status 2, which is neither): it is reached only through a health
    check, on readable credentials, that returned no connection and a
    ServerUnhealthyError of a severity above the health threshold, the
    instance being left as the health check left it.  No connection
    without an error never comes out of the health check. *)
Theorem main_exit_status
    (f : Flags) (schedule : list Turn) (fuel : nat) (p : Process) :
  let final := main f schedule fuel p in
  match snd final with
  | Exited status =>
      status = 1
      \/ exists code,
           In code (Spec.returnedCodes (codes (fst final)))
           /\ status = wrapInt (code + 10)
  | Panicked =>
      exists credentials RawValue Inner,
        ReadCredentialsFile (files p) (credentialsFile f) = inl credentials
        /\ OpenDBWithHealthCheck (hostname f) (sqlPort f) (fst credentials)
             (snd credentials) (applicationName f) (seconds (rawConnectionTimeout f))
             schedule (sqlServer p)
           = (sqlServer (fst final),
              Some (NilDB, Some (ServerUnhealthyError RawValue Inner)))
        /\ rawHealthThreshold f < RawValue
  | Running => True
  end.
Proof.
  cbv zeta. unfold main.
  pose proof (doMain_exit f schedule fuel p) as H.
  destruct (doMain f schedule fuel p) as [q [e|outcome]]; cbn [fst snd] in *.
  - cbn. now left.
  - destruct outcome as [status| |]; [right; exact H | | exact I].
    destruct H as (RawValue & Inner & (credentials & Hcredentials & Hopen) & Hlt).
    now exists credentials, RawValue, Inner.
Qed.

(** ** The rows of sp_server_diagnostics *)

Lemma scanDiagnostics_scanned (rows : list (error + DiagnosticsRow)) (d : Diagnostics) :
  scanDiagnostics rows d = scanDiagnostics (map inr (Spec.scanned rows)) d.
Proof.
  revert d. induction rows as [|[err|row] rows IH]; intros d; cbn; [reflexivity..|].
  apply IH.
Qed.

(** X20.  A row of [sp_server_diagnostics] that does not scan ends the
    reading, and its error is not returned: when the rows before it scan,
    the result of [QueryDiagnostics] is made of these rows alone, whatever
    the rows after it say, and the error is the one of the result set. *)
Theorem QueryDiagnostics_drops_scan_error
    (db : Instance) (good : list DiagnosticsRow) (err : error)
    (rest : list (error + DiagnosticsRow)) (rowsErr : option error) :
  diagnosticsRows (server db) (QueryServerDiagnostics :: requests db)
  = inr (map inr good ++ inl err :: rest, rowsErr) ->
  QueryDiagnostics db
  = (ask QueryServerDiagnostics db,
     (scanDiagnostics (map inr good)
        {| System := false; Resource := false; QueryProcessing := false |},
      rowsErr)).
Proof.
  intros Hrows. unfold QueryDiagnostics. cbv zeta. cbn [server requests ask].
  rewrite Hrows. rewrite scanDiagnostics_scanned. do 3 f_equal.
  clear Hrows. induction good as [|row good IH]; [reflexivity|].
  cbn [map app Spec.scanned]. now rewrite IH.
Qed.

Lemma QueryDiagnostics_drops_scan_error_witness :
  QueryDiagnostics (Scenario.fresh Scenario.garbled)
  = (ask QueryServerDiagnostics (Scenario.fresh Scenario.garbled),
     (scanDiagnostics (map inr [{| componentName := "system"; state := 1 |}])
        {| System := false; Resource := false; QueryProcessing := false |},
      None))
  /\ Diagnose (fst (snd (QueryDiagnostics (Scenario.fresh Scenario.garbled))))
     = Some (Spec.unhealthy Spec.resource).
Proof.
  split; [|reflexivity].
  exact (QueryDiagnostics_drops_scan_error (Scenario.fresh Scenario.garbled)
           [{| componentName := "system"; state := 1 |}]
           (errorString "sql: Scan error on column index 3: converting driver.Value type string to a int: invalid syntax")
           [ inr {| componentName := "resource"; state := 1 |};
             inr {| componentName := "query_processing"; state := 1 |} ]
           None eq_refl).
Defined.

(** ** The credentials file *)

Lemma Split_line (line rest : string) :
  allBytes (fun c => negb (Ascii.eqb c linefeed)) line = true ->
  Split (line +:+ String linefeed rest) linefeed = line :: Split rest linefeed.
Proof.
  intros Hline. induction line as [|c line IH].
  - rewrite append_nil. cbn [Split]. now rewrite Ascii.eqb_refl.
  - rewrite append_cons. cbn [allBytes] in Hline.
    apply andb_true_iff in Hline as [Hc Hline]. apply negb_true_iff in Hc.
    cbn [Split]. rewrite Hc, (IH Hline). reflexivity.
Qed.

Lemma Split_last_line (line : string) :
  allBytes (fun c => negb (Ascii.eqb c linefeed)) line = true ->
  Split line linefeed = [line].
Proof.
  intros Hline. induction line as [|c line IH]; [reflexivity|].
  cbn [allBytes] in Hline.
  apply andb_true_iff in Hline as [Hc Hline]. apply negb_true_iff in Hc.
  cbn [Split]. rewrite Hc, (IH Hline). reflexivity.
Qed.

Lemma Split_nonempty (s : string) (sep : ascii) : Split s sep <> [].
Proof.
  destruct s as [|c s]; cbn [Split]; [discriminate|].
  destruct (Ascii.eqb c sep); [discriminate|].
  destruct (Split s sep); discriminate.
Qed.

(** X21.  The credentials are the first two lines of the file, without
    their carriage returns, as far as the scanner can hold them.  For a
    username and a password without a line feed, and a file that holds the
    username, a line feed, the password and then a line feed and anything,
    or nothing at all when the password is not empty: a username of
    [MaxScanTokenSize] bytes or more gives the error of the first line, a
    password of that many bytes or more the error of the second line, and
    otherwise the file gives the two back. *)
Theorem ReadCredentialsFile_reads_two_lines
    (files : gmap string string) (filename username password tail : string) :
  allBytes (fun c => negb (Ascii.eqb c linefeed)) username = true ->
  allBytes (fun c => negb (Ascii.eqb c linefeed)) password = true ->
  match tail with
  | EmptyString => isEmpty password = false
  | String c _ => c = linefeed
  end ->
  files !! filename = Some (username +:+ LF +:+ password +:+ tail) ->
  ReadCredentialsFile files filename
  = if Z.of_nat (String.length username) <? 65536 then
      if Z.of_nat (String.length password) <? 65536
      then inl (dropCR username, dropCR password)
      else inr (errorString "Could not read second line to extract password.")
    else inr (errorString "Could not read first line to extract username.").
Proof.
  intros Husername Hpassword Htail Hfile.
  unfold ReadCredentialsFile, ScanLines. rewrite Hfile. unfold LF.
  rewrite !append_cons, !append_nil.
  rewrite (Split_line username) by assumption.
  change (Z.of_nat (String.length username) <? 65536) with (fitsScanner username).
  change (Z.of_nat (String.length password) <? 65536) with (fitsScanner password).
  destruct tail as [|c rest].
  - rewrite append_empty_r. rewrite (Split_last_line password) by assumption.
    destruct password as [|c password]; [discriminate Htail|].
    cbn [removelast last default from_option id isEmpty app scanWhileFits].
    destruct (fitsScanner username); [|reflexivity].
    destruct (fitsScanner (String c password)); reflexivity.
  - subst c. rewrite (Split_line password) by assumption.
    pose proof (Split_nonempty rest linefeed) as Hrest.
    destruct (Split rest linefeed) as [|piece pieces] eqn:Hsplit; [contradiction|].
    cbn [removelast].
    destruct (isEmpty _); cbn [app scanWhileFits];
      (destruct (fitsScanner username); [|reflexivity]);
      (destruct (fitsScanner password); reflexivity).
Qed.

Lemma ReadCredentialsFile_reads_two_lines_witness :
  ReadCredentialsFile {[ "passwd" := "sa" +:+ LF +:+ "secret" +:+ LF ]} "passwd"
  = inl (dropCR "sa", dropCR "secret").
Proof.
  assert (Hfile : ({[ "passwd" := "sa" +:+ LF +:+ "secret" +:+ LF ]}
                   : gmap string string) !! "passwd"
                  = Some ("sa" +:+ LF +:+ "secret" +:+ LF))
    by (vm_compute; reflexivity).
  exact (ReadCredentialsFile_reads_two_lines _ "passwd" "sa" "secret" LF
           eq_refl eq_refl eq_refl Hfile).
Defined.

(** The limit of the scanner, on both lines and just below it. *)
Example ReadCredentialsFile_line_too_long :
  ReadCredentialsFile
    {[ "passwd" := String.string_of_list_ascii
                     (repeat "a"%char (Z.to_nat MaxScanTokenSize))
                   +:+ LF +:+ "secret" +:+ LF ]}
    "passwd"
  = inr (errorString "Could not read first line to extract username.")
  /\ ReadCredentialsFile
       {[ "passwd" := "sa" +:+ LF
                      +:+ String.string_of_list_ascii
                            (repeat "a"%char (Z.to_nat MaxScanTokenSize)) ]}
       "passwd"
     = inr (errorString "Could not read second line to extract password.")
  /\ ReadCredentialsFile
       {[ "passwd" := String.string_of_list_ascii
                        (repeat "a"%char (Z.to_nat (MaxScanTokenSize - 1)))
                      +:+ LF +:+ "secret" ]}
       "passwd"
     = inl (String.string_of_list_ascii
              (repeat "a"%char (Z.to_nat (MaxScanTokenSize - 1))),
            "secret").
Proof. repeat split; vm_compute; reflexivity. Qed.

(** ** The states of the databases *)

Lemma rev_app_append (a b : string) : String.rev_app a b = String.rev a +:+ b.
Proof.
  revert b. induction a as [|c a IH]; intros b; [reflexivity|].
  unfold String.rev. cbn [String.rev_app].
  rewrite (IH (String c b)), (IH (String c EmptyString)), append_assoc.
  now rewrite append_cons, append_nil.
Qed.

Lemma rev_append (a b : string) : String.rev (a +:+ b) = String.rev b +:+ String.rev a.
Proof.
  induction a as [|c a IH].
  - now rewrite append_nil, append_empty_r.
  - rewrite append_cons. unfold String.rev at 1 3. cbn [String.rev_app].
    rewrite !rev_app_append, IH, append_assoc. reflexivity.
Qed.

Lemma rev_involutive (a : string) : String.rev (String.rev a) = a.
Proof.
  induction a as [|c a IH]; [reflexivity|].
  unfold String.rev at 2. cbn [String.rev_app].
  rewrite rev_app_append, rev_append, IH. reflexivity.
Qed.

Lemma TrimSuffix_append (s suffix : string) : TrimSuffix (s +:+ suffix) suffix = s.
Proof.
  unfold TrimSuffix. rewrite rev_append.
  assert (stripPrefix (String.rev suffix) (String.rev suffix +:+ String.rev s)
          = Some (String.rev s)) as -> by (now apply stripPrefix_spec).
  apply rev_involutive.
Qed.

Lemma describeDatabaseStates_rows (rows : list DatabaseStateRow) (result : string) :
  describeDatabaseStates (map inr rows) result
  = (result +:+ match rows with
                | [] => EmptyString
                | _ => Join (map Spec.describeRow rows) ", " +:+ ", "
                end,
     None).
Proof.
  revert result. induction rows as [|row rows IH]; intros result.
  - cbn. now rewrite append_empty_r.
  - cbn [map describeDatabaseStates]. rewrite IH. f_equal.
    unfold Spec.describeRow. destruct rows as [|row' rows].
    + cbn [map Join]. rewrite append_empty_r, !append_assoc. reflexivity.
    + cbn [map Join]. rewrite !append_assoc. reflexivity.
Qed.

(** X22.  When every row scans, the text of [GetDatabaseStates] is the
    descriptions of the rows joined by a comma and a space, with the error
    of the result set; it is empty exactly when there is no row, which is
    what [waitForDatabasesToBeOnline] takes for all databases online. *)
Theorem GetDatabaseStates_describes_rows
    (db : Instance) (agName : string) (rows : list DatabaseStateRow)
    (rowsErr : option error) :
  databaseStateRows (server db) (QueryRow SelectDatabaseStates agName :: requests db)
  = inr (map inr rows, rowsErr) ->
  snd (GetDatabaseStates db agName)
  = (Join (map Spec.describeRow rows) ", ", rowsErr)
  /\ (isEmpty (Join (map Spec.describeRow rows) ", ") = true <-> rows = []).
Proof.
  intros Hrows. split.
  - unfold GetDatabaseStates. cbn. rewrite Hrows.
    rewrite describeDatabaseStates_rows, append_nil.
    destruct rows as [|row rows]; [reflexivity|].
    now rewrite TrimSuffix_append.
  - split; [|intros ->; reflexivity].
    destruct rows as [|row rows]; [reflexivity|]. intros Hempty. exfalso.
    assert (Hlength : (0 < String.length (Join (map Spec.describeRow (row :: rows)) ", "))%nat).
    { assert (Hrow : (0 < String.length (Spec.describeRow row))%nat).
      { unfold Spec.describeRow. rewrite !append_length. cbn. lia. }
      destruct rows as [|row' rows]; cbn [map Join]; [exact Hrow|].
      rewrite append_length. lia. }
    destruct (Join _ _); [cbn in Hlength; lia | discriminate].
Qed.

Lemma GetDatabaseStates_describes_rows_witness :
  snd (GetDatabaseStates (Scenario.fresh (Scenario.recovering 2)) "ag1")
  = ("2 databases are RECOVERING", None).
Proof.
  exact (proj1 (GetDatabaseStates_describes_rows (Scenario.fresh (Scenario.recovering 2))
                  "ag1" [{| stateDesc := "RECOVERING"; numDatabases := 2 |}] None
                  eq_refl)).
Defined.

(** ** The server name of a failover cluster instance *)

Section ServerName.

Import fcihelper.

Variable EqualFold : string -> string -> bool.
Variable codes : OcfExitCodes.

(** X23.  [SetLocalServerName] never changes a name that already matches,
    whatever its case, and never adds a name over one that it could not
    drop.  What it asks of the instance is told by the row of the local
    server.  For a matching name, and for an error other than no row:
    nothing more, and the result is nil or that error.  For no row:
    sp_addserver of the new name, whose answer is the result.  For another
    name: sp_dropserver of the current name; when the instance answers that
    with an error, nothing more, and the result is that error; when it
    answers without one, sp_addserver of the new name, whose answer is the
    result.  The names travel as parameters, never inside the text of a
    statement. *)
Theorem SetLocalServerName_procedures (db : FciInstance) (serverName : string) :
  let r := SetLocalServerName EqualFold db serverName in
  let asked := SelectLocalServer :: fciRequests db in
  let add := ExecProcedure "EXEC sp_addserver ?, local" [ArgString serverName] in
  match localServerRow (fciServer db) asked with
  | inr current =>
      let drop := ExecProcedure "EXEC sp_dropserver ?" [ArgString current] in
      if EqualFold current serverName
      then fciRequests (fst r) = asked /\ snd r = None
      else
        match procedureRun (fciServer db) (drop :: asked) with
        | Some e => fciRequests (fst r) = drop :: asked /\ snd r = Some e
        | None =>
            fciRequests (fst r) = add :: drop :: asked
            /\ snd r = procedureRun (fciServer db) (add :: drop :: asked)
        end
  | inl err =>
      if isErrNoRows err
      then fciRequests (fst r) = add :: asked
           /\ snd r = procedureRun (fciServer db) (add :: asked)
      else fciRequests (fst r) = asked /\ snd r = Some err
  end
  /\ fciServer (fst r) = fciServer db.
Proof.
  cbv zeta. unfold SetLocalServerName. cbn [fciRequests fciServer fciAsk].
  destruct (localServerRow _ _) as [err|current].
  - destruct (isErrNoRows err); repeat split.
  - destruct (EqualFold current serverName); [repeat split|].
    unfold fciExec. cbn [fciRequests fciServer fciAsk].
    destruct (procedureRun (fciServer db)
                (ExecProcedure "EXEC sp_dropserver ?" [ArgString current]
                 :: SelectLocalServer :: fciRequests db)) as [e|];
      cbn [fst snd fciRequests fciServer fciAsk]; repeat split.
Qed.

(** X24.  The two actions of the FCI helper succeed only on a name that
    matches: when [monitor] or [start] returns without an error, the code
    is OCF_SUCCESS and the name that the instance answered last is the
    virtual server name up to case; with an error the code is
    OCF_ERR_GENERIC or OCF_ERR_ARGS.  [monitor] runs no procedure. *)
Theorem fci_success_means_matching_name (db : FciInstance) (virtualServerName : string) :
  let outcome (r : FciInstance * (Z * option error)) :=
    match snd (snd r) with
    | None =>
        fst (snd r) = OCF_SUCCESS codes
        /\ exists asked current,
             GetLocalServerName asked = (fst r, inr current)
             /\ EqualFold current virtualServerName = true
    | Some _ =>
        fst (snd r) = OCF_ERR_GENERIC codes \/ fst (snd r) = OCF_ERR_ARGS codes
    end in
  outcome (monitor EqualFold codes db virtualServerName)
  /\ outcome (start EqualFold codes db virtualServerName)
  /\ procedures (fst (monitor EqualFold codes db virtualServerName)) = procedures db.
Proof.
  cbv zeta.
  assert (Hmonitor : forall db0,
             match snd (snd (monitor EqualFold codes db0 virtualServerName)) with
             | None =>
                 fst (snd (monitor EqualFold codes db0 virtualServerName))
                 = OCF_SUCCESS codes
                 /\ exists asked current,
                      GetLocalServerName asked
                      = (fst (monitor EqualFold codes db0 virtualServerName), inr current)
                      /\ EqualFold current virtualServerName = true
             | Some _ =>
                 fst (snd (monitor EqualFold codes db0 virtualServerName))
                 = OCF_ERR_GENERIC codes
                 \/ fst (snd (monitor EqualFold codes db0 virtualServerName))
                    = OCF_ERR_ARGS codes
             end).
  { intros db0. unfold monitor.
    destruct (GetLocalServerName db0) as [db1 [err|current]] eqn:Hname;
      cbn [fst snd]; [now left|].
    destruct (EqualFold current virtualServerName) eqn:Hfold; cbn [negb fst snd];
      [|now right].
    split; [reflexivity|]. now exists db0, current. }
  split; [apply Hmonitor|]. split.
  - unfold start.
    destruct (SetLocalServerName EqualFold db virtualServerName) as [db1 [e|]];
      cbn [fst snd]; [now left | apply Hmonitor].
  - unfold monitor, GetLocalServerName.
    destruct (serverNameRow _ _) as [err|current]; [reflexivity|].
    destruct (negb _); reflexivity.
Qed.

End ServerName.

(** ** A failed import of the exit codes *)

Lemma importInto_invalid_slots set name environ next c :
  Spec.parses (Getenv environ name) = false ->
  fst (importInto set name environ next c) = set 0 c.
Proof.
  intros H. apply parses_inl in H as [message H].
  unfold importInto, importOcfExitCode. now rewrite H.
Qed.

(** X25.  A failed import stops at the variable it names: the slots of the
    variables before it hold their values, its own slot holds 0, and the
    slots of the variables after it are as they were. *)
Theorem ImportOcfExitCodes_stops_at_first_invalid
    (environ : gmap string string) (c : OcfExitCodes)
    (before after : list (string * (OcfExitCodes -> Z)))
    (name : string) (slot : OcfExitCodes -> Z) :
  Spec.slots = before ++ (name, slot) :: after ->
  Forall (fun entry => Spec.parses (Getenv environ (fst entry)) = true) before ->
  Spec.parses (Getenv environ name) = false ->
  let imported := fst (ImportOcfExitCodes environ c) in
  Forall (fun entry => Atoi (Getenv environ (fst entry)) = inr (snd entry imported)) before
  /\ slot imported = 0
  /\ Forall (fun entry => snd entry imported = snd entry c) after.
Proof.
  intros Hsplit Hbefore Hname. cbv zeta. unfold ImportOcfExitCodes.
  unfold Spec.slots in Hsplit.
  do 9 (destruct before as [|[? ?] before];
        [ injection Hsplit as <- <- <-;
          repeat match goal with
                 | H : Forall _ (_ :: _) |- _ =>
                     let Hhd := fresh "Hhd" in
                     let Htl := fresh "Htl" in
                     apply Forall_cons in H as [Hhd Htl];
                     apply parses_inr in Hhd as [? Hhd];
                     cbn [fst] in Hhd;
                     rewrite (importInto_valid _ _ _ _ _ _ Hhd)
                 end;
          rewrite (importInto_invalid_slots _ _ _ _ _ Hname);
          repeat split; repeat constructor; assumption
        | injection Hsplit as <- <- Hsplit ]).
  destruct before; discriminate.
Qed.

Lemma ImportOcfExitCodes_stops_at_first_invalid_witness :
  OCF_ERR_CONFIGURED (fst (ImportOcfExitCodes ∅ Scenario.ocfCodes)) = 0.
Proof.
  exact (proj1 (proj2 (ImportOcfExitCodes_stops_at_first_invalid ∅ Scenario.ocfCodes
                         [] (tl Spec.slots) "OCF_ERR_CONFIGURED" OCF_ERR_CONFIGURED
                         eq_refl (Forall_nil_2 _) eq_refl))).
Defined.

(** ** The lines of sequence numbers, again *)

Lemma scanSequenceNumbers_unmatched (newMaster : string) (lines : list string)
    (seen : SequenceNumbers) :
  omap lineRegex lines = [] -> scanSequenceNumbers newMaster lines seen = inr seen.
Proof.
  induction lines as [|line lines IH]; [reflexivity|].
  cbn [omap list_omap scanSequenceNumbers].
  destruct (lineRegex line) as [[host digits]|]; [discriminate | exact IH].
Qed.

(** X26.  The loop of [promote] looks at nothing but the host and the value
    of the lines that the expression matches, in their order: lines that do
    not match, and the name of the attribute in those that do, change
    nothing. *)
Theorem scanSequenceNumbers_reads_host_and_value
    (newMaster : string) (lines lines' : list string) (seen : SequenceNumbers) :
  omap lineRegex lines = omap lineRegex lines' ->
  scanSequenceNumbers newMaster lines seen = scanSequenceNumbers newMaster lines' seen.
Proof.
  revert lines' seen. induction lines as [|line lines IH]; intros lines' seen H.
  - symmetry. apply scanSequenceNumbers_unmatched. now rewrite <- H.
  - cbn [omap list_omap scanSequenceNumbers] in *.
    destruct (lineRegex line) as [[host digits]|] eqn:Hline; [|now apply IH].
    induction lines' as [|line' lines' IH']; [discriminate|].
    cbn [omap list_omap scanSequenceNumbers] in *.
    destruct (lineRegex line') as [[host' digits']|] eqn:Hline'; [|now apply IH'].
    injection H as -> -> H.
    destruct (ParseInt digits') as [err|value]; [reflexivity | now apply IH].
Qed.

Lemma scanSequenceNumbers_reads_host_and_value_witness :
  scanSequenceNumbers "B" ["junk"; Scenario.line "B" "7"] initialSequenceNumbers
  = scanSequenceNumbers "B"
      ["name=" +:+ DQ +:+ "other" +:+ DQ +:+ " host=" +:+ DQ +:+ "B" +:+ DQ
       +:+ " value=" +:+ DQ +:+ "7" +:+ DQ]
      initialSequenceNumbers.
Proof.
  exact (scanSequenceNumbers_reads_host_and_value "B" ["junk"; Scenario.line "B" "7"]
           ["name=" +:+ DQ +:+ "other" +:+ DQ +:+ " host=" +:+ DQ +:+ "B" +:+ DQ
            +:+ " value=" +:+ DQ +:+ "7" +:+ DQ]
           initialSequenceNumbers eq_refl).
Defined.

(** ** From pre-promote to promote *)

Lemma pretty_N_char_digit (d : N) :
  isDigit (pretty_N_char d) = true
  /\ ((d < 10)%N -> digitValue (pretty_N_char d) = Z.of_N d).
Proof.
  destruct d as [|p]; [split; reflexivity|].
  do 4 (destruct p as [p|p|]; try (split; [reflexivity | intros; first [reflexivity | lia]])).
Qed.

Lemma pretty_N_go_decimal (x : N) (s : string) :
  (allDigits s = true -> allDigits (pretty_N_go x s) = true)
  /\ decimalValue (pretty_N_go x s) = decimalFrom (Z.of_N x) s.
Proof.
  revert s. induction (N.lt_wf_0 x) as [x _ IH]. intros s.
  destruct (N.eq_dec x 0) as [->|Hpos].
  - rewrite pretty_N_go_0. now split.
  - rewrite pretty_N_go_step by lia.
    assert (Hlt : (x `div` 10 < x)%N) by (apply N.div_lt; lia).
    destruct (IH _ Hlt (String (pretty_N_char (x `mod` 10)) s)) as [Hall Hvalue].
    destruct (pretty_N_char_digit (x `mod` 10)) as [Hdigit Hdigitvalue].
    split.
    + intros Hs. apply Hall. cbn [allDigits]. now rewrite Hdigit, Hs.
    + rewrite Hvalue. cbn [decimalFrom]. f_equal.
      rewrite Hdigitvalue by (apply N.mod_lt; lia).
      pose proof (N.div_mod x 10 ltac:(lia)). lia.
Qed.

(** What [%d] prints for a number that is not negative is decimal digits,
    one or more, that read as the number. *)
Lemma fmtD_digits (n : Z) :
  0 <= n ->
  allDigits (fmtD n) = true /\ isEmpty (fmtD n) = false /\ decimalValue (fmtD n) = n.
Proof.
  intros Hn. destruct n as [|p|p]; [repeat split | | lia].
  unfold fmtD, pretty, pretty_Z, pretty, pretty_positive, pretty, pretty_N.
  destruct (decide (N.pos p = 0%N)) as [Hzero|_]; [discriminate|].
  destruct (pretty_N_go_decimal (N.pos p) EmptyString) as [Hall Hvalue].
  cbn [decimalFrom] in Hvalue.
  split; [now apply Hall|]. split; [|exact Hvalue].
  destruct (pretty_N_go (N.pos p) EmptyString); [discriminate Hvalue | reflexivity].
Qed.

(** X27.  What [prePromote] prints, [promote] reads: in a line of the form
    that the expression matches, a sequence number that is not negative,
    printed with [%d], is matched and parsed as itself, while a negative one
    is not matched, so that [promote] passes over the line. *)
Theorem printed_sequence_number_is_read_back (name host : string) (n : Z) :
  isEmpty name = false -> allBytes notQuote name = true ->
  isEmpty host = false -> allBytes notQuote host = true ->
  MinInt64 <= n <= MaxInt64 ->
  let line := "name=" +:+ DQ +:+ name +:+ DQ +:+ " host=" +:+ DQ +:+ host +:+ DQ
              +:+ " value=" +:+ DQ +:+ fmtD n +:+ DQ in
  if 0 <=? n
  then lineRegex line = Some (host, fmtD n) /\ ParseInt (fmtD n) = inr n
  else lineRegex line = None.
Proof.
  intros Ename Hname Ehost Hhost Hrange. cbv zeta.
  destruct (Z.leb_spec 0 n) as [Hn|Hn].
  - destruct (fmtD_digits n Hn) as (Hall & Hne & Hvalue). split.
    + apply lineRegex_matches. exists name.
      rewrite <- allDigits_allBytes. now repeat split.
    + destruct (ParseInt_digits (fmtD n) Hall Hne) as [_ ->].
      rewrite Hvalue. destruct (Z.leb_spec n MaxInt64); [reflexivity | lia].
  - destruct (lineRegex _) as [[host' digits]|] eqn:Hline; [exfalso | reflexivity].
    apply lineRegex_matches in Hline
      as (name' & Hline & Ename' & Hname' & Ehost' & Hhost' & Edigits & Hdigits).
    assert (Hspan : forall run rest run' rest' : string,
               allBytes notQuote run = true -> allBytes notQuote run' = true ->
               run +:+ DQ +:+ rest = run' +:+ DQ +:+ rest' ->
               run = run' /\ rest = rest').
    { intros run rest run' rest' Hrun Hrun' Heq.
      pose proof (span_append_quote notQuote run rest eq_refl Hrun) as H1.
      pose proof (span_append_quote notQuote run' rest' eq_refl Hrun') as H2.
      rewrite Heq in H1. rewrite H1 in H2. injection H2 as -> H2. split; [reflexivity|].
      now rewrite !append_nil in H2. }
    assert (Hstrip : forall p a b : string, p +:+ a = p +:+ b -> a = b).
    { intros p a b Heq. induction p as [|c p IH]; [exact Heq|].
      rewrite !append_cons in Heq. injection Heq as Heq. now apply IH. }
    apply (Hstrip "name=") in Hline. apply (Hstrip DQ) in Hline.
    apply Hspan in Hline as [<- Hline]; [|assumption..].
    apply (Hstrip " host=") in Hline. apply (Hstrip DQ) in Hline.
    apply Hspan in Hline as [<- Hline]; [|assumption..].
    apply (Hstrip " value=") in Hline. apply (Hstrip DQ) in Hline.
    destruct n as [|p|p]; [lia | lia |].
    unfold fmtD, pretty, pretty_Z in Hline. rewrite append_cons, append_nil in Hline.
    rewrite append_cons in Hline.
    destruct digits as [|c digits]; [discriminate|].
    rewrite append_cons in Hline. injection Hline as <- _.
    cbn [allBytes] in Hdigits. discriminate.
Qed.

Lemma printed_sequence_number_is_read_back_witness :
  lineRegex (Scenario.line "node1" (fmtD 42)) = Some ("node1", fmtD 42)
  /\ ParseInt (fmtD 42) = inr 42.
Proof.
  assert (Hrange : MinInt64 <= 42 <= MaxInt64) by (vm_compute; split; discriminate).
  exact (printed_sequence_number_is_read_back "ag1-sequence-number" "node1" 42
           eq_refl eq_refl eq_refl eq_refl Hrange).
Defined.

(** ** The connection timeout *)

Lemma seconds_quot (raw : Z) :
  0 <= raw <= 9223372036 -> Z.quot (seconds raw) 1000000000 = raw.
Proof.
  intros Hraw. unfold seconds, wrapInt.
  rewrite Z.mod_small by lia.
  replace (raw * 1000000000 + 2 ^ 63 - 2 ^ 63) with (raw * 1000000000) by lia.
  apply Z.quot_mul. lia.
Qed.

(** X28.  The connection timeout on its way to the driver.  Under every
    schedule, each connection that the health check asks for is asked with
    the host, the port, the credentials and the application name it was
    given; and for a flag [--connection-timeout] of 0 to 9223372036 seconds,
    which [doMain] turns into a duration, with that number of seconds as
    the timeout of the driver. *)
Theorem connection_timeout_reaches_driver
    (hostname : string) (port : Z) (username password applicationName : string)
    (raw : Z) (schedule : list Turn) (db : Instance) :
  0 <= raw <= 9223372036 ->
  exists later,
    requests (fst (OpenDBWithHealthCheck hostname port username password applicationName
                     (seconds raw) schedule db))
    = later ++ requests db
    /\ Forall (fun r => Spec.isOpen r = true ->
                        r = Open hostname port username password applicationName raw)
              later.
Proof.
  intros Hraw. unfold OpenDBWithHealthCheck. cbn [fst].
  pose (P := fun s : HealthCheck =>
               exists later,
                 requests (instance s) = later ++ requests db
                 /\ Forall (fun r => Spec.isOpen r = true ->
                                     r = Open hostname port username password
                                           applicationName raw)
                           later).
  enough (P (run hostname port username password applicationName (seconds raw)
               schedule (entered db))) as H by exact H.
  apply run_invariant.
  - intros t s e Hflow (later & Hrequests & Hlater). unfold P, turn.
    rewrite Hflow.
    destruct t, (connector s) as [i| |i err|i|];
      try (exists later; split; assumption).
    + unfold OpenDB. cbv zeta. rewrite (seconds_quot raw Hraw).
      destruct (opened _ _) as [e0|]; [|destruct (pinged _ _) as [e0|]]; cbn.
      * eexists (_ :: later). rewrite Hrequests. split; [reflexivity|].
        constructor; [reflexivity | assumption].
      * eexists (_ :: _ :: _ :: later). rewrite Hrequests. split; [reflexivity|].
        repeat (constructor; [discriminate || reflexivity|]). assumption.
      * eexists (_ :: _ :: later). rewrite Hrequests. split; [reflexivity|].
        repeat (constructor; [discriminate || reflexivity|]). assumption.
    + cbn. eexists (_ :: later). rewrite Hrequests. split; [reflexivity|].
      constructor; [discriminate | assumption].
    + unfold QueryDiagnostics. cbv zeta.
      destruct (diagnosticsRows _ _) as [e0|[rows [e0|]]]; cbn.
      * eexists (_ :: _ :: later). rewrite Hrequests. split; [reflexivity|].
        repeat (constructor; [discriminate|]). assumption.
      * eexists (_ :: _ :: later). rewrite Hrequests. split; [reflexivity|].
        repeat (constructor; [discriminate|]). assumption.
      * eexists (_ :: later). rewrite Hrequests. split; [reflexivity|].
        repeat (constructor; [discriminate|]). assumption.
    + destruct (timeoutChannel s); exists later; split; assumption.
    + destruct (timeoutChannel s); exists later; split; assumption.
    + destruct (timeoutChannel s); exists later; split; assumption.
    + destruct (timeoutChannel s); exists later; split; assumption.
    + destruct (timeoutChannel s); exists later; split; assumption.
  - exists []. split; [reflexivity | constructor].
Qed.

Lemma connection_timeout_reaches_driver_witness :
  exists later,
    requests (fst (OpenDBWithHealthCheck "localhost" 1433 "sa" "secret" "monitor-ag1"
                     (seconds 30) Scenario.refused (Scenario.fresh Scenario.unreachable)))
    = later ++ []
    /\ Forall (fun r => Spec.isOpen r = true ->
                        r = Open "localhost" 1433 "sa" "secret" "monitor-ag1" 30)
              later.
Proof.
  assert (Hraw : 0 <= 30 <= 9223372036) by (vm_compute; split; discriminate).
  exact (connection_timeout_reaches_driver "localhost" 1433 "sa" "secret" "monitor-ag1"
           30 Scenario.refused (Scenario.fresh Scenario.unreachable) Hraw).
Defined.

(** ** Leaving the process *)

(** X29.  [Exit] writes the error to the logger line by line: the lines it
    adds, joined by line feeds, are the text of the error, none of them
    holds a line feed, and there is at least one; without an error it adds
    nothing.  [OcfExit] exits with the code plus 10, which is the sum itself
    for every code of the range of [int] but the ten largest. *)
Theorem OcfExit_status_and_lines (logged : list string) (code : Z) (err : option error) :
  MinInt64 <= code <= MaxInt64 ->
  let r := OcfExit logged code err in
  snd r = Exited (if code + 10 <=? MaxInt64 then code + 10 else code + 10 - 2 ^ 64)
  /\ r = Exit logged (wrapInt (code + 10)) err
  /\ exists lines,
       fst r = logged ++ lines
       /\ match err with
          | None => lines = []
          | Some e =>
              Join lines LF = Error e
              /\ Forall (fun line =>
                           allBytes (fun c => negb (Ascii.eqb c linefeed)) line = true)
                        lines
              /\ lines <> []
          end.
Proof.
  unfold MinInt64, MaxInt64. intros Hcode. cbv zeta. unfold OcfExit, Exit. cbn [fst snd].
  split; [|split; [reflexivity|]].
  - f_equal. unfold wrapInt.
    destruct (Z.leb_spec (code + 10) (2 ^ 63 - 1)).
    + rewrite Z.mod_small by lia. lia.
    + replace (code + 10 + 2 ^ 63) with (code + 10 - 2 ^ 63 + 1 * 2 ^ 64) by lia.
      rewrite Z.mod_add by lia. rewrite Z.mod_small by lia. lia.
  - destruct err as [e|].
    + exists (Split (Error e) linefeed). split; [reflexivity|].
      destruct (Split_Join (Error e) linefeed) as [Hjoin Hfree].
      split; [exact Hjoin|]. split; [exact Hfree|].
      destruct (Error e) as [|c text]; cbn [Split]; [discriminate|].
      destruct (Ascii.eqb c linefeed); [discriminate|].
      destruct (Split text linefeed); discriminate.
    + exists []. split; [now rewrite app_nil_r | reflexivity].
Qed.

Lemma OcfExit_status_and_lines_witness :
  snd (OcfExit [] 7 None) = Exited 17.
Proof.
  assert (Hcode : MinInt64 <= 7 <= MaxInt64) by (vm_compute; split; discriminate).
  exact (proj1 (OcfExit_status_and_lines [] 7 None Hcode)).
Defined.

(** ** The connection when the process ends *)

Lemma closes_ask (r : Request) (db : Instance) :
  Spec.closes (ask r db)
  = ((if Spec.isClose r then 1 else 0) + Spec.closes db)%nat.
Proof. unfold Spec.closes. cbn. destruct (Spec.isClose r); reflexivity. Qed.

Lemma closes_exec (statement : string) (args : list SqlArg) (db : Instance) :
  Spec.closes (fst (exec statement args db)) = Spec.closes db.
Proof. reflexivity. Qed.

Lemma closes_query (query : Select) (agName : string) (db : Instance) :
  Spec.closes (ask (QueryRow query agName) db) = Spec.closes db.
Proof. reflexivity. Qed.

Lemma closes_waitForDatabasesToBeOnline
    (retries : nat) (db : Instance) (agName : string) (lastErr : option error) :
  Spec.closes (fst (waitForDatabasesToBeOnline retries db agName lastErr))
  = Spec.closes db.
Proof.
  revert db lastErr. induction retries as [|retries IH]; intros db lastErr;
    [reflexivity|].
  cbn [waitForDatabasesToBeOnline].
  destruct (GetDatabaseStates db agName) as [db1 [message e]] eqn:Hpoll.
  apply GetDatabaseStates_asks in Hpoll. subst db1.
  destruct e as [e|]; [now rewrite IH|].
  destruct (isEmpty message); [reflexivity | now rewrite IH].
Qed.

Lemma closes_waitUntilRoleSatisfies
    (fuel : nat) (db : Instance) (agName : string) (predicate : Z -> bool) :
  Spec.closes (fst (waitUntilRoleSatisfies fuel db agName predicate)) = Spec.closes db.
Proof.
  revert db. induction fuel as [|fuel IH]; intros db; [reflexivity|].
  cbn [waitUntilRoleSatisfies].
  destruct (GetRole db agName) as [db1 r] eqn:Hrole.
  apply GetRole_asks in Hrole. subst db1.
  destruct r as [err|[role desc]]; [reflexivity|].
  destruct (predicate role); [reflexivity | now rewrite IH].
Qed.

Lemma closes_updateRequiredSynchronizedSecondariesToCommit
    (db : Instance) (agName : string) (required : option Z) :
  Spec.closes (fst (updateRequiredSynchronizedSecondariesToCommit db agName required))
  = Spec.closes db.
Proof.
  unfold updateRequiredSynchronizedSecondariesToCommit,
    calculateAndSetRequiredSynchronizedSecondariesToCommit,
    setRequiredSynchronizedSecondariesToCommit,
    SetRequiredSynchronizedSecondariesToCommit.
  destruct required as [value|]; [reflexivity|].
  destruct (GetNumSyncCommitReplicas db agName) as [db1 r] eqn:Hnum.
  apply GetNumSyncCommitReplicas_asks in Hnum. subst db1.
  destruct r as [e|numSync]; reflexivity.
Qed.

Lemma closes_monitor (codes : OcfExitCodes) (db : Instance) (agName : string)
    (retries : Z) (required : option Z) :
  Spec.closes (fst (monitor codes db agName retries required)) = Spec.closes db.
Proof.
  unfold monitor.
  destruct (GetRole db agName) as [db1 r] eqn:Hrole.
  apply GetRole_asks in Hrole. subst db1.
  destruct r as [err|[role desc]]; [destruct (isErrNoRows err); reflexivity|].
  destruct (role =? RolePRIMARY); [|destruct (role =? RoleRESOLVING); reflexivity].
  destruct (GetDBFailoverMode _ agName) as [db2 mode] eqn:Hmode.
  apply GetDBFailoverMode_asks in Hmode. subst db2.
  destruct mode as [err|on]; [reflexivity|].
  destruct (if on then _ else _) as [db3 e] eqn:Hwait.
  assert (Hdb3 : Spec.closes db3 = Spec.closes db).
  { destruct on; [|injection Hwait as <- _; reflexivity].
    pose proof (closes_waitForDatabasesToBeOnline (Z.to_nat retries)
                  (ask (QueryRow SelectDBFailoverMode agName)
                     (ask (QueryRow SelectRole agName) db)) agName None) as H.
    rewrite Hwait in H. exact H. }
  destruct e as [e|]; [exact Hdb3|].
  pose proof (closes_updateRequiredSynchronizedSecondariesToCommit db3 agName required)
    as H.
  destruct (updateRequiredSynchronizedSecondariesToCommit db3 agName required)
    as [db4 [message|]]; cbn [fst] in *; congruence.
Qed.

Lemma closes_start (codes : OcfExitCodes) (fuel : nat) (db : Instance) (agName : string)
    (retries : Z) (required : option Z) :
  Spec.closes (fst (start codes fuel db agName retries required)) = Spec.closes db.
Proof.
  unfold start.
  destruct (SetRoleToSecondary db agName) as [db1 ignored] eqn:Hset.
  assert (Hdb1 : Spec.closes db1 = Spec.closes db).
  { unfold SetRoleToSecondary in Hset.
    pose proof (closes_exec ("ALTER AVAILABILITY GROUP " +:+ quoteName agName
                             +:+ " SET (ROLE = SECONDARY)") [] db) as H.
    rewrite Hset in H. exact H. }
  pose proof (closes_waitUntilRoleSatisfies fuel db1 agName
                (fun role => negb (role =? RoleRESOLVING))) as Hwait.
  destruct (waitUntilRoleSatisfies fuel db1 agName _) as [db2 [[err|]|]];
    cbn [fst] in *; [destruct (isErrNoRows err); cbn [fst]; congruence | | congruence].
  pose proof (closes_monitor codes db2 agName retries required) as Hmonitor.
  destruct (monitor codes db2 agName retries required) as [db3 result].
  cbn [fst] in *. congruence.
Qed.

Lemma closes_preStart (codes : OcfExitCodes) (db : Instance) (agName : string)
    (required : option Z) :
  Spec.closes (fst (preStart codes db agName required)) = Spec.closes db.
Proof.
  unfold preStart, isPrimary.
  destruct (GetRole db agName) as [db1 r] eqn:Hrole.
  apply GetRole_asks in Hrole. subst db1.
  destruct r as [err|[role desc]]; [reflexivity|].
  destruct (role =? RolePRIMARY); [|reflexivity].
  pose proof (closes_updateRequiredSynchronizedSecondariesToCommit
                (ask (QueryRow SelectRole agName) db) agName required) as H.
  destruct (updateRequiredSynchronizedSecondariesToCommit _ agName required)
    as [db2 [message|]]; exact H.
Qed.

Lemma closes_prePromote (codes : OcfExitCodes) (db : Instance) (agName : string) :
  Spec.closes (fst (prePromote codes db agName)) = Spec.closes db.
Proof.
  unfold prePromote.
  destruct (GetAvailabilityMode db agName) as [db1 mode] eqn:Hmode.
  apply GetAvailabilityMode_asks in Hmode. subst db1.
  destruct mode as [err|[mode desc]]; [reflexivity|].
  destruct (_ || _); [|reflexivity].
  destruct (GetSequenceNumber _ agName) as [db2 r] eqn:Hnumber.
  apply GetSequenceNumber_asks in Hnumber. subst db2.
  destruct r; reflexivity.
Qed.

Lemma closes_demote (codes : OcfExitCodes) (db : Instance) (agName : string) :
  Spec.closes (fst (demote codes db agName)) = Spec.closes db.
Proof.
  unfold demote, SetRoleToSecondary, exec. cbv zeta.
  destruct (executed _ _); reflexivity.
Qed.

Lemma closes_promote (codes : OcfExitCodes) (fuel : nat) (db : Instance)
    (agName sequenceNumbers newMaster : string) (skipPreCheck : bool)
    (required : option Z) :
  Spec.closes (fst (promote codes fuel db agName sequenceNumbers newMaster skipPreCheck
                      required))
  = Spec.closes db.
Proof.
  unfold promote, isPrimary.
  destruct (GetRole db agName) as [db1 r] eqn:Hrole.
  apply GetRole_asks in Hrole. subst db1.
  destruct r as [err|[role desc]]; [reflexivity|].
  destruct (role =? RolePRIMARY); [reflexivity|].
  destruct (if skipPreCheck then _ else _) as [db2 precheck] eqn:Hpre.
  assert (Hdb2 : Spec.closes db2 = Spec.closes db).
  { destruct skipPreCheck; [injection Hpre as <- _; reflexivity|].
    destruct (GetAvailabilityMode _ agName) as [db2' mode] eqn:Hmode.
    apply GetAvailabilityMode_asks in Hmode. subst db2'.
    destruct mode as [err|[mode desc']]; [injection Hpre as <- _; reflexivity|].
    destruct (mode =? AmSYNCHRONOUS_COMMIT); injection Hpre as <- _; reflexivity. }
  destruct precheck as [message|]; [exact Hdb2|].
  destruct (scanSequenceNumbers _ _ _) as [err|seen]; [exact Hdb2|].
  destruct (_ <? _); [exact Hdb2|].
  destruct (_ =? 0); [exact Hdb2|].
  destruct (GetNumSyncCommitReplicas db2 agName) as [db3 r] eqn:Hnum.
  apply GetNumSyncCommitReplicas_asks in Hnum. subst db3.
  destruct r as [err|numSync]; [exact Hdb2|].
  destruct (_ <? _); [exact Hdb2|].
  unfold Failover, exec. cbv zeta.
  destruct (executed _ _) as [e|]; [exact Hdb2|].
  match goal with
  | |- context [waitUntilRoleSatisfies fuel ?d agName ?f] =>
      pose proof (closes_waitUntilRoleSatisfies fuel d agName f) as Hwait;
      assert (Hd : Spec.closes d = Spec.closes db2) by reflexivity;
      destruct (waitUntilRoleSatisfies fuel d agName f) as [db5 [[e|]|]]
  end; cbn [fst] in *; [congruence | | congruence].
  unfold setRequiredSynchronizedSecondariesToCommit,
    SetRequiredSynchronizedSecondariesToCommit, exec. cbv zeta.
  destruct (executed _ _); cbn [fst];
    (transitivity (Spec.closes db5); [reflexivity | congruence]).
Qed.

(** X30.  The connection is closed when [doMain] returns, not when the
    process exits: once the session context is set, an action that
    [doMain] does not know leaves through the deferred [db.Close], while
    every action that ends in [OcfExit], or that is still waiting, leaves
    the connection as it is. *)
Theorem dispatch_closes_only_on_return
    (f : Flags) (fuel : nat) (required : option Z) (p : Process) :
  let r := dispatch f fuel required p in
  match snd r with
  | inl err =>
      err = errorString ("unknown value for --action " +:+ action f)
      /\ Spec.closes (sqlServer (fst r)) = S (Spec.closes (sqlServer p))
  | inr _ => Spec.closes (sqlServer (fst r)) = Spec.closes (sqlServer p)
  end.
Proof.
  cbv zeta. unfold dispatch.
  destruct (exec sessionContext [] (sqlServer p)) as [db e] eqn:Hexec.
  assert (Hdb : Spec.closes db = Spec.closes (sqlServer p)).
  { pose proof (closes_exec sessionContext [] (sqlServer p)) as H.
    rewrite Hexec in H. exact H. }
  destruct e as [e|]; [exact Hdb|].
  assert (Hfinish : forall (q : Process) (db' : Instance) (result : option Result),
             Spec.closes db' = Spec.closes (sqlServer p) ->
             let r := match result with
                      | Some (ocfExitCode, err) => ocfExit (withServer db' q) ocfExitCode err
                      | None => (withServer db' q, inr Running)
                      end in
             match snd r with
             | inl err =>
                 err = errorString ("unknown value for --action " +:+ action f)
                 /\ Spec.closes (sqlServer (fst r)) = S (Spec.closes (sqlServer p))
             | inr _ => Spec.closes (sqlServer (fst r)) = Spec.closes (sqlServer p)
             end).
  { intros q db' [[code err]|] Hcloses; exact Hcloses. }
  cbv zeta in Hfinish.
  destruct (String.eqb (action f) "start").
  { pose proof (closes_start (codes p) fuel db (agName f) (numRetriesForOnlineDatabases f)
                  required) as H.
    destruct (start _ _ _ _ _ _) as [db1 result]. apply Hfinish. cbn [fst] in H.
    congruence. }
  destruct (String.eqb (action f) "monitor").
  { pose proof (closes_monitor (codes p) db (agName f) (numRetriesForOnlineDatabases f)
                  required) as H.
    destruct (monitor _ _ _ _ _) as [db1 result].
    apply (Hfinish _ _ (Some result)). cbn [fst] in H. congruence. }
  destruct (String.eqb (action f) "pre-start").
  { pose proof (closes_preStart (codes p) db (agName f) required) as H.
    destruct (preStart _ _ _ _) as [db1 result].
    apply (Hfinish _ _ (Some result)). cbn [fst] in H. congruence. }
  destruct (String.eqb (action f) "post-stop").
  { pose proof (closes_preStart (codes p) db (agName f) required) as H.
    change (preStart (codes p) db (agName f) required)
      with (postStop (codes p) db (agName f) required) in H.
    destruct (postStop _ _ _ _) as [db1 result].
    apply (Hfinish _ _ (Some result)). cbn [fst] in H. congruence. }
  destruct (String.eqb (action f) "pre-promote").
  { pose proof (closes_prePromote (codes p) db (agName f)) as H.
    destruct (prePromote _ _ _) as [db1 [printed result]].
    apply (Hfinish _ _ (Some result)). cbn [fst] in H. congruence. }
  destruct (String.eqb (action f) "promote").
  { pose proof (closes_promote (codes p) fuel db (agName f) (sequenceNumbers f)
                  (newMaster f) (skipPreCheck f) required) as H.
    destruct (promote _ _ _ _ _ _ _ _) as [db1 result]. apply Hfinish.
    cbn [fst] in H. congruence. }
  destruct (String.eqb (action f) "demote").
  { pose proof (closes_demote (codes p) db (agName f)) as H.
    destruct (demote _ _ _) as [db1 result].
    apply (Hfinish _ _ (Some result)). cbn [fst] in H. congruence. }
  cbn [fst snd withServer sqlServer]. split; [reflexivity|].
  rewrite closes_ask. cbn. congruence.
Qed.
